(** * Dashboard de Monitoramento SIGA: the filter, alert and export pipeline

    A shallow embedding of [dashboard_siga_v7.py].  The script is a
    Streamlit page: on every interaction it is run from top to bottom over
    the uploaded table, it reads the operator's selections from the
    widgets, keeps two values in [st.session_state] between runs, and
    writes two spreadsheets.

    Conventions of the embedding:
    - a Python [str] is a [string] in which every character is one
      [ascii] (the texts of the script are Latin-1), so that Python's
      [len] is [String.length];
    - a pandas DataFrame is a list of named, typed columns over a list of
      rows; objects that the script shares between names (the table kept
      in the session, the table handed to the exporter) live in a heap and
      are updated there;
    - [st.session_state] is a finite map from keys to values;
    - what the script shows is appended to the page, element by element;
    - a Python exception and [st.stop()] end the run early. *)

From Stdlib Require Import ZArith List String Ascii DecimalString Sorted Permutation Lia Bool OrderedTypeEx.
From stdpp Require Import gmap strings list sorting.

Open Scope string_scope.
Open Scope Z_scope.

(** ** Text *)

Module Text.

(** Python's [len] on a [str]. *)
Definition len (s : string) : Z := Z.of_nat (String.length s).

(** Python's [str] on an [int]. *)
Definition str_int (z : Z) : string := NilZero.string_of_int (Z.to_int z).

Fixpoint zeros (n : nat) : string :=
  match n with
  | O => EmptyString
  | S n' => String "0"%char (zeros n')
  end.

(** The zero padding of the [%Y], [%m], [%d], [%H] ... directives. *)
Definition zfill (w : nat) (s : string) : string :=
  zeros (w - String.length s)%nat +:+ s.

(** The characters outside ASCII that the script's column names use. *)
Definition U_acute : ascii := "218"%char.
Definition c_cedilla : ascii := "231"%char.
Definition a_tilde : ascii := "227"%char.
Definition u_acute : ascii := "250"%char.

End Text.

(** ** Dates: [datetime.date] and [pandas.Timestamp] *)

Module Dates.

Record date := mk_date { year : Z; month : Z; day : Z }.

(** A timestamp of a [datetime64[ns]] column, to the second. *)
Record Timestamp := mk_ts {
  ts_year : Z; ts_month : Z; ts_day : Z;
  ts_hour : Z; ts_minute : Z; ts_second : Z }.

(** [x.date()] *)
Definition date_of (t : Timestamp) : date :=
  mk_date (ts_year t) (ts_month t) (ts_day t).

Definition is_leap (y : Z) : bool :=
  (y mod 4 =? 0) && (negb (y mod 100 =? 0) || (y mod 400 =? 0)).

Definition days_before_year (y : Z) : Z :=
  let p := y - 1 in p * 365 + p / 4 - p / 100 + p / 400.

Definition days_in_month : list Z :=
  [31; 28; 31; 30; 31; 30; 31; 31; 30; 31; 30; 31].

Definition days_before_month (y m : Z) : Z :=
  foldr Z.add 0 (take (Z.to_nat (m - 1)) days_in_month)
  + (if (2 <? m) && is_leap y then 1 else 0).

(** [date.toordinal()]: day 1 is 0001-01-01. *)
Definition toordinal (d : date) : Z :=
  days_before_year (year d) + days_before_month (year d) (month d) + day d.

(** [(a - b).days] for two dates. *)
Definition days_between (a b : date) : Z := toordinal a - toordinal b.

Definition valid_date (d : date) : Prop :=
  1 <= year d <= 9999 /\ 1 <= month d <= 12 /\
  1 <= day d <=
    default 0 (days_in_month !! Z.to_nat (month d - 1))
    + (if (month d =? 2) && is_leap (year d) then 1 else 0).

(** The order of timestamps: seconds since day 0. *)
Definition ts_key (t : Timestamp) : Z :=
  toordinal (date_of t) * 86400
  + ts_hour t * 3600 + ts_minute t * 60 + ts_second t.

(** [strftime('%Y-%m-%d')] *)
Definition strftime_ymd (t : Timestamp) : string :=
  Text.zfill 4 (Text.str_int (ts_year t)) +:+ "-" +:+
  Text.zfill 2 (Text.str_int (ts_month t)) +:+ "-" +:+
  Text.zfill 2 (Text.str_int (ts_day t)).

(** [str] of a timestamp. *)
Definition str_ts (t : Timestamp) : string :=
  strftime_ymd t +:+ " " +:+
  Text.zfill 2 (Text.str_int (ts_hour t)) +:+ ":" +:+
  Text.zfill 2 (Text.str_int (ts_minute t)) +:+ ":" +:+
  Text.zfill 2 (Text.str_int (ts_second t)).

#[global] Instance date_eq_dec : EqDecision date.
Proof. solve_decision. Defined.

#[global] Instance Timestamp_eq_dec : EqDecision Timestamp.
Proof. solve_decision. Defined.

End Dates.

Import Dates.

(** ** Cells, columns and tables *)

Module Pandas.

(** The values a cell can hold: the three missing values ([float('nan')],
    [None], [pd.NaT]), text, integers, floats with an integral value (the
    only floats the script computes) and timestamps. *)
Inductive cell :=
| NaN
| PyNone
| NaT
| Str (s : string)
| Int (z : Z)
| Float (z : Z)
| Ts (t : Timestamp).

#[global] Instance cell_eq_dec : EqDecision cell.
Proof. solve_decision. Defined.

Inductive dtype := datetime64_ns | object_ | int64 | float64.

#[global] Instance dtype_eq_dec : EqDecision dtype.
Proof. solve_decision. Defined.

(** [pd.notna(x)] *)
Definition notna (c : cell) : bool :=
  match c with
  | NaN | PyNone | NaT => false
  | _ => true
  end.

(** [str(x)], which is also what [astype(str)] puts in each cell. *)
Definition str_cell (c : cell) : string :=
  match c with
  | NaN => "nan"
  | PyNone => "None"
  | NaT => "NaT"
  | Str s => s
  | Int z => Text.str_int z
  | Float z => Text.str_int z +:+ ".0"
  | Ts t => str_ts t
  end.

(** A table: the columns in order, each with its name and dtype, and the
    rows, each a list of cells in column order. *)
Record DataFrame := mk_df {
  columns : list (string * dtype);
  rows : list (list cell) }.

#[global] Instance DataFrame_eq_dec : EqDecision DataFrame.
Proof. solve_decision. Defined.

Definition names (df : DataFrame) : list string := map fst (columns df).

(** Every row has one cell per column and no name is used twice. *)
Definition well_shaped (df : DataFrame) : Prop :=
  List.NoDup (names df) /\
  List.Forall (fun r => length r = length (columns df)) (rows df).

(** Python exceptions the script can run into. *)
Inductive exn :=
| KeyError (k : string)
| TypeError
| ValueError
| AttributeError.

(** How a computation ends: with a value, with [st.stop()], or with an
    exception. *)
Inductive outcome (A : Type) :=
| Ok (a : A)
| Stop
| Raise (e : exn).
Arguments Ok {A} a.
Arguments Stop {A}.
Arguments Raise {A} e.

Definition obind {A B} (o : outcome A) (k : A -> outcome B) : outcome B :=
  match o with
  | Ok a => k a
  | Stop => Stop
  | Raise e => Raise e
  end.

Fixpoint omap {A B} (f : A -> outcome B) (l : list A) : outcome (list B) :=
  match l with
  | [] => Ok []
  | x :: t => obind (f x) (fun y => obind (omap f t) (fun ys => Ok (y :: ys)))
  end.

(** Position of the column called [name]. *)
Fixpoint index_of (name : string) (l : list string) : option nat :=
  match l with
  | [] => None
  | x :: t => if decide (x = name) then Some O else S <$> index_of name t
  end.

(** [df[name]]: the position of the column, or [KeyError]. *)
Definition get_loc (df : DataFrame) (name : string) : outcome nat :=
  match index_of name (names df) with
  | Some j => Ok j
  | None => Raise (KeyError name)
  end.

Definition cell_at (j : nat) (r : list cell) : cell := default NaN (r !! j).

(** The values of column [j], top to bottom. *)
Definition values (df : DataFrame) (j : nat) : list cell :=
  map (cell_at j) (rows df).

Definition dtype_at (df : DataFrame) (j : nat) : dtype :=
  default object_ (snd <$> columns df !! j).

(** [s.dropna()] *)
Definition dropna (l : list cell) : list cell := List.filter notna l.

(** [s.unique()]: the distinct values, in order of first appearance. *)
Fixpoint unique (l : list cell) : list cell :=
  match l with
  | [] => []
  | x :: t => x :: List.filter (fun y => negb (bool_decide (y = x))) (unique t)
  end.

(** [s.isin(sel)] on one cell. *)
Definition isin (sel : list cell) (c : cell) : bool := bool_decide (c ∈ sel).

(** [df[mask]] for a mask computed row by row. *)
Definition keep (p : list cell -> bool) (df : DataFrame) : DataFrame :=
  mk_df (columns df) (List.filter p (rows df)).

(** *** Ordering of cells: Python's [<] and [sorted] *)

Inductive kind := KStr | KNum | KTs.

#[global] Instance kind_eq_dec : EqDecision kind.
Proof. solve_decision. Defined.

Definition kind_of (c : cell) : option kind :=
  match c with
  | Str _ => Some KStr
  | Int _ | Float _ => Some KNum
  | Ts _ => Some KTs
  | _ => None
  end.

Definition rank (c : cell) : Z :=
  match c with
  | NaN => 0 | PyNone => 1 | NaT => 2
  | Str _ => 3 | Int _ | Float _ => 4 | Ts _ => 5
  end.

(** [a <= b] on two cells of one kind: text by character codes, numbers
    by value, timestamps by time.  Between cells of different kinds, which
    Python refuses to compare, the order of [rank] makes the relation
    total; [sorted] below never relies on it. *)
Definition cell_leb (a b : cell) : bool :=
  match a, b with
  | Str x, Str y => String.leb x y
  | Int x, Int y | Int x, Float y | Float x, Int y | Float x, Float y => x <=? y
  | Ts x, Ts y => ts_key x <=? ts_key y
  | _, _ => rank a <=? rank b
  end.

(** Within one rank the order is the order of the values. *)
Definition within (a b : cell) : bool :=
  match a, b with
  | Str x, Str y => String.leb x y
  | Int x, Int y | Int x, Float y | Float x, Int y | Float x, Float y => x <=? y
  | Ts x, Ts y => ts_key x <=? ts_key y
  | _, _ => true
  end.

Definition cell_le (a b : cell) : Prop := cell_leb a b = true.

#[global] Instance cell_le_dec : RelDecision cell_le.
Proof. intros a b. unfold cell_le. apply _. Defined.

(** All the cells can be compared with each other. *)
Definition comparable (l : list cell) : bool :=
  match l with
  | [] => true
  | x :: t =>
      match t with
      | [] => true
      | _ => match kind_of x with
             | Some k => forallb (fun y => bool_decide (kind_of y = Some k)) t
             | None => false
             end
      end
  end.

(** [sorted(l)]: [TypeError] when two cells cannot be compared. *)
Definition sorted (l : list cell) : outcome (list cell) :=
  if comparable l then Ok (merge_sort cell_le l) else Raise TypeError.

End Pandas.

Import Pandas.

(** ** The page, the session and the heap *)

Module Streamlit.

Definition loc := nat.

(** What [st.session_state] holds under a key. *)
Inductive sval :=
| SInt (z : Z)
| SNames (l : list string)
| SFrame (l : loc).

(** The three mandatory filters. *)
Inductive filtro := F_tipos | F_fiscais | F_rpas.

(** [{'align': 'center', 'valign': 'vcenter'}] *)
Inductive xl_format := center_format.

(** A call [worksheet.set_column(first, last, width, cell_format)]. *)
Inductive call :=
| set_column (first last : nat) (width : option Z) (cell_format : option xl_format).

(** What the exporter hands to the spreadsheet writer: the sheet written
    by [to_excel] (header and body, without the index) and the column
    calls made on it afterwards, in order. *)
Record worksheet := mk_ws {
  sheet_name : string;
  header : list string;
  body : list (list cell);
  column_calls : list call }.

(** What the worksheet keeps of the column calls.  xlsxwriter stores one
    entry per column, [col_info[col] = [width, cell_format, ...]], and
    [set_column] writes the entry of every column of its range: a later
    call for a column replaces what an earlier call stored for it, the
    format included. *)
Definition col_info (calls : list call) : gmap nat (option Z * option xl_format) :=
  foldl (fun info c =>
           match c with
           | set_column first last width cell_format =>
               foldr (fun col m => <[col := (width, cell_format)]> m) info
                     (seq (Nat.min first last)
                          (S (Nat.max first last - Nat.min first last)))
           end) ∅ calls.

(** What the script puts on the page. *)
Inductive element :=
| Multiselect (f : filtro) (options default : list cell)
| Warning (f : filtro)
| AnoSelecionado (y : Z)
| Slider (min_value max_value value : Z)
| MultiselectMeses (options default : list string)
| InfoNenhumMes (y : Z)
| InfoNenhumaData
| MetricTotal (n : Z)
| MetricMaisAntiga (d : option Timestamp)
| Dataframe (index : list Z) (df : DataFrame)
| Success (limite : Z)
| DownloadButton (file_name : string) (data : worksheet).

Record world := mk_world {
  heap : gmap loc DataFrame;
  session_state : gmap string sval;
  page : list element }.

(** A step of the script. *)
Definition M (A : Type) : Type := world -> outcome A * world.

Definition ret {A} (a : A) : M A := fun w => (Ok a, w).

Definition bind {A B} (m : M A) (k : A -> M B) : M B := fun w =>
  match m w with
  | (Ok a, w') => k a w'
  | (Stop, w') => (Stop, w')
  | (Raise e, w') => (Raise e, w')
  end.

Declare Scope M_scope.
Delimit Scope M_scope with M.
Bind Scope M_scope with M.
Notation "x ← y ; z" := (bind y (fun x => z))
  (at level 20, y at level 100, z at level 200, only parsing) : M_scope.
Notation "x ;; z" := (bind x (fun _ => z))
  (at level 100, z at level 200, only parsing, right associativity) : M_scope.
Open Scope M_scope.

(** A computation that touches nothing. *)
Definition lift {A} (o : outcome A) : M A := fun w => (o, w).

(** [st.stop()] *)
Definition stop {A} : M A := fun w => (Stop, w).

Definition show (e : element) : M unit := fun w =>
  (Ok tt, mk_world (heap w) (session_state w) (page w ++ [e])).

(** [key in st.session_state] *)
Definition in_state (k : string) : M bool := fun w =>
  (Ok (bool_decide (is_Some (session_state w !! k))), w).

(** [st.session_state[key]] *)
Definition get_state (k : string) : M sval := fun w =>
  match session_state w !! k with
  | Some v => (Ok v, w)
  | None => (Raise (KeyError k), w)
  end.

(** [st.session_state[key] = v] *)
Definition set_state (k : string) (v : sval) : M unit := fun w =>
  (Ok tt, mk_world (heap w) (<[k := v]> (session_state w)) (page w)).

(** A new object. *)
Definition alloc (df : DataFrame) : M loc := fun w =>
  let l := fresh (dom (heap w)) in
  (Ok l, mk_world (<[l := df]> (heap w)) (session_state w) (page w)).

Definition load (l : loc) : M DataFrame := fun w =>
  (Ok (default (mk_df [] []) (heap w !! l)), w).

(** An update of the object at [l], seen through every name it has. *)
Definition store (l : loc) (df : DataFrame) : M unit := fun w =>
  (Ok tt, mk_world (<[l := df]> (heap w)) (session_state w) (page w)).

(** Nothing to do. *)
Definition skip : M unit := ret tt.

Fixpoint for_each {A} (l : list A) (body : A -> M unit) : M unit :=
  match l with
  | [] => skip
  | x :: t => body x ;; for_each t body
  end.

End Streamlit.

Import Streamlit.

(** ** The script *)

Module Dashboard.

(** *** Names *)

Definition col_tipo : string :=
  Eval cbv in "Tipo de Servi" +:+ String Text.c_cedilla "o".
Definition col_fiscal : string := "Fiscal".
Definition col_rpa : string := "RPA".
Definition col_ultima : string :=
  Eval cbv in String Text.U_acute "ltima Fiscaliza"
              +:+ String Text.c_cedilla (String Text.a_tilde "o").
Definition col_dias : string :=
  Eval cbv in "Dias desde " +:+ String Text.u_acute "ltima fiscaliza"
              +:+ String Text.c_cedilla (String Text.a_tilde "o").

Definition key_df : string := "df_original_available".
Definition key_year : string := "fiscal_year_slider".
Definition key_months : string := "fiscal_month_multiselect".

(** [month_names], a dict in insertion order. *)
Definition marco : string := Eval cbv in "Mar" +:+ String Text.c_cedilla "o".

Definition month_names : list (Z * string) :=
  [ (1, "Janeiro"); (2, "Fevereiro"); (3, marco); (4, "Abril");
    (5, "Maio"); (6, "Junho"); (7, "Julho"); (8, "Agosto");
    (9, "Setembro"); (10, "Outubro"); (11, "Novembro"); (12, "Dezembro") ].

(** [month_names[m]] *)
Definition month_name (m : Z) : outcome string :=
  match List.find (fun p => fst p =? m) month_names with
  | Some p => Ok (snd p)
  | None => Raise (KeyError (Text.str_int m))
  end.

(** [list(month_names.keys())[list(month_names.values()).index(m)]] *)
Definition month_number (m : string) : outcome Z :=
  match List.find (fun p => bool_decide (snd p = m)) month_names with
  | Some p => Ok (fst p)
  | None => Raise ValueError
  end.

(** *** The operator's choices

    The three mandatory multiselects and the alert slider have no key:
    what they return is the operator's current choice.  The year slider
    and the month multiselect are keyed, so their value is the entry of
    [st.session_state] under their key. *)
Record Selection := mk_sel {
  tipos_selecionados : list cell;
  fiscais_selecionados : list cell;
  rpas_selecionadas : list cell;
  alerta_dias_config : Z }.

(** *** Lines 129-155: the mandatory filters *)

(** [sorted(df[col].dropna().unique())] *)
Definition disponiveis (col : string) (df : DataFrame) : outcome (list cell) :=
  obind (get_loc df col) (fun j => sorted (unique (dropna (values df j)))).

(** Line 130. *)
Definition tipo_padrao (tipos_disponiveis : list cell) : list cell :=
  if bool_decide (Str "Buraco SIGA" ∈ tipos_disponiveis) then [Str "Buraco SIGA"]
  else match tipos_disponiveis with
       | [] => []
       | t :: _ => [t]
       end.

(** [df[df[col].isin(sel)]] *)
Definition filter_isin (col : string) (sel : list cell) (df : DataFrame)
  : outcome DataFrame :=
  obind (get_loc df col) (fun j => Ok (keep (fun r => isin sel (cell_at j r)) df)).

Definition is_nil {A} (l : list A) : bool :=
  match l with
  | [] => true
  | _ => false
  end.

Definition mandatory_filters (sel : Selection) (df : DataFrame) : M DataFrame :=
  tipos_disponiveis ← lift (disponiveis col_tipo df);
  show (Multiselect F_tipos tipos_disponiveis (tipo_padrao tipos_disponiveis)) ;;
  (if is_nil (tipos_selecionados sel)
   then (show (Warning F_tipos) ;; stop) else skip) ;;
  df ← lift (filter_isin col_tipo (tipos_selecionados sel) df);
  fiscais_disponiveis ← lift (disponiveis col_fiscal df);
  show (Multiselect F_fiscais fiscais_disponiveis fiscais_disponiveis) ;;
  df ← (if is_nil (fiscais_selecionados sel)
        then (show (Warning F_fiscais) ;; stop)
        else lift (filter_isin col_fiscal (fiscais_selecionados sel) df));
  rpas_disponiveis ← lift (disponiveis col_rpa df);
  show (Multiselect F_rpas rpas_disponiveis rpas_disponiveis) ;;
  df ← (if is_nil (rpas_selecionadas sel)
        then (show (Warning F_rpas) ;; stop)
        else lift (filter_isin col_rpa (rpas_selecionadas sel) df));
  ret df.

(** *** Lines 162-230: the temporal filter *)

(** The timestamps of a column without its missing values; a cell that
    is not a timestamp has no [.year]. *)
Definition timestamps (l : list cell) : outcome (list Timestamp) :=
  omap (fun c => match c with
                 | Ts t => Ok t
                 | _ => Raise AttributeError
                 end) l.

(** [s.min()] and [s.max()] on timestamps. *)
Definition ts_min (l : list Timestamp) : option Timestamp :=
  foldr (fun t acc => match acc with
                      | Some u => if ts_key u <? ts_key t then Some u else Some t
                      | None => Some t
                      end) None l.

Definition ts_max (l : list Timestamp) : option Timestamp :=
  foldr (fun t acc => match acc with
                      | Some u => if ts_key t <? ts_key u then Some u else Some t
                      | None => Some t
                      end) None l.

Definition year_of (o : option Timestamp) : Z := default 0 (ts_year <$> o).

(** [st.session_state[key]] read as a number and as a list of names. *)
Definition state_int (k : string) : M Z :=
  v ← get_state k;
  match v with
  | SInt z => ret z
  | _ => lift (Raise TypeError)
  end.

Definition state_names (k : string) : M (list string) :=
  v ← get_state k;
  match v with
  | SNames l => ret l
  | _ => lift (Raise TypeError)
  end.

(** Lines 167-174. *)
Definition init_state (df_original : loc) (hoje : date) : M unit :=
  has_year ← in_state key_year;
  (if has_year then skip
   else
     (o ← load df_original;
      j ← lift (get_loc o col_ultima);
      all_dates ← lift (timestamps (dropna (values o j)));
      if is_nil all_dates then set_state key_year (SInt (year hoje))
      else set_state key_year (SInt (year_of (ts_max all_dates))))) ;;
  has_months ← in_state key_months;
  if has_months then skip else set_state key_months (SNames []).

(** Lines 181-184. *)
Definition clamp_year (min_year max_year : Z) : M unit :=
  y ← state_int key_year;
  if y <? min_year then set_state key_year (SInt min_year)
  else if max_year <? y then set_state key_year (SInt max_year)
  else skip.

(** Lines 186-197. *)
Definition select_year (min_year max_year : Z) : M Z :=
  if min_year =? max_year then
    (show (AnoSelecionado min_year) ;;
     set_state key_year (SInt min_year) ;;
     ret min_year)
  else
    (value ← state_int key_year;
     show (Slider min_year max_year value) ;;
     ret value).

(** Line 205. *)
Definition months_in_year (valid : list Timestamp) (selected_year : Z) : list Z :=
  merge_sort Z.le
    (remove_dups (map ts_month
       (List.filter (fun d => ts_year d =? selected_year) valid))).

(** Lines 208-212. *)
Definition default_months (stored available : list string) : list string :=
  let kept := List.filter (fun m => bool_decide (m ∈ available)) stored in
  if is_nil kept && negb (is_nil available) then available else kept.

(** The mask of lines 224-225 on one cell of the date column. *)
Definition temporal_match (selected_year : Z) (nums : list Z) (c : cell) : bool :=
  match c with
  | Ts t => (ts_year t =? selected_year) && bool_decide (ts_month t ∈ nums)
  | _ => false
  end.

(** [df[col].dt]: only a [datetime64[ns]] column has the accessor. *)
Definition dt (df : DataFrame) (j : nat) : outcome unit :=
  if bool_decide (dtype_at df j = datetime64_ns) then Ok tt
  else Raise AttributeError.

(** Lines 181-197. *)
Definition year_widget (min_year max_year : Z) : M Z :=
  clamp_year min_year max_year ;;
  select_year min_year max_year.

(** Lines 199-228.  The month multiselect is keyed: what it returns is
    the list the session holds under its key, whatever [default] says.  A
    month of that list that is not offered is the month of no row of the
    selected year: Streamlit leaves it out of the value, the embedding
    keeps it, and the table kept is the same. *)
Definition month_filter (j : nat) (valid : list Timestamp) (selected_year : Z)
    (df : DataFrame) : M DataFrame :=
  available ← lift (omap month_name (months_in_year valid selected_year));
  stored ← state_names key_months;
  if is_nil available then (show (InfoNenhumMes selected_year) ;; ret df)
  else
    (show (MultiselectMeses available (default_months stored available)) ;;
     selected_months_names ← state_names key_months;
     selected_months_nums ← lift (omap month_number selected_months_names);
     lift (dt df j) ;;
     ret (keep (fun r => temporal_match selected_year selected_months_nums
                           (cell_at j r)) df)).

Definition temporal_filter (df_original : loc) (hoje : date) (df : DataFrame)
  : M DataFrame :=
  j ← lift (get_loc df col_ultima);
  let valid_cells := dropna (values df j) in
  init_state df_original hoje ;;
  if is_nil valid_cells then (show InfoNenhumaData ;; ret df)
  else
    (valid ← lift (timestamps valid_cells);
     selected_year ← year_widget (year_of (ts_min valid)) (year_of (ts_max valid));
     month_filter j valid selected_year df).

(** *** Lines 233-236: days since the last inspection *)

(** The lambda of line 235. *)
Definition dias_desde (hoje : date) (x : cell) : outcome (option Z) :=
  if notna x then
    match x with
    | Ts t => Ok (Some (days_between hoje (date_of t)))
    | _ => Raise AttributeError
    end
  else Ok None.

Definition is_some {A} (o : option A) : bool :=
  match o with
  | Some _ => true
  | None => false
  end.

(** The column pandas builds from the results of [apply]: integers when
    every result is one, floats with [NaN] when some are [None], a column
    of [None] when all are; over no row at all the column keeps the dtype
    of the one it was computed from. *)
Definition from_results (src : dtype) (l : list (option Z)) : dtype * list cell :=
  if is_nil l then (src, [])
  else if forallb is_some l then (int64, map (fun o => Int (default 0 o)) l)
  else if forallb (fun o => negb (is_some o)) l then (object_, map (fun _ => PyNone) l)
  else (float64, map (fun o => match o with
                               | Some z => Float z
                               | None => NaN
                               end) l).

(** [df[name] = column]: in place of the column of that name, or as a new
    last column. *)
Definition setitem (name : string) (col : dtype * list cell) (df : DataFrame)
  : DataFrame :=
  match index_of name (names df) with
  | Some j =>
      mk_df (<[j := (name, fst col)]> (columns df))
            (zip_with (fun r v => <[j := v]> r) (rows df) (snd col))
  | None =>
      mk_df (columns df ++ [(name, fst col)])
            (zip_with (fun (r : list cell) v => (r ++ [v])%list) (rows df) (snd col))
  end.

Definition add_dias (hoje : date) (df : DataFrame) : outcome DataFrame :=
  obind (get_loc df col_ultima) (fun j =>
  obind (omap (dias_desde hoje) (values df j)) (fun results =>
  Ok (setitem col_dias (from_results (dtype_at df j) results) df))).

(** The number in a cell of the computed column. *)
Definition num_of (c : cell) : option Z :=
  match c with
  | Int z | Float z => Some z
  | _ => None
  end.

(** *** Lines 347-358: the alert table *)

(** The lambda of line 348: [x > alerta_dias_config if x is not None else
    False]; a float [NaN] is greater than nothing. *)
Definition acima_do_limite (limite : Z) (x : cell) : outcome bool :=
  match x with
  | PyNone | NaN => Ok false
  | Int z | Float z => Ok (limite <? z)
  | _ => Raise TypeError
  end.

Fixpoint ofilter {A} (p : A -> outcome bool) (l : list A) : outcome (list A) :=
  match l with
  | [] => Ok []
  | x :: t =>
      obind (p x) (fun b =>
      obind (ofilter p t) (fun t' => Ok (if b then x :: t' else t')))
  end.

(** Line 347: [df[df[col_dias].apply(...)]].  Over a table with rows the
    results of [apply] are booleans, and they select rows.  Over a table
    without rows [apply] gives an empty column that is not boolean, which
    pandas reads as a list of column labels, an empty one: the result has
    no row and no column. *)
Definition alerta_visual (limite : Z) (df : DataFrame) : outcome DataFrame :=
  obind (get_loc df col_dias) (fun j =>
  if is_nil (rows df) then Ok (mk_df [] [])
  else
    obind (ofilter (fun r => acima_do_limite limite (cell_at j r)) (rows df))
          (fun kept => Ok (mk_df (columns df) kept))).

Definition dias_of (j : nat) (r : list cell) : Z := default 0 (num_of (cell_at j r)).

(** Descending order of two rows on the computed column. *)
Definition dias_ge (j : nat) (r1 r2 : list cell) : Prop := dias_of j r2 <= dias_of j r1.

#[global] Instance dias_ge_dec j : RelDecision (dias_ge j).
Proof. intros r1 r2. unfold dias_ge. apply _. Defined.

(** Line 353: [sort_values(by=col_dias, ascending=False)].  Which of two
    rows with the same number of days comes first is left to pandas, whose
    default sort is not stable: the order [merge_sort] gives them is one
    of the orders possible, and no property below depends on it. *)
Definition sort_values_desc (df : DataFrame) : outcome DataFrame :=
  obind (get_loc df col_dias) (fun j =>
  Ok (mk_df (columns df) (merge_sort (dias_ge j) (rows df)))).

(** Lines 353-354: [reset_index(drop=True)] and [index += 1]. *)
Definition rank_index (df : DataFrame) : list Z :=
  map (fun i => Z.of_nat i + 1) (seq 0 (length (rows df))).

Definition colunas_alerta : list string :=
  ["Id"; "RPA"; "Bairro"; "Logradouro"; "Trecho"; col_tipo; col_ultima; col_dias].

(** [df[[c1, c2, ...]]] *)
Definition select (cols : list string) (df : DataFrame) : outcome DataFrame :=
  obind (omap (get_loc df) cols) (fun js =>
  Ok (mk_df (map (fun j => default (EmptyString, object_) (columns df !! j)) js)
            (map (fun r => map (fun j => cell_at j r) js) (rows df)))).

(** The alert table: the rows over the limit, in descending order, and
    their ranks. *)
Definition alert_selector (limite : Z) (df : DataFrame)
  : outcome (list Z * DataFrame) :=
  obind (alerta_visual limite df) (fun df_alerta_visual =>
  if is_nil (rows df_alerta_visual) then Ok ([], df_alerta_visual)
  else obind (sort_values_desc df_alerta_visual) (fun df_alerta_ordenado =>
       Ok (rank_index df_alerta_ordenado, df_alerta_ordenado))).

Definition show_alerta (limite : Z) (alerta : list Z * DataFrame) : M unit :=
  if is_nil (rows (snd alerta)) then show (Success limite)
  else
    (shown ← lift (select colunas_alerta (snd alerta));
     show (Dataframe (fst alerta) shown)).

(** *** Lines 253-266: the figures kept from the metrics *)

Definition metrics (df : DataFrame) : M unit :=
  show (MetricTotal (Z.of_nat (length (rows df)))) ;;
  j ← lift (get_loc df col_ultima);
  datas_validas ← lift (timestamps (dropna (values df j)));
  show (MetricMaisAntiga (ts_min datas_validas)).

(** *** Lines 50-80: the exporter *)

(** [strftime('%Y-%m-%d')] on one cell of a [datetime64[ns]] column: a
    missing time gives a missing text. *)
Definition strftime_cell (c : cell) : cell :=
  match c with
  | Ts t => Str (strftime_ymd t)
  | NaT => NaN
  | _ => c
  end.

(** Line 55 for the column at [j]: its cells become text and its dtype
    [object]. *)
Definition set_strftime (j : nat) (df : DataFrame) : DataFrame :=
  mk_df (alter (fun c => (fst c, object_)) j (columns df))
        (map (alter strftime_cell j) (rows df)).

(** [df.select_dtypes(include=['datetime64[ns]']).columns] *)
Definition datetime_columns (df : DataFrame) : list string :=
  map fst (List.filter (fun c => bool_decide (snd c = datetime64_ns)) (columns df)).

(** [s.max()] of a column of lengths; nothing ([NaN]) for no row. *)
Definition series_max (l : list Z) : option Z :=
  foldr (fun x acc => match acc with
                      | Some y => Some (Z.max x y)
                      | None => Some x
                      end) None l.

(** Python's [max(a, b)] with [b] possibly [NaN]: [b] only if [b > a]. *)
Definition py_max (a : Z) (b : option Z) : Z :=
  match b with
  | Some y => if a <? y then y else a
  | None => a
  end.

(** Lines 73-76. *)
Definition max_len (df : DataFrame) (col : string) : outcome Z :=
  obind (get_loc df col) (fun j =>
  Ok (py_max (Text.len col)
             (series_max (map (fun c => Text.len (str_cell c)) (values df j))) + 2)).

(** Lines 67-77 for the column [col] at position [i]. *)
Definition format_column (df : DataFrame) (i : nat) (col : string)
  : outcome (list call) :=
  obind (max_len df col) (fun w =>
  Ok [set_column i i None (Some center_format); set_column i i (Some w) None]).

Definition enumerate {A} (l : list A) : list (nat * A) := imap pair l.

Definition download_excel_with_formatting
    (df_to_export : loc) (filename sheet : string) : M worksheet :=
  df0 ← load df_to_export;
  for_each (datetime_columns df0) (fun col =>
    df ← load df_to_export;
    j ← lift (get_loc df col);
    store df_to_export (set_strftime j df)) ;;
  df ← load df_to_export;
  calls ← lift (omap (fun p => format_column df (fst p) (snd p))
                     (enumerate (names df)));
  ret (mk_ws sheet (names df) (rows df) (concat calls)).

(** *** Lines 115-389: one run of the script on an uploaded table *)

Record report := mk_report {
  working : DataFrame;
  alerta : list Z * DataFrame;
  buffer_completo : worksheet;
  buffer_filtrado : worksheet }.

(** A rerun starts from an empty page. *)
Definition clear_page : M unit := fun w =>
  (Ok tt, mk_world (heap w) (session_state w) []).

(** Lines 233-389: the computed column, the metrics, the alert table and
    the two downloads. *)
Definition display_and_export
    (df_original : loc) (sel : Selection) (hoje : date) (df : DataFrame) : M report :=
  df ← lift (add_dias hoje df);
  metrics df ;;
  alerta ← lift (alert_selector (alerta_dias_config sel) df);
  show_alerta (alerta_dias_config sel) alerta ;;
  buffer_completo ← download_excel_with_formatting df_original
                      "dados_siga_completos_tratados.xlsx" "Dados Completos Tratados";
  show (DownloadButton "dados_siga_completos_tratados.xlsx" buffer_completo) ;;
  df_filtrado ← alloc df;
  buffer_filtrado ← download_excel_with_formatting df_filtrado
                      "dados_siga_filtrados.xlsx" "Dados Filtrados";
  show (DownloadButton "dados_siga_filtrados.xlsx" buffer_filtrado) ;;
  ret (mk_report df alerta buffer_completo buffer_filtrado).

(** [uploaded] is what [load_and_preprocess_data] returns for the file:
    the normalized full table, a new copy of it on every run.  The working
    table [df] has one name until the exporter receives it, so it is
    passed as a value and becomes a heap object there. *)
Definition run (uploaded : DataFrame) (sel : Selection) (hoje : date) : M report :=
  clear_page ;;
  df_original ← alloc uploaded;
  set_state key_df (SFrame df_original) ;;
  df ← load df_original;
  df ← mandatory_filters sel df;
  df ← temporal_filter df_original hoje df;
  display_and_export df_original sel hoje df.

End Dashboard.

Import Dashboard.

(** ** Notions used to state the properties *)

Module Spec.

(** A cell the computed column can hold. *)
Definition dias_cell (c : cell) : Prop :=
  match c with
  | Int _ | Float _ | NaN | PyNone => True
  | _ => False
  end.

(** The days in the cell are known and strictly above the limit. *)
Definition exceeds (limite : Z) (c : cell) : bool :=
  match num_of c with
  | Some z => limite <? z
  | None => false
  end.

(** Strictly descending on the computed column. *)
Definition dias_gt (j : nat) (r1 r2 : list cell) : Prop := dias_of j r2 < dias_of j r1.

(** Where [setitem] puts the column. *)
Definition setitem_loc (name : string) (df : DataFrame) : nat :=
  default (length (columns df)) (index_of name (names df)).

(** *** The exporter, column by column *)

Definition is_datetime (c : string * dtype) : bool :=
  bool_decide (snd c = datetime64_ns).

(** A row as the exporter writes it: the cells of the date-time columns
    as plain dates, the others as they are. *)
Definition export_row (cols : list (string * dtype)) (r : list cell) : list cell :=
  zip_with (fun c x => if is_datetime c then strftime_cell x else x) cols r.

(** The table as the exporter writes it. *)
Definition exported (df : DataFrame) : DataFrame :=
  mk_df (map (fun c => if is_datetime c then (fst c, object_) else c) (columns df))
        (map (export_row (columns df)) (rows df)).

(** The table after line 55 has run for the columns named. *)
Definition strftime_all (cols : list string) (df : DataFrame) : DataFrame :=
  foldl (fun d col => match index_of col (names d) with
                      | Some j => set_strftime j d
                      | None => d
                      end) df cols.

(** The same, said column by column: the columns whose name is listed
    are converted. *)
Definition converted (listed : list string) (df : DataFrame) : DataFrame :=
  mk_df (map (fun c => if bool_decide (fst c ∈ listed) then (fst c, object_) else c)
             (columns df))
        (map (fun r => zip_with (fun c x => if bool_decide (fst c ∈ listed)
                                           then strftime_cell x else x)
                                (columns df) r)
             (rows df)).

(** [max(header length, maximum cell-text length) + 2]; over no cell the
    maximum is taken to be 0. *)
Definition width_of (name : string) (cells : list cell) : Z :=
  Z.max (Text.len name)
        (foldr Z.max 0 (map (fun c => Text.len (str_cell c)) cells)) + 2.

(** The two calls made for the column [name] at position [i]. *)
Definition calls_of (df : DataFrame) (i : nat) (name : string) : list call :=
  [set_column i i None (Some center_format);
   set_column i i (Some (width_of name (values df i))) None].

(** Text of the form YYYY-MM-DD. *)
Definition is_digit (a : ascii) : bool :=
  (48 <=? Z.of_nat (nat_of_ascii a)) && (Z.of_nat (nat_of_ascii a) <=? 57).

Definition digits (n : nat) (s : string) : Prop :=
  String.length s = n /\ forallb is_digit (list_ascii_of_string s) = true.

(** [digits], as a test. *)
Definition digitsb (n : nat) (s : string) : bool :=
  (String.length s =? n)%nat && forallb is_digit (list_ascii_of_string s).

Definition ymd_shape (s : string) : Prop :=
  exists y m d : string,
    s = (y +:+ "-" +:+ m +:+ "-" +:+ d) /\
    digits 4 y /\ digits 2 m /\ digits 2 d.

(** *** Steps that only add to the page *)

Definition blank : world := mk_world ∅ ∅ [].

(** A step that reads nothing of the world and only adds to the page. *)
Definition uniform {A} (m : M A) : Prop :=
  forall w, m w = (fst (m blank),
                   mk_world (heap w) (session_state w)
                            (page w ++ page (snd (m blank)))).

(** *** The table narrowed by the mandatory filters *)

Definition narrowed_by_tipo (sel : Selection) (T : DataFrame) : outcome DataFrame :=
  filter_isin col_tipo (tipos_selecionados sel) T.

Definition narrowed_by_fiscal (sel : Selection) (T : DataFrame) : outcome DataFrame :=
  obind (narrowed_by_tipo sel T) (filter_isin col_fiscal (fiscais_selecionados sel)).

Definition narrowed (sel : Selection) (T : DataFrame) : outcome DataFrame :=
  obind (narrowed_by_fiscal sel T) (filter_isin col_rpa (rpas_selecionadas sel)).

(** The column [col] exists and its values are all text, all numbers or
    all timestamps. *)
Definition one_kind (T : DataFrame) (col : string) : Prop :=
  exists j k, get_loc T col = Ok j /\
    forall c, In c (values T j) -> notna c = true -> kind_of c = Some k.

(** A widget of the mandatory filters or their warning. *)
Definition is_filter_widget (e : element) : Prop :=
  match e with
  | Multiselect _ _ _ | Warning _ => True
  | _ => False
  end.

(** What the mandatory filters may put on the page for the table [T] and
    the selection [sel]: each multiselect offers the values of its column in
    the table as narrowed by the filters before it. *)
Definition offered_filter (sel : Selection) (T : DataFrame) (e : element) : Prop :=
  match e with
  | Multiselect F_tipos o d => disponiveis col_tipo T = Ok o /\ d = tipo_padrao o
  | Multiselect F_fiscais o d =>
      obind (narrowed_by_tipo sel T) (disponiveis col_fiscal) = Ok o /\ d = o
  | Multiselect F_rpas o d =>
      obind (narrowed_by_fiscal sel T) (disponiveis col_rpa) = Ok o /\ d = o
  | Warning _ => True
  | _ => False
  end.

(** [df] has the columns of [T] and some of its rows. *)
Definition narrowing_of (T df : DataFrame) : Prop :=
  columns df = columns T /\ forall r, In r (rows df) -> In r (rows T).

(** A multiselect of the mandatory filters. *)
Definition is_multiselect (e : element) : Prop :=
  match e with
  | Multiselect _ _ _ => True
  | _ => False
  end.

(** *** The temporal filter as a function of the session *)

(** Line 168-171: the year a session without one starts from. *)
Definition init_year (T : DataFrame) (hoje : date) : outcome Z :=
  obind (get_loc T col_ultima) (fun j =>
  obind (timestamps (dropna (values T j))) (fun all_dates =>
  Ok (if is_nil all_dates then year hoje else year_of (ts_max all_dates)))).

Definition init_months (ss : gmap string sval) : gmap string sval :=
  match ss !! key_months with
  | Some _ => ss
  | None => <[key_months := SNames []]> ss
  end.

Definition init_session (T : DataFrame) (hoje : date) (ss : gmap string sval)
  : outcome unit * gmap string sval :=
  match ss !! key_year with
  | Some _ => (Ok tt, init_months ss)
  | None =>
      match init_year T hoje with
      | Ok y => (Ok tt, init_months (<[key_year := SInt y]> ss))
      | Stop => (Stop, ss)
      | Raise e => (Raise e, ss)
      end
  end.

(** [y] brought into [[mn, mx]]. *)
Definition clamp (mn mx y : Z) : Z :=
  if y <? mn then mn else if mx <? y then mx else y.

(** The year the widget of lines 186-197 gives. *)
Definition chosen (mn mx y : Z) : Z := if mn =? mx then mn else clamp mn mx y.

Definition year_element (mn mx y : Z) : element :=
  if mn =? mx then AnoSelecionado mn else Slider mn mx (clamp mn mx y).

Definition year_step (mn mx : Z) (ss : gmap string sval)
  : outcome Z * gmap string sval * list element :=
  match ss !! key_year with
  | Some (SInt y) =>
      (Ok (chosen mn mx y), <[key_year := SInt (chosen mn mx y)]> ss,
       [year_element mn mx y])
  | Some _ => (Raise TypeError, ss, [])
  | None => (Raise (KeyError key_year), ss, [])
  end.

Definition month_step (j : nat) (valid : list Timestamp) (y : Z) (df : DataFrame)
    (ss : gmap string sval) : outcome DataFrame * list element :=
  match omap month_name (months_in_year valid y) with
  | Ok available =>
      match ss !! key_months with
      | Some (SNames stored) =>
          if is_nil available then (Ok df, [InfoNenhumMes y])
          else
            (obind (omap month_number stored) (fun nums =>
             obind (dt df j) (fun _ =>
             Ok (keep (fun r => temporal_match y nums (cell_at j r)) df))),
             [MultiselectMeses available (default_months stored available)])
      | Some _ => (Raise TypeError, [])
      | None => (Raise (KeyError key_months), [])
      end
  | Stop => (Stop, [])
  | Raise e => (Raise e, [])
  end.

Definition temporal_result (T : DataFrame) (hoje : date) (df : DataFrame)
    (ss : gmap string sval) : outcome DataFrame * gmap string sval * list element :=
  match get_loc df col_ultima with
  | Ok j =>
      match init_session T hoje ss with
      | (Ok _, ss1) =>
          if is_nil (dropna (values df j)) then (Ok df, ss1, [InfoNenhumaData])
          else
            match timestamps (dropna (values df j)) with
            | Ok valid =>
                match year_step (year_of (ts_min valid)) (year_of (ts_max valid)) ss1 with
                | (Ok y, ss2, d1) =>
                    (fst (month_step j valid y df ss2), ss2,
                     (d1 ++ snd (month_step j valid y df ss2))%list)
                | (Stop, ss2, d1) => (Stop, ss2, d1)
                | (Raise e, ss2, d1) => (Raise e, ss2, d1)
                end
            | Stop => (Stop, ss1, [])
            | Raise e => (Raise e, ss1, [])
            end
      | (Stop, ss1) => (Stop, ss1, [])
      | (Raise e, ss1) => (Raise e, ss1, [])
      end
  | Stop => (Stop, ss, [])
  | Raise e => (Raise e, ss, [])
  end.

(** What the exporter returns for the table [df] it finds after the
    loop of lines 54-55. *)
Definition written (df : DataFrame) (sheet : string) : outcome worksheet :=
  obind (omap (fun p => format_column df (fst p) (snd p)) (enumerate (names df)))
        (fun calls => Ok (mk_ws sheet (names df) (rows df) (concat calls))).

(** The table the exporter leaves in the heap in place of [df]. *)
Definition rewritten (df : DataFrame) : DataFrame :=
  strftime_all (datetime_columns df) df.

(** The year the session holds when the year widget is reached: the
    year it held before the run or, on a first visit, the initial year of
    lines 168-171. *)
Definition year_before (T : DataFrame) (hoje : date) (ss : gmap string sval)
  : option Z :=
  match ss !! key_year with
  | Some (SInt y) => Some y
  | Some _ => None
  | None =>
      match init_year T hoje with
      | Ok y => Some y
      | _ => None
      end
  end.

(** What the temporal filter may put on the page for the table [df] it
    receives, with [ss] the session before it and [ss'] the session after:
    the year range comes from the valid dates of [df]; the value of the
    slider is the year of [ss] brought into that range, and it is the year
    of [ss']; the months are those of the dates of [df] in the year of
    [ss']. *)
Definition offered_temporal (T : DataFrame) (hoje : date) (df : DataFrame)
    (ss ss' : gmap string sval) (e : element) : Prop :=
  match e with
  | InfoNenhumaData | InfoNenhumMes _ => True
  | AnoSelecionado y =>
      exists j valid, get_loc df col_ultima = Ok j /\
        timestamps (dropna (values df j)) = Ok valid /\
        y = year_of (ts_min valid) /\ y = year_of (ts_max valid) /\
        ss' !! key_year = Some (SInt y)
  | Slider mn mx v =>
      exists j valid y0, get_loc df col_ultima = Ok j /\
        timestamps (dropna (values df j)) = Ok valid /\
        mn = year_of (ts_min valid) /\ mx = year_of (ts_max valid) /\
        mn <> mx /\
        year_before T hoje ss = Some y0 /\ v = clamp mn mx y0 /\
        ss' !! key_year = Some (SInt v)
  | MultiselectMeses o _ =>
      exists j valid y, get_loc df col_ultima = Ok j /\
        timestamps (dropna (values df j)) = Ok valid /\
        ss' !! key_year = Some (SInt y) /\
        omap month_name (months_in_year valid y) = Ok o
  | _ => False
  end.

(** What is shown after the filters. *)
Definition is_display (e : element) : Prop :=
  match e with
  | MetricTotal _ | MetricMaisAntiga _ | Dataframe _ _ | Success _
  | DownloadButton _ _ => True
  | _ => False
  end.

(** *** Well-formed dates *)

(** A timestamp that names a day of the calendar and a time of the day. *)
Definition valid_ts (t : Timestamp) : Prop :=
  valid_date (date_of t) /\
  0 <= ts_hour t <= 23 /\ 0 <= ts_minute t <= 59 /\ 0 <= ts_second t <= 59.

(** Every timestamp of the last-inspection column is well formed. *)
Definition dates_valid (T : DataFrame) : Prop :=
  forall j r t, get_loc T col_ultima = Ok j -> In r (rows T) ->
    cell_at j r = Ts t -> valid_ts t.

(** The year and the months kept in the session. *)
Definition filter_state (w : world) : option sval * option sval :=
  (session_state w !! key_year, session_state w !! key_months).

End Spec.

Import Spec.

(** ** Tables and sessions to run the script on *)

Module Examples.

Definition schema : list (string * dtype) :=
  [("Id", int64); ("RPA", object_); ("Bairro", object_); ("Logradouro", object_);
   ("Trecho", object_); (col_tipo, object_); (col_fiscal, object_);
   ("Data de Abertura", datetime64_ns); (col_ultima, datetime64_ns)].

Definition record (id : Z) (rpa tipo fiscal : string) (ultima : cell) : list cell :=
  [Int id; Str rpa; Str "Centro"; Str "Rua A"; Str "T1"; Str tipo; Str fiscal;
   Ts (mk_ts 2023 1 2 0 0 0); ultima].

(** Four services: two inspected on the same day, one never. *)
Definition T1 : DataFrame :=
  mk_df schema
    [ record 1 "RPA 1" "Buraco SIGA" "Fiscal SIGA RPA 1" (Ts (mk_ts 2024 1 15 10 30 0));
      record 2 "RPA 2" "Poda" "Fiscal SIGA RPA 2" (Ts (mk_ts 2023 6 1 0 0 0));
      record 3 "RPA 1" "Buraco SIGA" "Fiscal SIGA RPA 1" NaT;
      record 4 "RPA 3" "Buraco SIGA" "Fiscal SIGA RPA 3" (Ts (mk_ts 2024 1 15 0 0 0)) ].

(** Inspections in 2021 and 2023, none in 2022. *)
Definition T_gap : DataFrame :=
  mk_df schema
    [ record 1 "RPA 1" "Buraco SIGA" "Fiscal SIGA RPA 1" (Ts (mk_ts 2021 3 10 0 0 0));
      record 2 "RPA 1" "Buraco SIGA" "Fiscal SIGA RPA 1" (Ts (mk_ts 2023 5 20 0 0 0)) ].

(** A service that was never inspected. *)
Definition T_missing : DataFrame :=
  mk_df schema [ record 1 "RPA 1" "Buraco SIGA" "Fiscal SIGA RPA 1" NaT ].

(** A table with the computed column and without most columns of the
    alert. *)
Definition W_ties : DataFrame :=
  mk_df [("Id", int64); (col_ultima, datetime64_ns); (col_dias, int64)]
    [ [Int 1; Ts (mk_ts 2024 1 15 10 30 0); Int 46];
      [Int 4; Ts (mk_ts 2024 1 15 0 0 0); Int 46] ].

Definition hoje1 : date := mk_date 2024 3 1.

Definition sel1 : Selection :=
  mk_sel [Str "Buraco SIGA"] [Str "Fiscal SIGA RPA 1"; Str "Fiscal SIGA RPA 3"]
         [Str "RPA 1"; Str "RPA 3"] 30.

Definition sel_poda : Selection :=
  mk_sel [Str "Poda"] [Str "Fiscal SIGA RPA 2"] [Str "RPA 2"] 30.

Definition sel_rpa1 : Selection :=
  mk_sel [Str "Buraco SIGA"] [Str "Fiscal SIGA RPA 1"] [Str "RPA 1"] 30.

(** Every service type, inspector and region of [T1]. *)
Definition sel_all : Selection :=
  mk_sel [Str "Buraco SIGA"; Str "Poda"]
         [Str "Fiscal SIGA RPA 1"; Str "Fiscal SIGA RPA 2"; Str "Fiscal SIGA RPA 3"]
         [Str "RPA 1"; Str "RPA 2"; Str "RPA 3"] 30.

Definition sel_none : Selection :=
  mk_sel [Str "Buraco SIGA"] [] [Str "RPA 1"] 30.

(** A first visit: nothing in the heap, nothing in the session. *)
Definition w_new : world := mk_world ∅ ∅ [].

(** A session in which the operator has picked January. *)
Definition w_jan : world :=
  mk_world ∅ (<[key_months := SNames ["Janeiro"]]> ∅) [].

(** A session in which the operator has moved the year to 2022. *)
Definition w_2022 : world :=
  mk_world ∅ (<[key_year := SInt 2022]> (<[key_months := SNames ["Janeiro"]]> ∅)) [].

(** [T1] is the loaded table and the operator has picked January. *)
Definition w_T1_jan : world :=
  mk_world (<[O := T1]> ∅) (<[key_months := SNames ["Janeiro"]]> ∅) [].

(** A world in which [T_missing] is the loaded table. *)
Definition w_missing : world := mk_world (<[O := T_missing]> ∅) ∅ [].

Definition empty_report : report :=
  mk_report (mk_df [] []) ([], mk_df [] []) (mk_ws EmptyString [] [] []) (mk_ws EmptyString [] [] []).

(** The report of a run, when it completes. *)
Definition report_of (r : outcome report * world) : report :=
  match fst r with
  | Ok rep => rep
  | _ => empty_report
  end.

(** The working table of the run on [T1] in January: the two services
    inspected on 2024-01-15, 46 days before [hoje1]. *)
Definition W1 : DataFrame := working (report_of (run T1 sel1 hoje1 w_jan)).

Definition table_of (r : outcome DataFrame * world) : DataFrame :=
  match fst r with
  | Ok df => df
  | _ => mk_df [] []
  end.

(** The column of a mandatory filter. *)
Definition col_of (f : filtro) : string :=
  match f with
  | F_tipos => col_tipo
  | F_fiscais => col_fiscal
  | F_rpas => col_rpa
  end.

End Examples.

Import Examples.

(** ** Lines 19-47: loading the sheet *)

Module Loader.

Definition a_acute : ascii := "225"%char.

Definition col_abertura : string := "Data de Abertura".

Definition colunas_excluir : list string :=
  Eval cbv in
  [ "Priorit" +:+ String a_acute "ria?"; "Status"; "Percentual";
    "Empresa Executora"; "Link da OS";
    "Localiza" +:+ String Text.c_cedilla (String Text.a_tilde "o Google Maps") ].

(** The dict [fiscais], in insertion order; its keys are distinct. *)
Definition fiscais : list (string * string) :=
  [ ("norconsultdr045@gmail.com", "Fiscal Drenagem RPA 4.5");
    ("norconsultdr001@gmail.com", "Fiscal Drenagem RPA 1");
    ("norconsult003@gmail.com", "Fiscal SIGA RPA 3");
    ("rpa2norconsult@gmail.com", "Fiscal SIGA RPA 2");
    ("norconsult004@gmail.com", "Fiscal SIGA RPA 4");
    ("norconsult005@gmail.com", "Fiscal SIGA RPA 5");
    ("norconsult001@gmail.com", "Fiscal SIGA RPA 1");
    ("norconsult006@gmail.com", "Fiscal SIGA RPA 6");
    ("norconsultdr023@gmail.com", "Fiscal Drenagem RPA 2.3");
    ("norconsultdr006@gmail.com", "Fiscal Drenagem RPA 6") ].

(** [s.replace(d)] on one cell: a text that is a key of [d] becomes the
    value under that key; every other cell stays. *)
Definition replace (d : list (string * string)) (c : cell) : cell :=
  match c with
  | Str s =>
      match List.find (fun p => bool_decide (fst p = s)) d with
      | Some p => Str (snd p)
      | None => c
      end
  | _ => c
  end.

(** [df[name] = pd.to_datetime(df[name], errors="coerce")].  What pandas
    makes of a column is the argument [to_datetime]; the column it gives
    has the dtype [datetime64[ns]]. *)
Definition coerce_column (to_datetime : list cell -> list cell) (name : string)
    (df : DataFrame) : outcome DataFrame :=
  obind (get_loc df name) (fun j =>
  Ok (setitem name (datetime64_ns, to_datetime (values df j)) df)).

(** The elements of [l] at the positions where [mask] holds. *)
Fixpoint pick {A} (mask : list bool) (l : list A) : list A :=
  match mask, l with
  | b :: m, x :: t => if b then x :: pick m t else pick m t
  | _, _ => []
  end.

(** [df.drop(columns=cols)]: [KeyError] for a label that is not a column. *)
Definition drop (cols : list string) (df : DataFrame) : outcome DataFrame :=
  match List.find (fun c => negb (bool_decide (c ∈ names df))) cols with
  | Some c => Raise (KeyError c)
  | None =>
      let mask := map (fun c => negb (bool_decide (fst c ∈ cols))) (columns df) in
      Ok (mk_df (pick mask (columns df)) (map (pick mask) (rows df)))
  end.

(** [df[name] = df[name].replace(d)] *)
Definition replace_column (name : string) (d : list (string * string))
    (df : DataFrame) : outcome DataFrame :=
  obind (get_loc df name) (fun j =>
  Ok (setitem name (dtype_at df j, map (replace d) (values df j)) df)).

(** The loader on [sheet], the table [pd.read_excel] returns for the file. *)
Definition load_and_preprocess_data (to_datetime : list cell -> list cell)
    (sheet : DataFrame) : outcome DataFrame :=
  obind (coerce_column to_datetime col_abertura sheet) (fun df =>
  obind (coerce_column to_datetime col_ultima df) (fun df =>
  obind (drop (List.filter (fun col => bool_decide (col ∈ names df)) colunas_excluir) df)
        (fun df =>
  replace_column col_fiscal fiscais df))).

End Loader.

(** ** Lines 83-112: the callback of the button that clears the temporal
    filters *)

Module Reset.

(** [df.empty]: no row or no column. *)
Definition empty (df : DataFrame) : bool :=
  is_nil (columns df) || is_nil (rows df).

(** Line 101. *)
Definition reset_months (valid : list Timestamp) (reset_year : Z) : list Z :=
  merge_sort Z.le
    (remove_dups (map ts_month
       (List.filter (fun d => notna (Ts d) && (ts_year d =? reset_year)) valid))).

(** The two [else] branches. *)
Definition reset_to_today (hoje : date) : M unit :=
  set_state key_year (SInt (year hoje)) ;;
  set_state key_months (SNames []).

(** The table of the condition of line 85, when the condition holds. *)
Definition stored_table : M (option DataFrame) :=
  has ← in_state key_df;
  if has then
    (v ← get_state key_df;
     match v with
     | SFrame l => (o ← load l; ret (if empty o then None else Some o))
     | _ => lift (Raise AttributeError)
     end)
  else ret None.

(** The copy of line 86 has one name, so it is a value here. *)
Definition _clear_temporal_filters (to_datetime : list cell -> list cell)
    (hoje : date) : M unit :=
  o ← stored_table;
  match o with
  | Some df_original =>
      (df_temp ← lift (Loader.coerce_column to_datetime col_ultima df_original);
       j ← lift (get_loc df_temp col_ultima);
       valid_fiscalizacao_dates ← lift (timestamps (dropna (values df_temp j)));
       if is_nil valid_fiscalizacao_dates then reset_to_today hoje
       else
         (let reset_year := year_of (ts_max valid_fiscalizacao_dates) in
          reset_month_names ←
            lift (omap month_name (reset_months valid_fiscalizacao_dates reset_year));
          set_state key_year (SInt reset_year) ;;
          set_state key_months (SNames reset_month_names)))
  | None => reset_to_today hoje
  end.

End Reset.

(** ** Notions used to state the properties of the loader and the callback *)

Module Columns.

(** The column called [name]: its dtype and its values. *)
Definition col_data (df : DataFrame) (name : string) : option (dtype * list cell) :=
  match index_of name (names df) with
  | Some j => Some (dtype_at df j, values df j)
  | None => None
  end.

(** A cell of a date-time column. *)
Definition date_cell (c : cell) : Prop := c = NaT \/ exists t, c = Ts t.

(** The same day at 00:00:00. *)
Definition midnight (t : Timestamp) : Timestamp :=
  mk_ts (ts_year t) (ts_month t) (ts_day t) 0 0 0.

Definition midnight_cell (c : cell) : cell :=
  match c with
  | Ts t => Ts (midnight t)
  | _ => NaT
  end.

(** The greatest year of the timestamps. *)
Definition max_year (l : list Timestamp) : Z :=
  foldr (fun t acc => Z.max (ts_year t) acc) 0 l.

(** The date comes before, or is, the other. *)
Definition date_le (a b : date) : Prop :=
  year a < year b \/
  (year a = year b /\ (month a < month b \/ (month a = month b /\ day a <= day b))).

End Columns.

(** ** Sheets to load *)

Module Sheets.

(** [valid_date], as a test. *)
Definition valid_dateb (d : date) : bool :=
  (1 <=? year d) && (year d <=? 9999) && (1 <=? month d) && (month d <=? 12) &&
  (1 <=? day d) &&
  (day d <=? default 0 (days_in_month !! Z.to_nat (month d - 1))
             + (if (month d =? 2) && is_leap (year d) then 1 else 0)).

(** The days a [datetime64[ns]] can hold at 00:00:00: 1677-09-22 to
    2262-04-11. *)
Definition in_ns_range (d : date) : bool :=
  (toordinal (mk_date 1677 9 22) <=? toordinal d) &&
  (toordinal d <=? toordinal (mk_date 2262 4 11)).

(** A stand-in for [pd.to_datetime(..., errors="coerce")] on columns that
    hold timestamps, plain dates YYYY-MM-DD as text, and nothing else that
    is a date: a text that is not a day of the calendar, or a day that a
    [datetime64[ns]] cannot hold, gives [NaT]. *)
Definition parse_ymd (s : string) : cell :=
  match NilZero.int_of_string (substring 0 4 s),
        NilZero.int_of_string (substring 5 2 s),
        NilZero.int_of_string (substring 8 2 s) with
  | Some y, Some m, Some d =>
      let t := mk_ts (Z.of_int y) (Z.of_int m) (Z.of_int d) 0 0 0 in
      if bool_decide (strftime_ymd t = s) && valid_dateb (date_of t)
         && in_ns_range (date_of t)
      then Ts t else NaT
  | _, _, _ => NaT
  end.

Definition to_datetime_ymd (l : list cell) : list cell :=
  map (fun c => match c with
                | Ts t => Ts t
                | Str s => parse_ymd s
                | _ => NaT
                end) l.

(** A sheet as uploaded: two columns to drop, an inspector by e-mail. *)
Definition sheet1 : DataFrame :=
  mk_df [("Id", int64); ("Status", object_); ("RPA", object_);
         (col_tipo, object_); (col_fiscal, object_);
         (Loader.col_abertura, object_); ("Percentual", int64);
         (col_ultima, object_)]
    [ [Int 1; Str "Aberto"; Str "RPA 1"; Str "Buraco SIGA";
       Str "norconsult001@gmail.com"; Str "2023-01-02"; Int 10; Str "2024-01-15"];
      [Int 2; Str "Fechado"; Str "RPA 2"; Str "Poda";
       Str "Fiscal SIGA RPA 2"; Str "2023-01-02"; Int 100; NaN] ].

(** A sheet without the inspector column. *)
Definition sheet_sem_fiscal : DataFrame :=
  mk_df [("Id", int64); (Loader.col_abertura, object_); (col_ultima, object_)]
    [ [Int 1; Str "2023-01-02"; Str "2024-01-15"] ].

(** A table whose region column holds a text and a number. *)
Definition T_mixed : DataFrame :=
  mk_df [("Id", int64); (col_rpa, object_)]
    [ [Int 1; Str "RPA 1"]; [Int 2; Int 2] ].

(** A session that names [T1] as the loaded table. *)
Definition w_T1 : world :=
  mk_world (<[O := T1]> ∅) (<[key_df := SFrame O]> ∅) [].

End Sheets.

(** * Properties *)

(** ** The order of cells *)

Lemma string_leb_refl (a : string) : String.leb a a = true.
Proof.
  unfold String.leb.
  assert (H : String.compare a a = Eq) by (apply String_as_OT.cmp_eq; easy).
  now rewrite H.
Qed.

Lemma string_leb_trans (a b c : string) :
  String.leb a b = true -> String.leb b c = true -> String.leb a c = true.
Proof.
  unfold String.leb. intros Hab Hbc.
  destruct (String.compare a b) eqn:E1; try discriminate;
    destruct (String.compare b c) eqn:E2; try discriminate.
  - apply String.compare_eq_iff in E1, E2. subst. apply string_leb_refl.
  - apply String.compare_eq_iff in E1. subst. now rewrite E2.
  - apply String.compare_eq_iff in E2. subst. now rewrite E1.
  - assert (H : String.compare a c = Lt).
    { apply String_as_OT.cmp_lt.
      eapply String_as_OT.lt_trans; apply String_as_OT.cmp_lt; eauto. }
    now rewrite H.
Qed.

Lemma cell_leb_rank (a b : cell) :
  cell_leb a b = if rank a =? rank b then within a b else rank a <? rank b.
Proof. destruct a, b; reflexivity. Qed.

Lemma within_total (a b : cell) : within a b = true \/ within b a = true.
Proof.
  destruct a, b; simpl; auto; try apply String.leb_total; lia.
Qed.

Lemma within_trans (a b c : cell) :
  rank a = rank b -> rank b = rank c ->
  within a b = true -> within b c = true -> within a c = true.
Proof.
  destruct a, b, c; simpl; intros; try discriminate; auto;
    try (eapply string_leb_trans; eassumption); lia.
Qed.

#[global] Instance cell_le_total : Total cell_le.
Proof.
  intros a b. unfold cell_le. rewrite !cell_leb_rank.
  destruct (Z.eqb_spec (rank a) (rank b)) as [E|E].
  - rewrite E, Z.eqb_refl. apply within_total.
  - destruct (Z.eqb_spec (rank b) (rank a)); [congruence|]. lia.
Qed.

#[global] Instance cell_le_trans : Transitive cell_le.
Proof.
  intros a b c. unfold cell_le. rewrite !cell_leb_rank.
  destruct (Z.eqb_spec (rank a) (rank b)) as [E1|E1];
    destruct (Z.eqb_spec (rank b) (rank c)) as [E2|E2];
    destruct (Z.eqb_spec (rank a) (rank c)) as [E3|E3];
    intros H1 H2; try lia; try congruence.
  now apply (within_trans a b c).
Qed.

(** ** [dropna], [unique] and [sorted] *)

Lemma dropna_In (c : cell) (l : list cell) :
  In c (dropna l) <-> In c l /\ notna c = true.
Proof. unfold dropna. apply filter_In. Qed.

Lemma unique_In (c : cell) (l : list cell) : In c (unique l) <-> In c l.
Proof.
  induction l as [|x t IH]; simpl; [tauto|].
  rewrite filter_In, IH.
  destruct (decide (c = x)) as [->|Hne].
  - tauto.
  - rewrite bool_decide_eq_false_2 by exact Hne. simpl. intuition congruence.
Qed.

Lemma unique_NoDup (l : list cell) : List.NoDup (unique l).
Proof.
  induction l as [|x t IH]; simpl; constructor.
  - rewrite filter_In. intros [_ H].
    rewrite bool_decide_eq_true_2 in H by reflexivity. discriminate.
  - now apply List.NoDup_filter.
Qed.

Lemma sorted_Ok (l s : list cell) :
  sorted l = Ok s -> s = merge_sort cell_le l.
Proof. unfold sorted. destruct (comparable l); congruence. Qed.

Lemma sorted_In (l s : list cell) (c : cell) :
  sorted l = Ok s -> (In c s <-> In c l).
Proof.
  intros ->%sorted_Ok. rewrite <- !list_elem_of_In.
  now rewrite (merge_sort_Permutation cell_le l).
Qed.

Lemma sorted_NoDup (l s : list cell) :
  sorted l = Ok s -> List.NoDup l -> List.NoDup s.
Proof.
  intros ->%sorted_Ok H. rewrite <- NoDup_ListNoDup in *.
  now rewrite (merge_sort_Permutation cell_le l).
Qed.

Lemma sorted_StronglySorted (l s : list cell) :
  sorted l = Ok s -> StronglySorted cell_le s.
Proof. intros ->%sorted_Ok. apply StronglySorted_merge_sort; apply _. Qed.

(** What [disponiveis] offers: the distinct values of the column that are
    not missing, in ascending order. *)
Lemma disponiveis_spec (col : string) (df : DataFrame) (l : list cell) :
  disponiveis col df = Ok l ->
  exists j, get_loc df col = Ok j /\
    List.NoDup l /\ StronglySorted cell_le l /\
    (forall c, In c l <-> In c (values df j) /\ notna c = true).
Proof.
  unfold disponiveis. destruct (get_loc df col) as [j| |e]; simpl; try discriminate.
  intros H. exists j. split; [reflexivity|]. repeat split.
  - eapply sorted_NoDup; [exact H|]. apply unique_NoDup.
  - eapply sorted_StronglySorted; exact H.
  - rewrite (sorted_In _ _ c H), unique_In, dropna_In in *. tauto.
  - rewrite (sorted_In _ _ c H), unique_In, dropna_In in *. tauto.
  - intros [H1 H2]. rewrite (sorted_In _ _ c H), unique_In, dropna_In. tauto.
Qed.

(** C10.  The default service-type selection: with [tipos] the distinct,
    non-missing values of the service-type column in ascending order, it is
    ["Buraco SIGA"] when that is one of them, otherwise the first of them,
    which is the least, and the empty selection when there is none. *)
Theorem C10_tipo_padrao (df : DataFrame) (tipos : list cell) :
  disponiveis col_tipo df = Ok tipos ->
  (exists j, get_loc df col_tipo = Ok j /\
     List.NoDup tipos /\ StronglySorted cell_le tipos /\
     (forall c, In c tipos <-> In c (values df j) /\ notna c = true)) /\
  (In (Str "Buraco SIGA") tipos -> tipo_padrao tipos = [Str "Buraco SIGA"]) /\
  (~ In (Str "Buraco SIGA") tipos ->
     forall t rest, tipos = t :: rest ->
       tipo_padrao tipos = [t] /\ forall c, In c tipos -> cell_le t c) /\
  (tipos = [] -> tipo_padrao tipos = []).
Proof.
  intros H. pose proof (disponiveis_spec _ _ _ H) as Hspec.
  split; [exact Hspec|].
  destruct Hspec as (j & _ & _ & Hsorted & _).
  unfold tipo_padrao. repeat split.
  - intros Hin. apply list_elem_of_In in Hin.
    now rewrite bool_decide_eq_true_2.
  - subst tipos. rewrite bool_decide_eq_false_2; [reflexivity|].
    now rewrite list_elem_of_In.
  - subst tipos. intros c [<-|Hin].
    + unfold cell_le. rewrite cell_leb_rank, Z.eqb_refl.
      destruct t; simpl; auto using string_leb_refl; lia.
    + apply StronglySorted_inv in Hsorted as [_ Hall].
      rewrite List.Forall_forall in Hall. now apply Hall.
  - intros ->. reflexivity.
Qed.

(** ** Outcomes *)

Lemma obind_Ok {A B} (o : outcome A) (k : A -> outcome B) (b : B) :
  obind o k = Ok b -> exists a, o = Ok a /\ k a = Ok b.
Proof. destruct o; simpl; try discriminate. eauto. Qed.

Lemma omap_length {A B} (f : A -> outcome B) (l : list A) (r : list B) :
  omap f l = Ok r -> length r = length l.
Proof.
  revert r. induction l as [|x t IH]; simpl; intros r H.
  - now inversion H.
  - apply obind_Ok in H as (y & _ & H). apply obind_Ok in H as (ys & Hys & H).
    inversion H. simpl. f_equal. now apply IH.
Qed.

Lemma omap_lookup {A B} (f : A -> outcome B) (l : list A) (r : list B) (k : nat) (x : A) :
  omap f l = Ok r -> l !! k = Some x -> exists y, r !! k = Some y /\ f x = Ok y.
Proof.
  revert r k. induction l as [|a t IH]; simpl; intros r k H Hk; [discriminate|].
  apply obind_Ok in H as (y & Hy & H). apply obind_Ok in H as (ys & Hys & H).
  inversion H; subst. destruct k as [|k]; simpl in *.
  - inversion Hk; subst. eauto.
  - eauto.
Qed.

Lemma omap_Ok {A B} (f : A -> outcome B) (g : A -> B) (l : list A) :
  (forall x, In x l -> f x = Ok (g x)) -> omap f l = Ok (map g l).
Proof.
  induction l as [|a t IH]; simpl; intros H; [reflexivity|].
  rewrite (H a) by auto. simpl. rewrite IH by auto. reflexivity.
Qed.

Lemma ofilter_Ok {A} (p : A -> outcome bool) (q : A -> bool) (l : list A) :
  (forall x, In x l -> p x = Ok (q x)) -> ofilter p l = Ok (List.filter q l).
Proof.
  induction l as [|a t IH]; simpl; intros H; [reflexivity|].
  rewrite (H a) by auto. simpl. rewrite IH by auto. reflexivity.
Qed.

(** ** Columns by name *)

Lemma index_of_lookup (name : string) (l : list string) (j : nat) :
  index_of name l = Some j -> l !! j = Some name.
Proof.
  revert j. induction l as [|x t IH]; simpl; intros j H; [discriminate|].
  destruct (decide (x = name)) as [->|Hne].
  - now inversion H.
  - destruct (index_of name t) as [i|]; simpl in H; [|discriminate].
    inversion H; subst. simpl. now apply IH.
Qed.

Lemma index_of_In (name : string) (l : list string) (j : nat) :
  index_of name l = Some j -> In name l.
Proof.
  intros H%index_of_lookup. apply list_elem_of_In.
  now apply list_elem_of_lookup_2 in H.
Qed.

Lemma index_of_None (name : string) (l : list string) :
  index_of name l = None <-> ~ In name l.
Proof.
  induction l as [|x t IH]; simpl; [tauto|].
  destruct (decide (x = name)) as [->|Hne].
  - split; [discriminate|]. tauto.
  - destruct (index_of name t) as [i|] eqn:E; simpl.
    + split; [discriminate|]. intros H. exfalso. apply H. right.
      now apply (index_of_In _ _ i).
    + split; [|reflexivity]. intros _ [H|H]; [congruence|].
      now apply (proj1 IH).
Qed.

Lemma index_of_lt (name : string) (l : list string) (j : nat) :
  index_of name l = Some j -> (j < length l)%nat.
Proof. intros H%index_of_lookup. now apply lookup_lt_Some in H. Qed.

Lemma index_of_first (name : string) (l : list string) (j i : nat) :
  index_of name l = Some j -> l !! i = Some name -> (j <= i)%nat.
Proof.
  revert j i. induction l as [|x t IH]; simpl; intros j i H Hi; [discriminate|].
  destruct (decide (x = name)) as [->|Hne].
  - inversion H. lia.
  - destruct (index_of name t) as [k|] eqn:E; simpl in H; [|discriminate].
    inversion H; subst. destruct i as [|i]; simpl in Hi.
    + congruence.
    + apply le_n_S. now apply IH.
Qed.

(** With distinct names, the position of a name is the position found. *)
Lemma index_of_NoDup (name : string) (l : list string) (i : nat) :
  List.NoDup l -> l !! i = Some name -> index_of name l = Some i.
Proof.
  revert i. induction l as [|x t IH]; simpl; intros i Hnd Hi; [discriminate|].
  inversion Hnd as [|? ? Hx Ht]; subst.
  destruct i as [|i]; simpl in Hi.
  - inversion Hi; subst. now rewrite decide_True.
  - rewrite decide_False.
    + rewrite (IH i) by assumption. reflexivity.
    + intros ->. apply Hx. apply list_elem_of_In.
      now apply list_elem_of_lookup_2 in Hi.
Qed.

(** ** Cells of a row *)

Lemma cell_at_insert_eq (j : nat) (v : cell) (r : list cell) :
  (j < length r)%nat -> cell_at j (<[j := v]> r) = v.
Proof. intros H. unfold cell_at. now rewrite list_lookup_insert_eq. Qed.

Lemma cell_at_insert_ne (i j : nat) (v : cell) (r : list cell) :
  i <> j -> cell_at i (<[j := v]> r) = cell_at i r.
Proof. intros H. unfold cell_at. now rewrite list_lookup_insert_ne. Qed.

Lemma cell_at_app_l (j : nat) (v : cell) (r : list cell) :
  (j < length r)%nat -> cell_at j (r ++ [v])%list = cell_at j r.
Proof. intros H. unfold cell_at. now rewrite lookup_app_l. Qed.

Lemma cell_at_app_r (v : cell) (r : list cell) :
  cell_at (length r) (r ++ [v])%list = v.
Proof.
  unfold cell_at. rewrite lookup_app_r by lia.
  now replace (length r - length r)%nat with O by lia.
Qed.

Lemma values_lookup (df : DataFrame) (j k : nat) (r : list cell) :
  rows df !! k = Some r -> values df j !! k = Some (cell_at j r).
Proof. intros H. unfold values. now rewrite list_lookup_fmap, H. Qed.

Lemma names_length (df : DataFrame) : length (names df) = length (columns df).
Proof. unfold names. now rewrite length_map. Qed.

Lemma get_loc_Ok (df : DataFrame) (name : string) (j : nat) :
  get_loc df name = Ok j <-> index_of name (names df) = Some j.
Proof.
  unfold get_loc. destruct (index_of name (names df)); split; congruence.
Qed.

Lemma get_loc_lt (df : DataFrame) (name : string) (j : nat) :
  get_loc df name = Ok j -> (j < length (columns df))%nat.
Proof.
  rewrite get_loc_Ok. intros H%index_of_lt. now rewrite names_length in H.
Qed.

(** ** [df[name] = column] *)

Lemma index_of_app_new (name : string) (l : list string) :
  ~ In name l -> index_of name (l ++ [name])%list = Some (length l).
Proof.
  induction l as [|x t IH]; simpl; intros H.
  - now rewrite decide_True.
  - rewrite decide_False by (intros ->; apply H; now left).
    rewrite IH by (intros Hin; apply H; now right). reflexivity.
Qed.

Lemma index_of_app_old (name other : string) (l : list string) :
  other <> name -> index_of other (l ++ [name])%list = index_of other l.
Proof.
  intros Hne. induction l as [|x t IH]; simpl.
  - now rewrite decide_False by congruence.
  - destruct (decide (x = other)); [reflexivity|]. now rewrite IH.
Qed.

Lemma setitem_names (name : string) (col : dtype * list cell) (df : DataFrame) :
  names (setitem name col df) =
    match index_of name (names df) with
    | Some _ => names df
    | None => (names df ++ [name])%list
    end.
Proof.
  unfold setitem. destruct (index_of name (names df)) as [j|] eqn:E; unfold names; simpl.
  - rewrite list_fmap_insert. simpl. apply list_insert_id.
    now apply index_of_lookup in E.
  - now rewrite map_app.
Qed.

Lemma setitem_get_loc (name : string) (col : dtype * list cell) (df : DataFrame) :
  get_loc (setitem name col df) name = Ok (setitem_loc name df).
Proof.
  apply get_loc_Ok. rewrite setitem_names. unfold setitem_loc.
  destruct (index_of name (names df)) as [j|] eqn:E; simpl.
  - exact E.
  - rewrite index_of_app_new by now apply index_of_None.
    now rewrite names_length.
Qed.

Lemma setitem_get_loc_other (name other : string) (col : dtype * list cell)
    (df : DataFrame) :
  other <> name -> get_loc (setitem name col df) other = get_loc df other.
Proof.
  intros Hne. unfold get_loc. rewrite setitem_names.
  destruct (index_of name (names df)); [reflexivity|].
  now rewrite index_of_app_old.
Qed.

(** The rows after [setitem]: row [k] gets value [k] of the column at the
    column's position and keeps its other cells. *)
Lemma setitem_row (name : string) (dt : dtype) (vals : list cell) (df : DataFrame)
    (k : nat) (r : list cell) :
  well_shaped df -> length vals = length (rows df) ->
  rows (setitem name (dt, vals) df) !! k = Some r ->
  exists r0 v, rows df !! k = Some r0 /\ vals !! k = Some v /\
    cell_at (setitem_loc name df) r = v /\
    forall j, (j < length (columns df))%nat -> j <> setitem_loc name df ->
              cell_at j r = cell_at j r0.
Proof.
  intros [_ Hlen] Hvals. unfold setitem, setitem_loc.
  destruct (index_of name (names df)) as [jd|] eqn:E; simpl;
    intros H; apply lookup_zip_with_Some in H as (r0 & v & -> & Hr0 & Hv);
    exists r0, v; repeat split; try assumption.
  - apply cell_at_insert_eq.
    rewrite List.Forall_forall in Hlen. rewrite (Hlen r0).
    + apply index_of_lt in E. now rewrite names_length in E.
    + apply list_elem_of_In. now apply list_elem_of_lookup_2 in Hr0.
  - intros j _ Hj. now apply cell_at_insert_ne.
  - rewrite List.Forall_forall in Hlen. rewrite <- (Hlen r0).
    + apply cell_at_app_r.
    + apply list_elem_of_In. now apply list_elem_of_lookup_2 in Hr0.
  - intros j Hj _. apply cell_at_app_l.
    rewrite List.Forall_forall in Hlen. rewrite (Hlen r0); [exact Hj|].
    apply list_elem_of_In. now apply list_elem_of_lookup_2 in Hr0.
Qed.

Lemma setitem_rows_length (name : string) (dt : dtype) (vals : list cell)
    (df : DataFrame) :
  length vals = length (rows df) ->
  length (rows (setitem name (dt, vals) df)) = length (rows df).
Proof.
  intros H. unfold setitem.
  destruct (index_of name (names df)); simpl; rewrite length_zip_with; lia.
Qed.

(** ** The computed column *)

Lemma from_results_length (src : dtype) (l : list (option Z)) :
  length (snd (from_results src l)) = length l.
Proof.
  unfold from_results. destruct l as [|o t]; [reflexivity|].
  cbn [is_nil].
  destruct (forallb is_some (o :: t)); [|destruct (forallb _ (o :: t))];
    cbn [snd]; now rewrite length_map.
Qed.

Lemma from_results_lookup (src : dtype) (l : list (option Z)) (k : nat) (o : option Z) :
  l !! k = Some o ->
  exists v, snd (from_results src l) !! k = Some v /\
    num_of v = o /\ notna v = is_some o /\ dias_cell v.
Proof.
  intros Hk. unfold from_results.
  destruct (is_nil l) eqn:Hnil.
  { destruct l; [discriminate|discriminate]. }
  assert (Hin : In o l) by (apply list_elem_of_In; eapply list_elem_of_lookup_2; eauto).
  destruct (forallb is_some l) eqn:Hall;
    [|destruct (forallb (fun o => negb (is_some o)) l) eqn:Hnone];
    cbn [snd]; eexists;
    (split; [change (@map) with (@fmap list _); rewrite list_lookup_fmap, Hk; reflexivity|]).
  - rewrite forallb_forall in Hall. specialize (Hall o Hin).
    destruct o; [|discriminate]. simpl. auto.
  - rewrite forallb_forall in Hnone. specialize (Hnone o Hin).
    destruct o; [discriminate|]. simpl. auto.
  - destruct o; simpl; auto.
Qed.

Lemma dias_desde_spec (hoje : date) (x : cell) (o : option Z) :
  dias_desde hoje x = Ok o ->
  (is_some o = notna x) /\
  (notna x = true ->
     exists t, x = Ts t /\ o = Some (days_between hoje (date_of t))).
Proof.
  unfold dias_desde. destruct x; simpl; intros H; inversion H; subst; simpl;
    split; auto; try discriminate.
  intros _. eauto.
Qed.

Lemma col_ultima_ne_dias : col_ultima <> col_dias.
Proof. discriminate. Qed.

(** What [add_dias] returns: the table with one more column, in which
    every row keeps its other cells. *)
Lemma add_dias_spec (hoje : date) (df0 df : DataFrame) :
  add_dias hoje df0 = Ok df -> well_shaped df0 ->
  exists ju, get_loc df0 col_ultima = Ok ju /\ get_loc df col_ultima = Ok ju /\
    get_loc df col_dias = Ok (setitem_loc col_dias df0) /\
    ju <> setitem_loc col_dias df0 /\
    length (rows df) = length (rows df0) /\
    forall k r, rows df !! k = Some r ->
      exists r0, rows df0 !! k = Some r0 /\
        (forall j, (j < length (columns df0))%nat -> j <> setitem_loc col_dias df0 ->
                   cell_at j r = cell_at j r0) /\
        dias_cell (cell_at (setitem_loc col_dias df0) r) /\
        notna (cell_at (setitem_loc col_dias df0) r) = notna (cell_at ju r0) /\
        (notna (cell_at ju r0) = true ->
           exists t, cell_at ju r0 = Ts t /\
             num_of (cell_at (setitem_loc col_dias df0) r)
               = Some (days_between hoje (date_of t))).
Proof.
  unfold add_dias. intros H Hws.
  apply obind_Ok in H as (ju & Hju & H). apply obind_Ok in H as (res & Hres & H).
  inversion H; subst df; clear H.
  pose proof (omap_length _ _ _ Hres) as Hlen.
  unfold values in Hlen. rewrite length_map in Hlen.
  destruct (from_results (dtype_at df0 ju) res) as [dt vals] eqn:Efr.
  assert (Hvals : length vals = length (rows df0)).
  { pose proof (from_results_length (dtype_at df0 ju) res) as HL.
    rewrite Efr in HL. simpl in HL. lia. }
  assert (Hne : ju <> setitem_loc col_dias df0).
  { unfold setitem_loc. intros Heq.
    pose proof (get_loc_lt _ _ _ Hju) as Hlt.
    apply get_loc_Ok in Hju.
    destruct (index_of col_dias (names df0)) as [jd|] eqn:E; simpl in Heq.
    - subst jd. apply index_of_lookup in Hju, E. rewrite Hju in E.
      now inversion E.
    - lia. }
  exists ju. split; [exact Hju|]. split.
  { rewrite setitem_get_loc_other; [exact Hju|apply col_ultima_ne_dias]. }
  split; [apply setitem_get_loc|]. split; [exact Hne|].
  split; [now apply setitem_rows_length|].
  intros k r Hk.
  destruct (setitem_row _ _ _ _ _ _ Hws Hvals Hk) as (r0 & v & Hr0 & Hv & Hcell & Hother).
  exists r0. split; [exact Hr0|]. split; [exact Hother|].
  destruct (omap_lookup _ _ _ k _ Hres (values_lookup _ ju _ _ Hr0)) as (o & Ho & Hd).
  destruct (from_results_lookup (dtype_at df0 ju) res k o Ho) as (v' & Hv' & Hnum & Hna & Hdc).
  rewrite Efr in Hv'. simpl in Hv'. rewrite Hv in Hv'. inversion Hv'; subst v'.
  rewrite Hcell.
  destruct (dias_desde_spec _ _ _ Hd) as [Hsome Hts].
  split; [exact Hdc|]. split; [congruence|].
  intros Hnn. destruct (Hts Hnn) as (t & Ht & Hval).
  exists t. split; [exact Ht|]. congruence.
Qed.

(** The table [add_dias] returns has the computed column, holding numbers
    and missing values only. *)
Lemma add_dias_computed (hoje : date) (df0 df : DataFrame) :
  add_dias hoje df0 = Ok df -> well_shaped df0 ->
  exists j, get_loc df col_dias = Ok j /\
    forall r, In r (rows df) -> dias_cell (cell_at j r).
Proof.
  intros H Hws. destruct (add_dias_spec _ _ _ H Hws) as (ju & _ & _ & Hjd & _ & _ & Hrows).
  exists (setitem_loc col_dias df0). split; [exact Hjd|].
  intros r Hr. apply list_elem_of_In, list_elem_of_lookup_1 in Hr as [k Hk].
  destruct (Hrows k r Hk) as (r0 & _ & _ & Hdc & _). exact Hdc.
Qed.

(** ** The alert table *)

Lemma acima_exceeds (limite : Z) (c : cell) :
  dias_cell c -> acima_do_limite limite c = Ok (exceeds limite c).
Proof. destruct c; simpl; intros H; try contradiction; reflexivity. Qed.

Lemma exceeds_spec (limite : Z) (c : cell) :
  exceeds limite c = true <-> exists z, num_of c = Some z /\ limite < z.
Proof.
  unfold exceeds. destruct (num_of c) as [z|].
  - rewrite Z.ltb_lt. split; [eauto|]. intros (z' & Hz & Hlt). congruence.
  - split; [discriminate|]. intros (z' & Hz & _). discriminate.
Qed.

#[global] Instance dias_ge_total (j : nat) : Total (dias_ge j).
Proof. intros r1 r2. unfold dias_ge. lia. Qed.

#[global] Instance dias_ge_trans (j : nat) : Transitive (dias_ge j).
Proof. intros r1 r2 r3. unfold dias_ge. lia. Qed.

Lemma rank_index_seq (df : DataFrame) :
  rank_index df = map Z.of_nat (seq 1 (length (rows df))).
Proof.
  unfold rank_index. rewrite <- seq_shift, map_map.
  apply map_ext. intros i. lia.
Qed.

(** C4, as the code has it.  For every working table, whose computed
    column holds numbers and missing values, and every limit, the alert
    selector returns exactly the rows whose days since the last inspection
    are known and strictly above the limit, in non-increasing order of
    that value (rows with equal days follow one another), ranked from 1,
    under the columns of the working table; and when the working table is
    empty it returns nothing: no row, and no column either. *)
Theorem C4_alert_selector (df : DataFrame) (j : nat) (limite : Z) :
  get_loc df col_dias = Ok j ->
  (forall r, In r (rows df) -> dias_cell (cell_at j r)) ->
  exists idx a, alert_selector limite df = Ok (idx, a) /\
    (rows df <> [] -> columns a = columns df) /\
    (rows df = [] -> a = mk_df [] []) /\
    Permutation (rows a)
      (List.filter (fun r => exceeds limite (cell_at j r)) (rows df)) /\
    (forall r, In r (rows a) <->
       In r (rows df) /\ exists z, num_of (cell_at j r) = Some z /\ limite < z) /\
    StronglySorted (dias_ge j) (rows a) /\
    idx = map Z.of_nat (seq 1 (length (rows a))) /\
    (rows df = [] -> rows a = []).
Proof.
  intros Hj Hcells.
  destruct (rows df) as [|r1 rs] eqn:Erows.
  { exists [], (mk_df [] []). unfold alert_selector, alerta_visual.
    rewrite Hj, Erows. simpl.
    split; [reflexivity|]. split; [congruence|]. split; [reflexivity|].
    split; [constructor|]. split; [tauto|]. split; [constructor|].
    split; reflexivity. }
  rewrite <- Erows in *.
  assert (Hne : is_nil (rows df) = false) by now rewrite Erows.
  set (kept := List.filter (fun r => exceeds limite (cell_at j r)) (rows df)).
  assert (Hvis : alerta_visual limite df = Ok (mk_df (columns df) kept)).
  { unfold alerta_visual. rewrite Hj. simpl. rewrite Hne.
    rewrite (ofilter_Ok _ (fun r => exceeds limite (cell_at j r))); [reflexivity|].
    intros r Hr. apply acima_exceeds. now apply Hcells. }
  assert (Hmem : forall r, In r kept <->
            In r (rows df) /\ exists z, num_of (cell_at j r) = Some z /\ limite < z).
  { intros r. unfold kept. rewrite filter_In, exceeds_spec. reflexivity. }
  assert (Hrows : rows df = [] -> False) by (rewrite Erows; discriminate).
  unfold alert_selector. rewrite Hvis. simpl.
  destruct kept as [|r0 rest] eqn:Ekept; simpl.
  - exists [], (mk_df (columns df) []). simpl.
    split; [reflexivity|]. split; [reflexivity|]. split; [tauto|].
    split; [constructor|].
    split; [exact Hmem|]. split; [constructor|]. split; reflexivity.
  - assert (Hj' : get_loc (mk_df (columns df) (r0 :: rest)) col_dias = Ok j)
      by exact Hj.
    unfold sort_values_desc. rewrite Hj'. simpl.
    eexists _, _. split; [reflexivity|]. simpl.
    pose proof (merge_sort_Permutation (dias_ge j) (r0 :: rest)) as Hperm.
    split; [reflexivity|]. split; [tauto|]. split; [exact Hperm|]. split.
    { intros r. rewrite <- Hmem, <- !list_elem_of_In. now rewrite Hperm. }
    split; [apply StronglySorted_merge_sort; apply _|].
    split; [apply rank_index_seq|].
    tauto.
Qed.

(** ** Steps of the script *)

Lemma bind_Ok {A B} (m : M A) (k : A -> M B) (w w' : world) (a : A) :
  m w = (Ok a, w') -> bind m k w = k a w'.
Proof. intros H. unfold bind. now rewrite H. Qed.

Lemma bind_Stop {A B} (m : M A) (k : A -> M B) (w w' : world) :
  m w = (Stop, w') -> bind m k w = (Stop, w').
Proof. intros H. unfold bind. now rewrite H. Qed.

Lemma bind_Raise {A B} (m : M A) (k : A -> M B) (w w' : world) (e : exn) :
  m w = (Raise e, w') -> bind m k w = (Raise e, w').
Proof. intros H. unfold bind. now rewrite H. Qed.

Lemma load_eq (l : loc) (df : DataFrame) (w : world) :
  heap w !! l = Some df -> load l w = (Ok df, w).
Proof. intros H. unfold load. now rewrite H. Qed.

Lemma world_eta (w : world) : mk_world (heap w) (session_state w) (page w) = w.
Proof. now destruct w. Qed.

(** ** The exporter *)

Lemma set_strftime_names (j : nat) (df : DataFrame) :
  names (set_strftime j df) = names df.
Proof.
  unfold names, set_strftime. simpl.
  apply list_eq. intros k.
  change (@map) with (@fmap list _). rewrite !list_lookup_fmap, list_lookup_alter.
  destruct (decide (j = k)) as [->|]; [|reflexivity].
  now destruct (columns df !! k).
Qed.

Lemma strftime_all_names (cols : list string) (df : DataFrame) :
  names (strftime_all cols df) = names df.
Proof.
  revert df. induction cols as [|c t IH]; intros df; simpl; [reflexivity|].
  unfold strftime_all in *. simpl. rewrite IH.
  destruct (index_of c (names df)); [apply set_strftime_names|reflexivity].
Qed.

(** The loop of lines 54-55 updates the object at [l] in place. *)
Lemma strftime_loop (l : loc) (cols : list string) :
  forall (df : DataFrame) (w : world),
  heap w !! l = Some df ->
  (forall c, In c cols -> In c (names df)) ->
  for_each cols (fun col =>
    df ← load l;
    j ← lift (get_loc df col);
    store l (set_strftime j df)) w
  = (Ok tt, mk_world (<[l := strftime_all cols df]> (heap w))
                     (session_state w) (page w)).
Proof.
  induction cols as [|c t IH]; intros df w Hl Hin; simpl.
  - unfold skip, ret, strftime_all. simpl.
    rewrite insert_id by exact Hl. now rewrite world_eta.
  - assert (Hc : exists j, index_of c (names df) = Some j).
    { destruct (index_of c (names df)) as [j|] eqn:E; [eauto|].
      apply index_of_None in E. exfalso. apply E, Hin. now left. }
    destruct Hc as [j Hj].
    unfold bind at 1. unfold bind at 1. unfold load at 1. rewrite Hl. simpl.
    unfold bind at 1. unfold lift at 1, get_loc. rewrite Hj. simpl.
    unfold store at 1.
    rewrite (IH (set_strftime j df)); simpl.
    + rewrite insert_insert_eq.
      replace (strftime_all (c :: t) df) with (strftime_all t (set_strftime j df));
        [reflexivity|].
      unfold strftime_all. cbn [foldl]. now rewrite Hj.
    + apply lookup_insert_eq.
    + intros c' Hc'. rewrite set_strftime_names. apply Hin. now right.
Qed.

Lemma names_lookup (df : DataFrame) (k : nat) (c : string * dtype) :
  columns df !! k = Some c -> names df !! k = Some (fst c).
Proof.
  intros H. unfold names. change (@map) with (@fmap list _).
  now rewrite list_lookup_fmap, H.
Qed.

(** With distinct names, only the column found under a name has it. *)
Lemma name_at (df : DataFrame) (col : string) (j k : nat) (c : string * dtype) :
  List.NoDup (names df) -> index_of col (names df) = Some j ->
  columns df !! k = Some c -> (fst c = col <-> k = j).
Proof.
  intros Hnd Hj Hk. apply names_lookup in Hk. split.
  - intros Hc. rewrite Hc in Hk.
    pose proof (index_of_NoDup _ _ _ Hnd Hk) as Hk'. congruence.
  - intros ->. apply index_of_lookup in Hj. congruence.
Qed.

Lemma set_strftime_converted (listed : list string) (col : string) (j : nat)
    (df : DataFrame) :
  List.NoDup (names df) -> index_of col (names df) = Some j -> col ∉ listed ->
  converted listed (set_strftime j df) = converted (col :: listed) df.
Proof.
  intros Hnd Hj Hout. unfold converted, set_strftime. simpl. f_equal.
  - apply list_eq. intros k. change (@map) with (@fmap list _).
    rewrite !list_lookup_fmap, list_lookup_alter.
    destruct (columns df !! k) as [c|] eqn:Ek.
    + pose proof (name_at _ _ _ _ _ Hnd Hj Ek) as Hname.
      destruct (decide (j = k)) as [->|Hne].
      * rewrite ?Ek. simpl. rewrite (bool_decide_eq_true_2 (fst c ∈ col :: listed)).
        -- now destruct (bool_decide (fst c ∈ listed)).
        -- rewrite elem_of_cons. left. now apply Hname.
      * rewrite ?Ek. simpl.
        assert (Hc : fst c <> col) by (intros Hc; apply Hname in Hc; congruence).
        rewrite (bool_decide_ext (fst c ∈ col :: listed) (fst c ∈ listed));
          [reflexivity|].
        rewrite elem_of_cons. tauto.
    + destruct (decide (j = k)) as [->|Hne]; rewrite ?Ek; reflexivity.
  - rewrite map_map. apply map_ext. intros r.
    apply list_eq. intros k. rewrite !lookup_zip_with, !list_lookup_alter.
    destruct (columns df !! k) as [c|] eqn:Ek.
    + pose proof (name_at _ _ _ _ _ Hnd Hj Ek) as Hname.
      destruct (decide (j = k)) as [->|Hne]; rewrite ?Ek; simpl.
      * destruct (r !! k) as [x|]; simpl; [|reflexivity].
        rewrite (bool_decide_eq_true_2 (fst c ∈ col :: listed)).
        -- rewrite (bool_decide_eq_false_2 (fst c ∈ listed)); [reflexivity|].
           now rewrite (proj2 Hname eq_refl).
        -- rewrite elem_of_cons. left. now apply Hname.
      * destruct (r !! k) as [x|]; simpl; [|reflexivity].
        assert (Hc : fst c <> col) by (intros Hc; apply Hname in Hc; congruence).
        rewrite (bool_decide_ext (fst c ∈ col :: listed) (fst c ∈ listed));
          [reflexivity|].
        rewrite elem_of_cons. tauto.
    + destruct (decide (j = k)) as [->|Hne]; rewrite ?Ek; reflexivity.
Qed.

Lemma zip_with_ext_in {A B C} (f g : A -> B -> C) (l : list A) (r : list B) :
  (forall a, In a l -> forall b, f a b = g a b) -> zip_with f l r = zip_with g l r.
Proof.
  revert r. induction l as [|a t IH]; intros r H; [reflexivity|].
  destruct r as [|b r]; [reflexivity|]. simpl.
  rewrite (H a) by now left. f_equal. apply IH. intros a' Ha'. apply H. now right.
Qed.

Lemma zip_with_snd_id {A B} (l : list A) (r : list B) :
  (length r <= length l)%nat -> zip_with (fun _ x => x) l r = r.
Proof.
  revert r. induction l as [|a t IH]; intros [|b r] H; simpl in *; try reflexivity.
  - lia.
  - f_equal. apply IH. lia.
Qed.

Lemma set_strftime_well_shaped (j : nat) (df : DataFrame) :
  well_shaped df -> well_shaped (set_strftime j df).
Proof.
  intros [Hnd Hlen]. split.
  - now rewrite set_strftime_names.
  - unfold set_strftime. simpl. rewrite length_alter.
    rewrite List.Forall_forall in *. intros r Hr.
    apply in_map_iff in Hr as (r0 & <- & Hr0). rewrite length_alter. now apply Hlen.
Qed.

Lemma converted_nil (df : DataFrame) : well_shaped df -> converted [] df = df.
Proof.
  intros [_ Hlen]. unfold converted. destruct df as [cols rs]. simpl in *. f_equal.
  - etransitivity; [|apply map_id]. apply map_ext. intros c. reflexivity.
  - etransitivity; [|apply map_id]. apply map_ext_in. intros r Hr.
    apply zip_with_snd_id. rewrite List.Forall_forall in Hlen.
    rewrite (Hlen r Hr). lia.
Qed.

Lemma strftime_all_converted (cols : list string) :
  forall df, well_shaped df -> List.NoDup cols ->
  (forall c, In c cols -> In c (names df)) ->
  strftime_all cols df = converted cols df.
Proof.
  induction cols as [|c t IH]; intros df Hws Hnd Hin.
  - symmetry. now apply converted_nil.
  - assert (Hc : exists j, index_of c (names df) = Some j).
    { destruct (index_of c (names df)) as [j|] eqn:E; [eauto|].
      apply index_of_None in E. exfalso. apply E, Hin. now left. }
    destruct Hc as [j Hj]. inversion Hnd as [|? ? Hout Hnd']; subst.
    replace (strftime_all (c :: t) df) with (strftime_all t (set_strftime j df))
      by (unfold strftime_all; cbn [foldl]; now rewrite Hj).
    rewrite IH.
    + apply set_strftime_converted; [exact (proj1 Hws)|exact Hj|].
      now rewrite list_elem_of_In.
    + now apply set_strftime_well_shaped.
    + exact Hnd'.
    + intros c' Hc'. rewrite set_strftime_names. apply Hin. now right.
Qed.

Lemma NoDup_names_inj (cols : list (string * dtype)) (c c' : string * dtype) :
  List.NoDup (map fst cols) -> In c cols -> In c' cols -> fst c = fst c' -> c = c'.
Proof.
  induction cols as [|x t IH]; simpl; intros Hnd Hc Hc' Heq; [contradiction|].
  inversion Hnd as [|? ? Hx Ht]; subst.
  destruct Hc as [->|Hc], Hc' as [->|Hc']; auto.
  - exfalso. apply Hx. rewrite Heq. now apply in_map.
  - exfalso. apply Hx. rewrite <- Heq. now apply in_map.
Qed.

Lemma datetime_columns_In (df : DataFrame) (c : string * dtype) :
  List.NoDup (names df) -> In c (columns df) ->
  bool_decide (fst c ∈ datetime_columns df) = is_datetime c.
Proof.
  intros Hnd Hc. unfold datetime_columns.
  destruct (is_datetime c) eqn:E.
  - apply bool_decide_eq_true_2. apply list_elem_of_In, in_map.
    apply filter_In. split; assumption.
  - apply bool_decide_eq_false_2. rewrite list_elem_of_In, in_map_iff.
    intros (c' & Heq & Hc'). apply filter_In in Hc' as [Hc' Hdt].
    assert (c' = c) by (eapply NoDup_names_inj; eauto). subst c'.
    unfold is_datetime in E. congruence.
Qed.

Lemma datetime_columns_NoDup (df : DataFrame) :
  List.NoDup (names df) -> List.NoDup (datetime_columns df).
Proof.
  unfold names, datetime_columns. induction (columns df) as [|c t IH]; simpl.
  - constructor.
  - intros Hnd. inversion Hnd as [|? ? Hc Ht]; subst.
    destruct (bool_decide (snd c = datetime64_ns)); simpl; [|now apply IH].
    constructor; [|now apply IH].
    intros Hin. apply Hc. apply in_map_iff in Hin as (c' & Heq & Hc').
    apply filter_In in Hc' as [Hc' _]. rewrite <- Heq. now apply in_map.
Qed.

Lemma datetime_columns_names (df : DataFrame) (c : string) :
  In c (datetime_columns df) -> In c (names df).
Proof.
  unfold datetime_columns, names. rewrite !in_map_iff.
  intros (x & Hx & Hin). apply filter_In in Hin as [Hin _]. eauto.
Qed.

(** Lines 54-55 as a whole: every date-time column, and no other, is
    rewritten as text. *)
Lemma strftime_all_exported (df : DataFrame) :
  well_shaped df -> strftime_all (datetime_columns df) df = exported df.
Proof.
  intros Hws. pose proof Hws as [Hnd _].
  rewrite strftime_all_converted;
    [|exact Hws|now apply datetime_columns_NoDup|apply datetime_columns_names].
  unfold converted, exported. f_equal.
  - apply map_ext_in. intros c Hc. now rewrite datetime_columns_In.
  - apply map_ext. intros r. apply zip_with_ext_in. intros c Hc x.
    now rewrite datetime_columns_In.
Qed.

(** *** Widths *)

Lemma series_max_foldr (l : list Z) :
  (forall x, In x l -> 0 <= x) ->
  match series_max l with
  | Some m => m = foldr Z.max 0 l /\ l <> []
  | None => l = []
  end.
Proof.
  induction l as [|x t IH]; intros H; [reflexivity|]. simpl.
  assert (Ht : forall y, In y t -> 0 <= y) by (intros y Hy; apply H; now right).
  specialize (IH Ht). assert (0 <= x) by (apply H; now left).
  destruct (series_max t) as [m|].
  - destruct IH as [-> _]. split; [reflexivity|discriminate].
  - subst t. simpl. split; [lia|discriminate].
Qed.

Lemma py_max_width (name : string) (cells : list cell) :
  py_max (Text.len name)
         (series_max (map (fun c => Text.len (str_cell c)) cells)) + 2
  = width_of name cells.
Proof.
  unfold width_of.
  set (lens := map (fun c => Text.len (str_cell c)) cells).
  assert (Hpos : forall x, In x lens -> 0 <= x).
  { intros x Hx. apply in_map_iff in Hx as (c & <- & _). unfold Text.len. lia. }
  pose proof (series_max_foldr lens Hpos) as Hs.
  assert (0 <= Text.len name) by (unfold Text.len; lia).
  unfold py_max. destruct (series_max lens) as [m|].
  - destruct Hs as [-> _]. destruct (Z.ltb_spec (Text.len name) (foldr Z.max 0 lens)); lia.
  - rewrite Hs. simpl. lia.
Qed.

Lemma format_column_calls (df : DataFrame) (i : nat) (name : string) :
  List.NoDup (names df) -> names df !! i = Some name ->
  format_column df i name = Ok (calls_of df i name).
Proof.
  intros Hnd Hi. unfold format_column, max_len, get_loc.
  rewrite (index_of_NoDup _ _ _ Hnd Hi). simpl.
  now rewrite py_max_width.
Qed.

Lemma enumerate_In {A} (l : list A) (i : nat) (x : A) :
  In (i, x) (enumerate l) <-> l !! i = Some x.
Proof.
  unfold enumerate. rewrite <- list_elem_of_In, elem_of_lookup_imap.
  split.
  - intros (i' & x' & Heq & H). now inversion Heq; subst.
  - intros H. eauto.
Qed.

Lemma exported_names (df : DataFrame) : names (exported df) = names df.
Proof.
  unfold names, exported. simpl. rewrite map_map. apply map_ext.
  intros c. now destruct (is_datetime c).
Qed.

(** The exporter: what it returns and what it leaves in the heap. *)
Lemma exporter_spec (l : loc) (filename sheet : string) (df : DataFrame) (w : world) :
  well_shaped df -> heap w !! l = Some df ->
  download_excel_with_formatting l filename sheet w =
    (Ok (mk_ws sheet (names df) (rows (exported df))
           (concat (map (fun p => calls_of (exported df) (fst p) (snd p))
                        (enumerate (names df))))),
     mk_world (<[l := exported df]> (heap w)) (session_state w) (page w)).
Proof.
  intros Hws Hl. unfold download_excel_with_formatting.
  rewrite (bind_Ok _ _ w w df) by (unfold load; now rewrite Hl).
  erewrite bind_Ok by (apply (strftime_loop l _ df w Hl), datetime_columns_names).
  rewrite strftime_all_exported by exact Hws.
  erewrite bind_Ok by (unfold load; cbn [heap]; now rewrite lookup_insert_eq).
  cbn [default].
  assert (Hcalls : omap (fun p => format_column (exported df) (fst p) (snd p))
                        (enumerate (names (exported df)))
                   = Ok (map (fun p => calls_of (exported df) (fst p) (snd p))
                             (enumerate (names df)))).
  { rewrite exported_names. apply omap_Ok.
    intros [i name] Hin. apply enumerate_In in Hin. simpl.
    apply format_column_calls; [|now rewrite exported_names].
    rewrite exported_names. exact (proj1 Hws). }
  cbv beta. unfold id.
  erewrite bind_Ok by (unfold lift; cbv beta; rewrite Hcalls; reflexivity).
  unfold ret. now rewrite exported_names.
Qed.

(** *** Plain dates *)

Lemma zfill4_digits (z : Z) :
  0 <= z <= 9999 -> digits 4 (Text.zfill 4 (Text.str_int z)).
Proof.
  intros Hz.
  assert (Hall : forallb (fun n => digitsb 4 (Text.zfill 4 (Text.str_int (Z.of_nat n))))
                         (seq 0 (Z.to_nat 10000)) = true) by (vm_compute; reflexivity).
  rewrite forallb_forall in Hall.
  specialize (Hall (Z.to_nat z)). rewrite Z2Nat.id in Hall by lia.
  unfold digitsb in Hall. rewrite andb_true_iff, Nat.eqb_eq in Hall.
  apply Hall. apply in_seq. lia.
Qed.

Lemma zfill2_digits (z : Z) :
  0 <= z <= 99 -> digits 2 (Text.zfill 2 (Text.str_int z)).
Proof.
  intros Hz.
  assert (Hall : forallb (fun n => digitsb 2 (Text.zfill 2 (Text.str_int (Z.of_nat n))))
                         (seq 0 (Z.to_nat 100)) = true) by (vm_compute; reflexivity).
  rewrite forallb_forall in Hall.
  specialize (Hall (Z.to_nat z)). rewrite Z2Nat.id in Hall by lia.
  unfold digitsb in Hall. rewrite andb_true_iff, Nat.eqb_eq in Hall.
  apply Hall. apply in_seq. lia.
Qed.

(** A timestamp with a year of at most four digits is written as
    YYYY-MM-DD. *)
Lemma strftime_ymd_shape (t : Timestamp) :
  0 <= ts_year t <= 9999 -> 1 <= ts_month t <= 12 -> 1 <= ts_day t <= 31 ->
  ymd_shape (strftime_ymd t).
Proof.
  intros Hy Hm Hd. unfold ymd_shape, strftime_ymd.
  eexists _, _, _. split; [reflexivity|].
  split; [apply zfill4_digits; lia|].
  split; apply zfill2_digits; lia.
Qed.

Lemma col_info_snoc (calls : list call) (i : nat) (width : option Z)
    (cell_format : option xl_format) :
  col_info (calls ++ [set_column i i width cell_format])
    = <[i := (width, cell_format)]> (col_info calls).
Proof.
  unfold col_info. rewrite foldl_app. cbn [foldl].
  rewrite Nat.min_id, Nat.max_id, Nat.sub_diag. reflexivity.
Qed.

(** After the two calls the exporter makes for each column, the worksheet
    keeps for the column the width of the second call and no format. *)
Lemma col_info_two_calls (g : nat -> string -> Z) (l : list string) (i : nat)
    (name : string) :
  l !! i = Some name ->
  col_info (concat (map (fun p => [set_column (fst p) (fst p) None (Some center_format);
                                   set_column (fst p) (fst p)
                                     (Some (g (fst p) (snd p))) None])
                        (enumerate l))) !! i
    = Some (Some (g i name), None).
Proof.
  revert i name. induction l as [|x l IH] using rev_ind; intros i name Hi;
    [discriminate|].
  unfold enumerate. rewrite imap_app, map_app, concat_app. cbn [imap map concat fst snd].
  rewrite app_nil_r, Nat.add_0_r.
  change [set_column (length l) (length l) None (Some center_format);
          set_column (length l) (length l) (Some (g (length l) x)) None]
    with ([set_column (length l) (length l) None (Some center_format)] ++
          [set_column (length l) (length l) (Some (g (length l) x)) None])%list.
  rewrite app_assoc, !col_info_snoc.
  destruct (decide (i = length l)) as [->|Hne].
  - rewrite lookup_app_r in Hi by lia. rewrite Nat.sub_diag in Hi.
    injection Hi as ->. apply lookup_insert_eq.
  - rewrite !lookup_insert_ne by congruence. apply IH.
    rewrite lookup_app_l in Hi; [exact Hi|].
    apply lookup_lt_Some in Hi. rewrite length_app in Hi. simpl in Hi. lia.
Qed.

(** C9, as the code has it.  For every table, the exporter writes the
    columns in the table's order, none added, removed or moved; in every
    date-time column each time is written as the plain date YYYY-MM-DD (a
    missing time stays missing) and every other cell as it is; and for
    every column it asks the writer for centred cells, by one [set_column]
    call, and then for a width of max(header length, maximum cell-text
    length) + 2, by a second [set_column] call without a format, and makes
    no other column call.  The second call replaces what the first stored
    for the column: the worksheet keeps the width of every column and the
    centred format of none. *)
Theorem C9_exporter (l : loc) (filename sheet : string) (df : DataFrame) (w : world) :
  well_shaped df -> heap w !! l = Some df ->
  exists ws w',
    download_excel_with_formatting l filename sheet w = (Ok ws, w') /\
    header ws = names df /\
    length (body ws) = length (rows df) /\
    (forall k r, rows df !! k = Some r ->
       exists r', body ws !! k = Some r' /\ length r' = length r /\
         forall i name dt x,
           columns df !! i = Some (name, dt) -> r !! i = Some x ->
           r' !! i = Some (if decide (dt = datetime64_ns)
                           then strftime_cell x else x)) /\
    (forall t, strftime_cell (Ts t) = Str (strftime_ymd t)) /\
    strftime_cell NaT = NaN /\
    (forall t, 0 <= ts_year t <= 9999 -> 1 <= ts_month t <= 12 ->
               1 <= ts_day t <= 31 -> ymd_shape (strftime_ymd t)) /\
    (forall i name, names df !! i = Some name ->
       In (set_column i i None (Some center_format)) (column_calls ws) /\
       In (set_column i i
             (Some (width_of name (map (cell_at i) (body ws)))) None)
          (column_calls ws)) /\
    (forall c, In c (column_calls ws) ->
       exists i name, names df !! i = Some name /\
         (c = set_column i i None (Some center_format) \/
          c = set_column i i
                (Some (width_of name (map (cell_at i) (body ws)))) None)) /\
    (forall i name, names df !! i = Some name ->
       col_info (column_calls ws) !! i =
         Some (Some (width_of name (map (cell_at i) (body ws))), None)).
Proof.
  intros Hws Hl. eexists _, _.
  split; [apply (exporter_spec l filename sheet df w Hws Hl)|].
  cbn [header body column_calls].
  split; [reflexivity|].
  split; [unfold exported; simpl; now rewrite length_map|].
  split.
  { intros k r Hk. exists (export_row (columns df) r).
    destruct Hws as [_ Hlen]. rewrite List.Forall_forall in Hlen.
    assert (Hr : length r = length (columns df)).
    { apply Hlen, list_elem_of_In. now apply list_elem_of_lookup_2 in Hk. }
    split; [|split].
    - unfold exported. simpl. change (@map) with (@fmap list _).
      now rewrite list_lookup_fmap, Hk.
    - unfold export_row. rewrite length_zip_with. lia.
    - intros i name dt x Hi Hx. unfold export_row.
      rewrite lookup_zip_with, Hi, Hx. simpl. unfold is_datetime. simpl.
      destruct (decide (dt = datetime64_ns)) as [->|Hne].
      + now rewrite bool_decide_eq_true_2.
      + now rewrite bool_decide_eq_false_2. }
  split; [reflexivity|]. split; [reflexivity|].
  split; [apply strftime_ymd_shape|].
  split.
  { intros i name Hi. split; apply in_concat;
      exists (calls_of (exported df) i name);
      (split; [apply in_map_iff; exists (i, name); split;
                 [reflexivity|now apply enumerate_In]|]).
    - now left.
    - right. now left. }
  split.
  - intros c Hc. apply in_concat in Hc as (cs & Hcs & Hc).
    apply in_map_iff in Hcs as ([i name] & <- & Hin). apply enumerate_In in Hin.
    exists i, name. split; [exact Hin|].
    destruct Hc as [<-|[<-|[]]]; [now left|now right].
  - intros i name Hi.
    exact (col_info_two_calls
             (fun i name => width_of name (values (exported df) i))
             (names df) i name Hi).
Qed.

(** ** Steps that only add to the page *)

Lemma uniform_ret {A} (a : A) : uniform (ret a).
Proof. intros w. unfold ret. simpl. now rewrite app_nil_r, world_eta. Qed.

Lemma uniform_skip : uniform skip.
Proof. apply uniform_ret. Qed.

Lemma uniform_lift {A} (o : outcome A) : uniform (lift o).
Proof. intros w. unfold lift. simpl. now rewrite app_nil_r, world_eta. Qed.

Lemma uniform_stop {A} : uniform (@stop A).
Proof. intros w. unfold stop. simpl. now rewrite app_nil_r, world_eta. Qed.

Lemma uniform_show (e : element) : uniform (show e).
Proof. intros w. reflexivity. Qed.

Lemma uniform_bind {A B} (m : M A) (k : A -> M B) :
  uniform m -> (forall a, uniform (k a)) -> uniform (bind m k).
Proof.
  intros Hm Hk w. unfold bind. rewrite (Hm w).
  destruct (m blank) as [[a| |e] wb] eqn:Eb; simpl.
  - rewrite (Hk a). simpl. rewrite (Hk a wb). simpl.
    assert (Hwb : heap wb = ∅ /\ session_state wb = ∅).
    { pose proof (Hm blank) as Hb. rewrite Eb in Hb. simpl in Hb.
      inversion Hb as [Hw]. rewrite Hw at 1 2. simpl. auto. }
    now rewrite <- app_assoc.
  - reflexivity.
  - reflexivity.
Qed.

Lemma uniform_if {A} (b : bool) (m1 m2 : M A) :
  uniform m1 -> uniform m2 -> uniform (if b then m1 else m2).
Proof. now destruct b. Qed.

Create HintDb uniform.

#[local] Hint Resolve uniform_ret uniform_skip uniform_lift uniform_stop
  uniform_show uniform_if : uniform.

Ltac uniform :=
  repeat first
    [ apply uniform_bind; [|intros ?]
    | apply uniform_if
    | solve [auto with uniform] ].

Lemma uniform_mandatory_filters (sel : Selection) (df : DataFrame) :
  uniform (mandatory_filters sel df).
Proof. unfold mandatory_filters. uniform. Qed.

Lemma uniform_metrics (df : DataFrame) : uniform (metrics df).
Proof. unfold metrics. uniform. Qed.

Lemma uniform_show_alerta (limite : Z) (a : list Z * DataFrame) :
  uniform (show_alerta limite a).
Proof. unfold show_alerta. uniform. Qed.

(** ** The mandatory filters *)

Ltac step_through H :=
  unfold bind, lift, show, stop, skip, ret in H;
  repeat case_match; simplify_eq.

Lemma is_nil_false {A} (l : list A) : is_nil l = false -> l <> [].
Proof. destruct l; [discriminate|]. intros _. discriminate. Qed.

Lemma is_nil_true {A} (l : list A) : is_nil l = true -> l = [].
Proof. destruct l; [reflexivity|discriminate]. Qed.

(** When the three selections let the run go on: the table that goes on
    is the full table narrowed by the three of them. *)
Lemma mandatory_filters_Ok (sel : Selection) (df df' : DataFrame) (w w' : world) :
  mandatory_filters sel df w = (Ok df', w') ->
  narrowed sel df = Ok df' /\
  tipos_selecionados sel <> [] /\ fiscais_selecionados sel <> [] /\
  rpas_selecionadas sel <> [].
Proof.
  unfold mandatory_filters. intros H. step_through H.
  unfold narrowed, narrowed_by_fiscal, narrowed_by_tipo.
  repeat match goal with
         | E : filter_isin _ _ _ = Ok _ |- _ => rewrite E; clear E; simpl
         end.
  auto using is_nil_false.
Qed.

(** The mandatory filters leave the heap and the session as they are and
    add their widgets to the page. *)
Lemma mandatory_filters_frame (sel : Selection) (df : DataFrame) (w w' : world)
    (o : outcome DataFrame) :
  mandatory_filters sel df w = (o, w') ->
  heap w' = heap w /\ session_state w' = session_state w /\
  exists d, page w' = (page w ++ d)%list /\ Forall (offered_filter sel df) d.
Proof.
  unfold mandatory_filters. intros H. step_through H; cbn [heap session_state page];
    (split; [reflexivity|]); (split; [reflexivity|]);
    rewrite <- ?app_assoc; cbn [app];
    try (exists []; split; [now rewrite app_nil_r|constructor]);
    eexists; (split; [reflexivity|]);
    repeat constructor; simpl;
    unfold narrowed_by_fiscal, narrowed_by_tipo;
    repeat match goal with
           | E : filter_isin _ _ _ = Ok _ |- _ => rewrite E; simpl
           end; auto.
Qed.

Lemma narrowing_refl (T : DataFrame) : narrowing_of T T.
Proof. split; auto. Qed.

Lemma narrowing_keep (p : list cell -> bool) (T df : DataFrame) :
  narrowing_of T df -> narrowing_of T (keep p df).
Proof.
  intros [Hc Hr]. split; [exact Hc|].
  intros r Hin. apply filter_In in Hin as [Hin _]. now apply Hr.
Qed.

Lemma narrowing_get_loc (T df : DataFrame) (col : string) :
  narrowing_of T df -> get_loc df col = get_loc T col.
Proof. intros [Hc _]. unfold get_loc, names. now rewrite Hc. Qed.

Lemma filter_isin_keep (col : string) (sel : list cell) (df : DataFrame) (j : nat) :
  get_loc df col = Ok j ->
  filter_isin col sel df = Ok (keep (fun r => isin sel (cell_at j r)) df).
Proof. intros H. unfold filter_isin. now rewrite H. Qed.

Lemma filter_isin_Ok (col : string) (sel : list cell) (df df' : DataFrame) :
  filter_isin col sel df = Ok df' ->
  exists j, get_loc df col = Ok j /\
    df' = keep (fun r => isin sel (cell_at j r)) df.
Proof.
  unfold filter_isin. intros H. apply obind_Ok in H as (j & Hj & H).
  exists j. split; [exact Hj|]. now inversion H.
Qed.

Lemma comparable_one_kind (k : kind) (l : list cell) :
  (forall c, In c l -> kind_of c = Some k) -> comparable l = true.
Proof.
  destruct l as [|x [|y t]]; intros H; try reflexivity.
  unfold comparable. rewrite (H x) by now left.
  apply forallb_forall. intros c Hc. apply bool_decide_eq_true_2.
  apply H. now right.
Qed.

(** On any narrowing of a table whose column holds one kind of value,
    the values to offer can be sorted. *)
Lemma disponiveis_one_kind (T df : DataFrame) (col : string) :
  one_kind T col -> narrowing_of T df -> exists o, disponiveis col df = Ok o.
Proof.
  intros (j & k & Hj & Hk) Hn. unfold disponiveis.
  rewrite (narrowing_get_loc _ _ _ Hn), Hj. simpl.
  unfold sorted. rewrite (comparable_one_kind k); [eauto|].
  intros c Hc. apply unique_In, dropna_In in Hc as [Hc Hna].
  apply Hk; [|exact Hna].
  unfold values in *. apply in_map_iff in Hc as (r & <- & Hr).
  apply in_map. now apply Hn.
Qed.

Lemma one_kind_get_loc (T df : DataFrame) (col : string) :
  one_kind T col -> narrowing_of T df -> exists j, get_loc df col = Ok j.
Proof.
  intros (j & k & Hj & _) Hn. exists j. now rewrite (narrowing_get_loc _ _ _ Hn).
Qed.

(** With an empty selection the mandatory filters show their warning and
    stop, having shown multiselects only. *)
Lemma mandatory_filters_Stop (sel : Selection) (T : DataFrame) (w : world) :
  one_kind T col_tipo -> one_kind T col_fiscal -> one_kind T col_rpa ->
  tipos_selecionados sel = [] \/ fiscais_selecionados sel = [] \/
    rpas_selecionadas sel = [] ->
  exists d f,
    mandatory_filters sel T w =
      (Stop, mk_world (heap w) (session_state w) (page w ++ d ++ [Warning f])) /\
    Forall is_multiselect d.
Proof.
  intros K1 K2 K3 Hnil.
  destruct (disponiveis_one_kind T T col_tipo K1 (narrowing_refl T)) as [t Ht].
  unfold mandatory_filters, bind, lift, show, stop, skip, ret.
  rewrite Ht. cbv beta iota. cbn [heap session_state page].
  destruct (tipos_selecionados sel) as [|t0 ts] eqn:Et; cbn [is_nil]; cbv beta iota.
  { exists [Multiselect F_tipos t (tipo_padrao t)], F_tipos.
    cbn [heap session_state page]. rewrite <- !app_assoc.
    split; [reflexivity|]. repeat constructor. }
  destruct (one_kind_get_loc T T col_tipo K1 (narrowing_refl T)) as [j1 Hj1].
  rewrite (filter_isin_keep _ _ _ _ Hj1). cbv beta iota.
  set (df1 := keep _ T).
  assert (N1 : narrowing_of T df1) by apply narrowing_keep, narrowing_refl.
  destruct (disponiveis_one_kind T df1 col_fiscal K2 N1) as [f Hf].
  rewrite Hf. cbv beta iota. cbn [heap session_state page].
  destruct (fiscais_selecionados sel) as [|f0 fs] eqn:Ef; cbn [is_nil]; cbv beta iota.
  { exists [Multiselect F_tipos t (tipo_padrao t); Multiselect F_fiscais f f], F_fiscais.
    cbn [heap session_state page]. rewrite <- !app_assoc.
    split; [reflexivity|]. repeat constructor. }
  destruct (one_kind_get_loc T df1 col_fiscal K2 N1) as [j2 Hj2].
  rewrite (filter_isin_keep _ _ _ _ Hj2). cbv beta iota.
  set (df2 := keep _ df1).
  assert (N2 : narrowing_of T df2) by now apply narrowing_keep.
  destruct (disponiveis_one_kind T df2 col_rpa K3 N2) as [r Hr].
  rewrite Hr. cbv beta iota. cbn [heap session_state page].
  destruct (rpas_selecionadas sel) as [|r0 rs] eqn:Er; cbn [is_nil]; cbv beta iota.
  { exists [Multiselect F_tipos t (tipo_padrao t); Multiselect F_fiscais f f;
            Multiselect F_rpas r r], F_rpas.
    cbn [heap session_state page]. rewrite <- !app_assoc.
    split; [reflexivity|]. repeat constructor. }
  exfalso. destruct Hnil as [H|[H|H]]; discriminate.
Qed.

(** ** One run *)

Lemma fresh_heap (w : world) : heap w !! fresh (dom (heap w)) = None.
Proof. apply not_elem_of_dom, is_fresh. Qed.

(** The first lines of a run: the page is cleared, the uploaded table
    becomes a new object, and the session is given its name. *)
Lemma run_unfold (T : DataFrame) (sel : Selection) (hoje : date) (w : world) :
  run T sel hoje w =
    bind (mandatory_filters sel T)
         (fun df => bind (temporal_filter (fresh (dom (heap w))) hoje df)
                         (display_and_export (fresh (dom (heap w))) sel hoje))
         (mk_world (<[fresh (dom (heap w)) := T]> (heap w))
                   (<[key_df := SFrame (fresh (dom (heap w)))]> (session_state w))
                   []).
Proof.
  unfold run. unfold bind at 1. unfold clear_page at 1.
  unfold bind at 1. unfold alloc at 1. cbn [heap session_state page].
  unfold bind at 1. unfold set_state at 1. cbn [heap session_state page].
  unfold bind at 1. unfold load at 1. cbn [heap session_state page].
  rewrite lookup_insert_eq. reflexivity.
Qed.

(** C7.  Whenever one of the three mandatory selections is empty, on a
    table whose three filter columns can be offered, the run stops: the
    page holds multiselects of the mandatory filters followed by the
    warning that a selection is required, and no metric, alert table or
    download; the full table just loaded is in the heap as loaded, every
    object that was there before is as it was, and the year and the months
    kept in the session are what they were. *)
Theorem C7_selection_required
    (T : DataFrame) (sel : Selection) (hoje : date) (w : world) :
  one_kind T col_tipo -> one_kind T col_fiscal -> one_kind T col_rpa ->
  tipos_selecionados sel = [] \/ fiscais_selecionados sel = [] \/
    rpas_selecionadas sel = [] ->
  exists d f l w',
    run T sel hoje w = (Stop, w') /\
    page w' = (d ++ [Warning f])%list /\ Forall is_multiselect d /\
    session_state w' !! key_df = Some (SFrame l) /\
    heap w' !! l = Some T /\
    (forall l0 df0, heap w !! l0 = Some df0 -> heap w' !! l0 = Some df0) /\
    session_state w' !! key_year = session_state w !! key_year /\
    session_state w' !! key_months = session_state w !! key_months.
Proof.
  intros K1 K2 K3 Hnil. rewrite run_unfold.
  set (l := fresh (dom (heap w))).
  set (w1 := mk_world _ _ _).
  destruct (mandatory_filters_Stop sel T w1 K1 K2 K3 Hnil) as (d & f & Hrun & Hd).
  exists d, f, l. eexists. split; [apply (bind_Stop _ _ _ _ Hrun)|].
  subst w1. cbn [heap session_state page]. split; [reflexivity|]. split; [exact Hd|].
  split; [apply lookup_insert_eq|]. split; [apply lookup_insert_eq|].
  split.
  - intros l0 df0 H0. rewrite lookup_insert_ne; [exact H0|].
    intros <-. unfold l in H0. rewrite fresh_heap in H0. discriminate.
  - split; now rewrite lookup_insert_ne.
Qed.

(** ** The temporal filter *)

Lemma bool_decide_is_Some {A} (o : option A) :
  bool_decide (is_Some o) = match o with Some _ => true | None => false end.
Proof.
  destruct o; [apply bool_decide_eq_true_2; eauto|apply bool_decide_eq_false_2].
  intros [x Hx]. discriminate.
Qed.

Lemma init_state_eq (l : loc) (hoje : date) (T : DataFrame) (w : world) :
  heap w !! l = Some T ->
  init_state l hoje w =
    (fst (init_session T hoje (session_state w)),
     mk_world (heap w) (snd (init_session T hoje (session_state w))) (page w)).
Proof.
  intros Hl. unfold init_state, init_session, init_year, init_months.
  unfold bind, in_state, set_state, load, lift, skip, ret.
  rewrite !bool_decide_is_Some.
  destruct (session_state w !! key_year) as [v|] eqn:Ey; cbv beta iota.
  - rewrite bool_decide_is_Some.
    destruct (session_state w !! key_months) as [m|] eqn:Em; simpl;
      rewrite ?world_eta; reflexivity.
  - rewrite Hl. cbn [default from_option id].
    destruct (get_loc T col_ultima) as [j| |e]; simpl; rewrite ?world_eta; try reflexivity.
    destruct (timestamps (dropna (values T j))) as [all| |e]; simpl;
      rewrite ?world_eta; try reflexivity.
    destruct (is_nil all); simpl; rewrite !bool_decide_is_Some;
      rewrite lookup_insert_ne by discriminate;
      destruct (session_state w !! key_months); reflexivity.
Qed.

Lemma year_widget_eq (mn mx : Z) (w : world) :
  year_widget mn mx w =
    (fst (fst (year_step mn mx (session_state w))),
     mk_world (heap w) (snd (fst (year_step mn mx (session_state w))))
              (page w ++ snd (year_step mn mx (session_state w)))).
Proof.
  unfold year_widget, year_step, clamp_year, select_year, state_int.
  unfold bind, get_state, set_state, lift, show, skip, ret.
  destruct (session_state w !! key_year) as [[y|ms|l0]|] eqn:Ey; cbv beta iota;
    cbn [fst snd]; rewrite ?app_nil_r, ?world_eta; try reflexivity.
  unfold chosen, year_element, clamp.
  destruct (y <? mn) eqn:E1; [|destruct (mx <? y) eqn:E2]; cbv beta iota;
    cbn [heap session_state page]; rewrite ?Ey, ?lookup_insert_eq; cbv beta iota;
    destruct (mn =? mx) eqn:E3; cbv beta iota; cbn [heap session_state page];
    rewrite ?Ey, ?lookup_insert_eq; cbv beta iota; cbn [heap session_state page];
    rewrite ?insert_insert_eq; try reflexivity.
  now rewrite (insert_id _ _ _ Ey).
Qed.

Lemma month_filter_eq (j : nat) (valid : list Timestamp) (y : Z) (df : DataFrame)
    (w : world) :
  month_filter j valid y df w =
    (fst (month_step j valid y df (session_state w)),
     mk_world (heap w) (session_state w)
              (page w ++ snd (month_step j valid y df (session_state w)))).
Proof.
  unfold month_filter, month_step, state_names.
  unfold bind, get_state, lift, show, skip, ret.
  destruct (omap month_name (months_in_year valid y)) as [available| |e];
    cbv beta iota; cbn [fst snd]; rewrite ?app_nil_r, ?world_eta; try reflexivity.
  destruct (session_state w !! key_months) as [[n|stored|l0]|] eqn:Em; cbv beta iota;
    cbn [fst snd]; rewrite ?app_nil_r, ?world_eta; try reflexivity.
  destruct (is_nil available); cbv beta iota; cbn [fst snd heap session_state page];
    [reflexivity|].
  rewrite Em. cbv beta iota.
  destruct (omap month_number stored) as [nums| |e]; cbn [obind]; try reflexivity.
  destruct (dt df j) as [[]| |e]; cbn [obind]; reflexivity.
Qed.

Lemma bind_lift {A B} (o : outcome A) (k : A -> M B) (w : world) :
  bind (lift o) k w =
    match o with
    | Ok a => k a w
    | Stop => (Stop, w)
    | Raise e => (Raise e, w)
    end.
Proof. now destruct o. Qed.

Lemma temporal_filter_eq (l : loc) (hoje : date) (T df : DataFrame) (w : world) :
  heap w !! l = Some T ->
  temporal_filter l hoje df w =
    (fst (fst (temporal_result T hoje df (session_state w))),
     mk_world (heap w) (snd (fst (temporal_result T hoje df (session_state w))))
              (page w ++ snd (temporal_result T hoje df (session_state w)))).
Proof.
  intros Hl. unfold temporal_filter, temporal_result. rewrite bind_lift.
  destruct (get_loc df col_ultima) as [j| |e]; cbn [fst snd];
    rewrite ?app_nil_r, ?world_eta; try reflexivity.
  unfold bind at 1. rewrite (init_state_eq l hoje T w Hl).
  destruct (init_session T hoje (session_state w)) as [[u| |e] ss1]; cbn [fst snd];
    rewrite ?app_nil_r; try reflexivity.
  destruct (is_nil (dropna (values df j))); [reflexivity|].
  rewrite bind_lift.
  destruct (timestamps (dropna (values df j))) as [valid| |e]; cbn [fst snd];
    rewrite ?app_nil_r; try reflexivity.
  unfold bind at 1. rewrite year_widget_eq. cbn [heap session_state page].
  destruct (year_step (year_of (ts_min valid)) (year_of (ts_max valid)) ss1)
    as [[[y| |e] ss2] d1]; cbn [fst snd]; try reflexivity.
  rewrite month_filter_eq. cbn [heap session_state page].
  now rewrite app_assoc.
Qed.

Lemma timestamps_In (l : list cell) (v : list Timestamp) (t : Timestamp) :
  timestamps l = Ok v -> (In t v <-> In (Ts t) l).
Proof.
  unfold timestamps. revert v. induction l as [|c r IH]; simpl; intros v H.
  - inversion H. tauto.
  - apply obind_Ok in H as (t0 & Ht0 & H). apply obind_Ok in H as (v0 & Hv0 & H).
    inversion H; subst v. simpl. rewrite (IH v0 Hv0).
    destruct c; try discriminate. inversion Ht0; subst.
    split; intros [E|E]; auto; left; congruence.
Qed.

Lemma timestamps_all (l : list cell) (v : list Timestamp) :
  timestamps l = Ok v -> l = map Ts v.
Proof.
  unfold timestamps. revert v. induction l as [|c r IH]; simpl; intros v H.
  - now inversion H.
  - apply obind_Ok in H as (t0 & Ht0 & H). apply obind_Ok in H as (v0 & Hv0 & H).
    inversion H; subst v. simpl. rewrite <- (IH v0 Hv0).
    destruct c; try discriminate. now inversion Ht0.
Qed.

Lemma months_in_year_nil (valid : list Timestamp) (y : Z) (t : Timestamp) :
  months_in_year valid y = [] -> In t valid -> ts_year t <> y.
Proof.
  unfold months_in_year. intros H Hin Hy.
  pose proof (merge_sort_Permutation Z.le
    (remove_dups (map ts_month (List.filter (fun d => ts_year d =? y) valid)))) as HP.
  rewrite H in HP. apply Permutation_nil in HP.
  assert (Hm : ts_month t ∈ remove_dups
            (map ts_month (List.filter (fun d => ts_year d =? y) valid))).
  { apply elem_of_remove_dups, list_elem_of_In, in_map, filter_In.
    split; [exact Hin|]. now apply Z.eqb_eq. }
  rewrite HP in Hm. now apply not_elem_of_nil in Hm.
Qed.

Lemma months_in_year_cons (valid : list Timestamp) (y : Z) :
  months_in_year valid y <> [] -> exists t, In t valid /\ ts_year t = y.
Proof.
  unfold months_in_year. intros H.
  destruct (List.filter (fun d => ts_year d =? y) valid) as [|t rest] eqn:E.
  - exfalso. apply H. reflexivity.
  - exists t. assert (Hin : In t (t :: rest)) by now left.
    rewrite <- E in Hin. apply filter_In in Hin as [Hin Hy].
    split; [exact Hin|]. now apply Z.eqb_eq.
Qed.

Lemma omap_nil {A B} (f : A -> outcome B) (l : list A) :
  omap f l = Ok [] -> l = [].
Proof. intros H%omap_length. now destruct l. Qed.

Lemma year_step_Ok (mn mx y : Z) (ss ss' : gmap string sval) (d : list element) :
  year_step mn mx ss = (Ok y, ss', d) ->
  exists y0, ss !! key_year = Some (SInt y0) /\ y = chosen mn mx y0 /\
    ss' = <[key_year := SInt y]> ss /\ d = [year_element mn mx y0].
Proof.
  unfold year_step. destruct (ss !! key_year) as [[y0|ms|l0]|]; intros H;
    inversion H; subst. eauto.
Qed.

Lemma init_session_Ok (T : DataFrame) (hoje : date) (ss ss' : gmap string sval) :
  init_session T hoje ss = (Ok tt, ss') ->
  is_Some (ss' !! key_year) /\ is_Some (ss' !! key_months) /\
  (forall v, ss !! key_year = Some v -> ss' !! key_year = Some v) /\
  (forall v, ss !! key_months = Some v -> ss' !! key_months = Some v) /\
  (ss !! key_months = None -> ss' !! key_months = Some (SNames [])) /\
  (ss !! key_year = None ->
     exists y, init_year T hoje = Ok y /\ ss' !! key_year = Some (SInt y)) /\
  (forall k, k <> key_year -> k <> key_months -> ss' !! k = ss !! k).
Proof.
  unfold init_session, init_months.
  destruct (ss !! key_year) as [vy|] eqn:Ey.
  - destruct (ss !! key_months) as [vm|] eqn:Em; intros H; inversion H; subst;
      rewrite ?lookup_insert_eq, ?lookup_insert_ne by discriminate;
      repeat split; eauto; try congruence; try discriminate.
    intros k _ Hk. now rewrite lookup_insert_ne.
  - destruct (init_year T hoje) as [y| |e]; try discriminate.
    rewrite lookup_insert_ne by discriminate.
    destruct (ss !! key_months) as [vm|] eqn:Em; intros H; inversion H; subst;
      rewrite ?lookup_insert_eq, ?lookup_insert_ne by discriminate;
      rewrite ?lookup_insert_eq; repeat split; eauto; try congruence; try discriminate.
    + intros k Hk _. now rewrite lookup_insert_ne.
    + intros k Hk Hk'. now rewrite !lookup_insert_ne.
Qed.

(** When the temporal filter lets the run go on, either it has kept the
    rows whose date is in the year and the months of the session, or it has
    been skipped: no row has a date in the year of the session. *)
Lemma temporal_result_Ok (T : DataFrame) (hoje : date) (df df' : DataFrame)
    (ss ss' : gmap string sval) (d : list element) :
  temporal_result T hoje df ss = (Ok df', ss', d) ->
  exists j, get_loc df col_ultima = Ok j /\
    ((df' = df /\
      forall y, ss' !! key_year = Some (SInt y) ->
        forall r t, In r (rows df) -> cell_at j r = Ts t -> ts_year t <> y)
     \/
     (exists y stored nums,
        ss' !! key_year = Some (SInt y) /\
        ss' !! key_months = Some (SNames stored) /\
        omap month_number stored = Ok nums /\
        dtype_at df j = datetime64_ns /\
        (exists r t, In r (rows df) /\ cell_at j r = Ts t /\ ts_year t = y) /\
        df' = keep (fun r => temporal_match y nums (cell_at j r)) df)).
Proof.
  unfold temporal_result.
  destruct (get_loc df col_ultima) as [j| |e]; try discriminate.
  destruct (init_session T hoje ss) as [[[]| |e] ss1] eqn:Ei; try discriminate.
  intros H. exists j. split; [reflexivity|].
  destruct (is_nil (dropna (values df j))) eqn:Enil.
  { injection H as <- <- <-. left. split; [reflexivity|].
    intros y _ r t Hr Hc. apply is_nil_true in Enil.
    assert (Hin : In (Ts t) (dropna (values df j))).
    { apply dropna_In. split; [|reflexivity]. rewrite <- Hc.
      unfold values. now apply in_map. }
    rewrite Enil in Hin. contradiction. }
  destruct (timestamps (dropna (values df j))) as [valid| |e] eqn:Ev; try discriminate.
  destruct (year_step _ _ ss1) as [[[y| |e] ss2] d1] eqn:Ey; try discriminate.
  apply year_step_Ok in Ey as (y0 & Hy0 & Hy & -> & ->).
  injection H as Ho <- <-.
  unfold month_step in Ho.
  destruct (omap month_name (months_in_year valid y)) as [available| |e] eqn:Ea;
    try discriminate.
  rewrite lookup_insert_ne in Ho by discriminate.
  destruct (ss1 !! key_months) as [[n|stored|l0]|] eqn:Em; try discriminate.
  destruct (is_nil available) eqn:Eav; cbn [fst] in Ho.
  - injection Ho as <-. left. split; [reflexivity|].
    rewrite lookup_insert_eq. intros y' Hy' r t Hr Hc. inversion Hy'; subst y'.
    apply is_nil_true in Eav. subst available. apply omap_nil in Ea.
    apply (months_in_year_nil valid _ t Ea).
    apply (timestamps_In _ _ t Ev), dropna_In. split; [|reflexivity].
    rewrite <- Hc. unfold values. apply in_map. exact Hr.
  - apply obind_Ok in Ho as (nums & Hn & Ho). apply obind_Ok in Ho as ([] & Hdt & Ho).
    injection Ho as <-. right. exists y, stored, nums.
    rewrite lookup_insert_eq, lookup_insert_ne by discriminate.
    split; [reflexivity|]. split; [exact Em|]. split; [exact Hn|].
    split; [|split; [|reflexivity]].
    + unfold dt in Hdt. destruct (bool_decide _) eqn:Eb; [|discriminate].
      now apply bool_decide_eq_true_1 in Eb.
    + destruct (months_in_year_cons valid y) as (t & Ht & Hty).
      { intros Hnil. rewrite Hnil in Ea. injection Ea as <-. discriminate. }
      apply (timestamps_In _ _ t Ev), dropna_In in Ht as [Ht _].
      unfold values in Ht. apply in_map_iff in Ht as (r & Hr & Hin). eauto.
Qed.

(** The temporal filter changes the year and the months of the session
    and nothing else in it. *)
Lemma temporal_result_frame (T : DataFrame) (hoje : date) (df : DataFrame)
    (ss : gmap string sval) (k : string) :
  k <> key_year -> k <> key_months ->
  snd (fst (temporal_result T hoje df ss)) !! k = ss !! k.
Proof.
  intros Hy Hm. unfold temporal_result.
  destruct (get_loc df col_ultima) as [j| |e]; try reflexivity.
  assert (Hi : snd (init_session T hoje ss) !! k = ss !! k).
  { unfold init_session, init_months.
    destruct (ss !! key_year); [|destruct (init_year T hoje)]; cbn [snd];
      rewrite ?lookup_insert_ne by congruence;
      try reflexivity;
      destruct (_ !! key_months); rewrite ?lookup_insert_ne by congruence;
      reflexivity. }
  destruct (init_session T hoje ss) as [[[]| |e] ss1]; cbn [fst snd] in *;
    try exact Hi.
  destruct (is_nil _); [exact Hi|].
  destruct (timestamps _) as [valid| |e]; cbn [fst snd]; try exact Hi.
  unfold year_step.
  destruct (ss1 !! key_year) as [[y|ms|l0]|]; cbn [fst snd]; try exact Hi.
  now rewrite lookup_insert_ne by congruence.
Qed.

(** ** The computed column, the alert table and the downloads *)

(** The exporter on any table: what it returns, and the table it leaves
    in the place of the one it was given. *)
Lemma exporter_eq (l : loc) (filename sheet : string) (df : DataFrame) (w : world) :
  heap w !! l = Some df ->
  download_excel_with_formatting l filename sheet w =
    (written (rewritten df) sheet,
     mk_world (<[l := rewritten df]> (heap w)) (session_state w) (page w)).
Proof.
  intros Hl. unfold download_excel_with_formatting, written, rewritten.
  rewrite (bind_Ok _ _ w w df) by (unfold load; now rewrite Hl).
  erewrite bind_Ok by (apply (strftime_loop l _ df w Hl), datetime_columns_names).
  erewrite bind_Ok by (unfold load; cbn [heap]; now rewrite lookup_insert_eq).
  cbn [default from_option]. unfold id. rewrite bind_lift.
  now destruct (omap _ _).
Qed.

Lemma bind_uniform {A B} (m : M A) (k : A -> M B) (w : world) :
  uniform m ->
  bind m k w =
    match fst (m blank) with
    | Ok a => k a (mk_world (heap w) (session_state w)
                            (page w ++ page (snd (m blank))))
    | Stop => (Stop, mk_world (heap w) (session_state w)
                              (page w ++ page (snd (m blank))))
    | Raise e => (Raise e, mk_world (heap w) (session_state w)
                                    (page w ++ page (snd (m blank))))
    end.
Proof. intros Hm. unfold bind. rewrite (Hm w). now destruct (fst (m blank)). Qed.

Lemma bind_show (e : element) {B} (k : unit -> M B) (w : world) :
  bind (show e) k w =
    k tt (mk_world (heap w) (session_state w) (page w ++ [e])).
Proof. reflexivity. Qed.

Ltac de_simpl := cbv beta iota; cbn [fst snd heap session_state page].

Lemma metrics_page (df : DataFrame) :
  Forall is_display (page (snd (metrics df blank))).
Proof.
  unfold metrics, bind, show, lift, ret. cbn [heap session_state page blank].
  destruct (get_loc df col_ultima) as [j| |e]; cbn [snd page];
    try (repeat constructor).
  destruct (timestamps _) as [v| |e]; cbn [snd page]; repeat constructor.
Qed.

Lemma show_alerta_page (limite : Z) (a : list Z * DataFrame) :
  Forall is_display (page (snd (show_alerta limite a blank))).
Proof.
  unfold show_alerta, bind, show, lift, ret.
  destruct (is_nil _); cbn [snd page blank]; [repeat constructor|].
  destruct (select _ _) as [v| |e]; cbn [snd page]; repeat constructor.
Qed.

Ltac display_pages :=
  repeat (apply Forall_app; split);
  auto using metrics_page, show_alerta_page; repeat constructor.

(** The last stage on the table [df], with [T] the full table at [l]:
    its outcome and what it shows depend on the two tables only; it leaves
    the session as it is, the objects other than [l] as they are, and,
    when it completes, the rewritten full table at [l]. *)
Lemma display_and_export_eq (T : DataFrame) (sel : Selection) (hoje : date)
    (df : DataFrame) :
  exists o d,
    (forall l w, heap w !! l = Some T ->
     exists h',
      display_and_export l sel hoje df w =
        (o, mk_world h' (session_state w) (page w ++ d)) /\
      (forall l0 X, heap w !! l0 = Some X -> l0 <> l -> h' !! l0 = Some X) /\
      (forall rep, o = Ok rep ->
         h' !! l = Some (rewritten T) /\
         add_dias hoje df = Ok (working rep) /\
         alert_selector (alerta_dias_config sel) (working rep) = Ok (alerta rep) /\
         written (rewritten T) "Dados Completos Tratados" = Ok (buffer_completo rep) /\
         written (rewritten (working rep)) "Dados Filtrados" = Ok (buffer_filtrado rep)))
    /\ Forall is_display d.
Proof.
  unfold display_and_export.
  destruct (add_dias hoje df) as [df1| |e] eqn:Ea.
  2,3: eexists _, []; (split; [|constructor]); intros l w Hl; exists (heap w);
       rewrite bind_lift;
       rewrite app_nil_r, world_eta; split; [reflexivity|]; split; [auto|discriminate].
  destruct (fst (metrics df1 blank)) as [[]| |e] eqn:Em.
  2,3: eexists _, _;
       (split; [intros l w Hl; exists (heap w); rewrite bind_lift;
                rewrite (bind_uniform _ _ _ (uniform_metrics df1)), Em;
                split; [reflexivity|]; split; [auto|discriminate]
               |display_pages]).
  destruct (alert_selector (alerta_dias_config sel) df1) as [a| |e] eqn:Eal.
  2,3: eexists _, _;
       (split; [intros l w Hl; exists (heap w); rewrite bind_lift;
                rewrite (bind_uniform _ _ _ (uniform_metrics df1)), Em;
                rewrite bind_lift, Eal;
                split; [reflexivity|]; split; [auto|discriminate]
               |display_pages]).
  destruct (fst (show_alerta (alerta_dias_config sel) a blank)) as [[]| |e] eqn:Esa.
  2,3: eexists _, _;
       (split; [intros l w Hl; exists (heap w); rewrite bind_lift;
                rewrite (bind_uniform _ _ _ (uniform_metrics df1)), Em;
                rewrite bind_lift, Eal;
                rewrite (bind_uniform _ _ _ (uniform_show_alerta _ a)), Esa; de_simpl;
                rewrite <- app_assoc;
                split; [reflexivity|]; split; [auto|discriminate]
               |display_pages]).
  assert (Hfresh : forall (h : gmap loc DataFrame) l0 X,
            h !! l0 = Some X -> l0 <> fresh (dom h)).
  { intros h l0 X HX ->. pose proof (is_fresh (dom h)) as Hf.
    apply Hf, elem_of_dom. eauto. }
  destruct (written (rewritten T) "Dados Completos Tratados") as [b1| |e] eqn:E1.
  2,3: eexists _, _;
       (split; [intros l w Hl; exists (<[l := rewritten T]> (heap w));
                rewrite bind_lift;
                rewrite (bind_uniform _ _ _ (uniform_metrics df1)), Em;
                rewrite bind_lift, Eal;
                rewrite (bind_uniform _ _ _ (uniform_show_alerta _ a)), Esa; de_simpl;
                unfold bind at 1; rewrite (exporter_eq l _ _ T) by exact Hl;
                rewrite E1; de_simpl;
                rewrite <- app_assoc;
                (split; [reflexivity|]); (split; [|discriminate]);
                intros l0 X HX Hne; now rewrite lookup_insert_ne
               |display_pages]).
  destruct (written (rewritten df1) "Dados Filtrados") as [b2| |e] eqn:E2.
  all: eexists _, _;
       (split; [intros l w Hl;
       set (h1 := <[l := rewritten T]> (heap w));
       exists (<[fresh (dom h1) := rewritten df1]> (<[fresh (dom h1) := df1]> h1));
       rewrite bind_lift;
       rewrite (bind_uniform _ _ _ (uniform_metrics df1)), Em; rewrite bind_lift, Eal;
       rewrite (bind_uniform _ _ _ (uniform_show_alerta _ a)), Esa; de_simpl;
       unfold bind at 1; rewrite (exporter_eq l _ _ T) by exact Hl; rewrite E1; de_simpl;
       rewrite bind_show; de_simpl;
       unfold bind at 1; unfold alloc at 1; de_simpl; fold h1;
       unfold bind at 1;
       rewrite (exporter_eq _ _ _ df1) by (cbn [heap]; apply lookup_insert_eq);
       rewrite E2; de_simpl; rewrite ?bind_show; unfold ret; de_simpl;
       rewrite <- !app_assoc;
       (split; [reflexivity|]);
       assert (Hl1 : h1 !! l = Some (rewritten T)) by apply lookup_insert_eq;
       pose proof (Hfresh h1 l _ Hl1) as Hne1;
       (split;
        [intros l0 X HX Hne;
         assert (HX1 : h1 !! l0 = Some X) by (unfold h1; now rewrite lookup_insert_ne);
         pose proof (Hfresh h1 l0 _ HX1) as Hne0;
         now rewrite !lookup_insert_ne by congruence|]);
       try discriminate;
       intros rep Hrep; injection Hrep as <-;
       cbn [working alerta buffer_completo buffer_filtrado];
       rewrite !lookup_insert_ne by congruence; auto
       |display_pages]).
Qed.

(** ** A run that completes *)

(** The stages a completed run went through. *)
Lemma run_Ok (T : DataFrame) (sel : Selection) (hoje : date) (w w' : world)
    (rep : report) :
  run T sel hoje w = (Ok rep, w') ->
  exists df1 df2 d l,
    l = fresh (dom (heap w)) /\
    narrowed sel T = Ok df1 /\
    tipos_selecionados sel <> [] /\ fiscais_selecionados sel <> [] /\
    rpas_selecionadas sel <> [] /\
    temporal_result T hoje df1 (<[key_df := SFrame l]> (session_state w))
      = (Ok df2, session_state w', d) /\
    add_dias hoje df2 = Ok (working rep) /\
    alert_selector (alerta_dias_config sel) (working rep) = Ok (alerta rep) /\
    written (rewritten T) "Dados Completos Tratados" = Ok (buffer_completo rep) /\
    written (rewritten (working rep)) "Dados Filtrados" = Ok (buffer_filtrado rep) /\
    heap w' !! l = Some (rewritten T).
Proof.
  rewrite run_unfold. set (l := fresh (dom (heap w))). intros H.
  unfold bind at 1 in H.
  destruct (mandatory_filters sel T _) as [[df1| |e] w2] eqn:Em; try discriminate.
  pose proof (mandatory_filters_Ok _ _ _ _ _ Em) as (Hn & Ht & Hf & Hr).
  pose proof (mandatory_filters_frame _ _ _ _ _ Em) as (Hh & Hs & _).
  cbn [heap session_state] in Hh, Hs.
  assert (Hl : heap w2 !! l = Some T) by (rewrite Hh; apply lookup_insert_eq).
  unfold bind at 1 in H. rewrite (temporal_filter_eq l hoje T df1 w2 Hl) in H.
  rewrite Hs in H.
  destruct (temporal_result T hoje df1 _) as [[[df2| |e] sst] dt] eqn:Et;
    cbn [fst snd] in H; try discriminate.
  destruct (display_and_export_eq T sel hoje df2) as (od & dd & Hde & _).
  destruct (Hde l (mk_world (heap w2) sst (page w2 ++ dt)) Hl)
    as (h' & Heq & _ & Hrep).
  rewrite Heq in H. injection H as -> <-.
  destruct (Hrep rep eq_refl) as (H1 & H2 & H3 & H4 & H5).
  exists df1, df2, dt, l. cbn [heap session_state]. repeat split; assumption.
Qed.

Lemma isin_spec (sel : list cell) (c : cell) : isin sel c = true <-> In c sel.
Proof.
  unfold isin. rewrite <- list_elem_of_In. split.
  - apply bool_decide_eq_true_1.
  - apply bool_decide_eq_true_2.
Qed.

(** The table narrowed by the three mandatory filters: the columns of
    the full table and the rows that are in all three selections. *)
Lemma narrowed_Ok (sel : Selection) (T df : DataFrame) :
  narrowed sel T = Ok df ->
  exists jt jf jr,
    get_loc T col_tipo = Ok jt /\ get_loc T col_fiscal = Ok jf /\
    get_loc T col_rpa = Ok jr /\
    columns df = columns T /\
    forall r, In r (rows df) <->
      In r (rows T) /\ In (cell_at jt r) (tipos_selecionados sel) /\
      In (cell_at jf r) (fiscais_selecionados sel) /\
      In (cell_at jr r) (rpas_selecionadas sel).
Proof.
  unfold narrowed, narrowed_by_fiscal, narrowed_by_tipo. intros H.
  apply obind_Ok in H as (d2 & H2 & H3). apply obind_Ok in H2 as (d1 & H1 & H2).
  apply filter_isin_Ok in H1 as (jt & Hjt & ->).
  apply filter_isin_Ok in H2 as (jf & Hjf & ->).
  apply filter_isin_Ok in H3 as (jr & Hjr & ->).
  exists jt, jf, jr.
  split; [exact Hjt|]. split; [exact Hjf|]. split; [exact Hjr|].
  split; [reflexivity|].
  intros r. unfold keep. cbn [rows]. rewrite !filter_In, !isin_spec. tauto.
Qed.

Lemma well_shaped_narrowing (T df : DataFrame) :
  well_shaped T -> narrowing_of T df -> well_shaped df.
Proof.
  intros [Hnd Hlen] [Hc Hr]. split.
  - unfold names. now rewrite Hc.
  - rewrite List.Forall_forall in *. intros r Hin. rewrite Hc. now apply Hlen, Hr.
Qed.

Lemma omap_In {A B} (f : A -> outcome B) (l : list A) (r : list B) (y : B) :
  omap f l = Ok r -> In y r -> exists x, In x l /\ f x = Ok y.
Proof.
  revert r. induction l as [|a t IH]; simpl; intros r H Hy.
  - inversion H; subst. contradiction.
  - apply obind_Ok in H as (b & Hb & H). apply obind_Ok in H as (bs & Hbs & H).
    inversion H; subst. destruct Hy as [<-|Hy]; [eauto|].
    destruct (IH bs Hbs Hy) as (x & Hx & Hfx). eauto.
Qed.

Lemma temporal_match_spec (y : Z) (nums : list Z) (c : cell) :
  temporal_match y nums c = true <->
  exists t, c = Ts t /\ ts_year t = y /\ In (ts_month t) nums.
Proof.
  destruct c; simpl; try (split; [discriminate|intros (t0 & H & _); discriminate]).
  rewrite andb_true_iff, Z.eqb_eq, bool_decide_eq_true, list_elem_of_In. split.
  - intros [H1 H2]. eauto.
  - intros (t0 & H & H1 & H2). inversion H; subst. auto.
Qed.

(** C6, as the code has it.  A row whose last-inspection date is missing
    never passes the year/month matching, whatever the year and the
    months.  The temporal filter applies the matching when some row it
    receives has a date in the year of the session, and then no row with a
    missing date is in its output; when no row has, the filter is skipped
    and its output is the table it received, rows with a missing date
    included. *)
Theorem C6_temporal_filter_missing
    (l : loc) (hoje : date) (T df df' : DataFrame) (w w' : world) :
  heap w !! l = Some T ->
  temporal_filter l hoje df w = (Ok df', w') ->
  (forall y nums c, notna c = false -> temporal_match y nums c = false) /\
  exists j, get_loc df col_ultima = Ok j /\
    (forall r, In r (rows df') -> In r (rows df)) /\
    (forall y, session_state w' !! key_year = Some (SInt y) ->
       (exists r1 t1, In r1 (rows df) /\ cell_at j r1 = Ts t1 /\ ts_year t1 = y) ->
       forall r, In r (rows df') -> notna (cell_at j r) = true) /\
    (forall y, session_state w' !! key_year = Some (SInt y) ->
       (forall r1 t1, In r1 (rows df) -> cell_at j r1 = Ts t1 -> ts_year t1 <> y) ->
       df' = df).
Proof.
  intros Hl H. split.
  { intros y nums c Hc. now destruct c. }
  rewrite (temporal_filter_eq l hoje T df w Hl) in H.
  destruct (temporal_result T hoje df (session_state w)) as [[o ss'] d] eqn:Et.
  cbn [fst snd] in H. injection H as -> <-. cbn [session_state].
  destruct (temporal_result_Ok _ _ _ _ _ _ _ Et) as (j & Hj & Hcases).
  exists j. split; [exact Hj|].
  destruct Hcases as [[-> Hnone]|(y0 & stored & nums & Hy0 & Hm & Hn & Hdt & Hex & ->)].
  - split; [auto|]. split; [|reflexivity].
    intros y Hy (r1 & t1 & Hr1 & Hc1 & Ht1) r Hr. exfalso.
    exact (Hnone y Hy r1 t1 Hr1 Hc1 Ht1).
  - split; [|split].
    + intros r Hr. unfold keep in Hr. cbn [rows] in Hr.
      now apply filter_In in Hr as [Hr _].
    + intros y Hy _ r Hr. unfold keep in Hr. cbn [rows] in Hr.
      apply filter_In in Hr as [_ Hr].
      apply temporal_match_spec in Hr as (t & -> & _). reflexivity.
    + intros y Hy Hnone. exfalso. rewrite Hy0 in Hy. injection Hy as <-.
      destruct Hex as (r1 & t1 & Hr1 & Hc1 & Ht1). exact (Hnone r1 t1 Hr1 Hc1 Ht1).
Qed.

Lemma temporal_result_narrowing (T : DataFrame) (hoje : date) (df df' : DataFrame)
    (ss ss' : gmap string sval) (d : list element) :
  temporal_result T hoje df ss = (Ok df', ss', d) -> narrowing_of df df'.
Proof.
  intros H. destruct (temporal_result_Ok _ _ _ _ _ _ _ H) as (j & _ & Hc).
  destruct Hc as [[-> _]|(y & st & nums & _ & _ & _ & _ & _ & ->)].
  - apply narrowing_refl.
  - apply narrowing_keep, narrowing_refl.
Qed.

Lemma narrowed_narrowing (sel : Selection) (T df : DataFrame) :
  narrowed sel T = Ok df -> narrowing_of T df.
Proof.
  intros H. destruct (narrowed_Ok _ _ _ H) as (jt & jf & jr & _ & _ & _ & Hc & Hr).
  split; [exact Hc|]. intros r Hin. now apply Hr in Hin.
Qed.

Lemma narrowing_trans (T df df' : DataFrame) :
  narrowing_of T df -> narrowing_of df df' -> narrowing_of T df'.
Proof. intros [H1 H2] [H3 H4]. split; [congruence|auto]. Qed.

(** C5.  In a completed run over a well-shaped table, for every row of
    the working table the computed column is missing exactly when the
    last-inspection date is, and otherwise holds the number of days from
    the date part of the last inspection to the current date, as a signed
    integer. *)
Theorem C5_days_since_last_inspection
    (T : DataFrame) (sel : Selection) (hoje : date) (w w' : world) (rep : report) :
  well_shaped T ->
  run T sel hoje w = (Ok rep, w') ->
  exists ju jd,
    get_loc (working rep) col_ultima = Ok ju /\
    get_loc (working rep) col_dias = Ok jd /\
    forall r, In r (rows (working rep)) ->
      (notna (cell_at jd r) = false <-> notna (cell_at ju r) = false) /\
      (notna (cell_at ju r) = true ->
         exists t, cell_at ju r = Ts t /\
           num_of (cell_at jd r) = Some (days_between hoje (date_of t))).
Proof.
  intros Hws H.
  destruct (run_Ok _ _ _ _ _ _ H)
    as (df1 & df2 & d & l & _ & Hn & _ & _ & _ & Ht & Ha & _).
  assert (N2 : narrowing_of T df2).
  { apply (narrowing_trans T df1 df2).
    - exact (narrowed_narrowing _ _ _ Hn).
    - exact (temporal_result_narrowing _ _ _ _ _ _ _ Ht). }
  assert (Hws2 : well_shaped df2) by now apply (well_shaped_narrowing T).
  destruct (add_dias_spec _ _ _ Ha Hws2) as (ju & Hju0 & Hju & Hjd & Hne & _ & Hrows).
  exists ju, (setitem_loc col_dias df2). split; [exact Hju|]. split; [exact Hjd|].
  intros r Hr. apply list_elem_of_In, list_elem_of_lookup_1 in Hr as [k Hk].
  destruct (Hrows k r Hk) as (r0 & Hr0 & Hsame & _ & Hna & Hval).
  assert (Hcell : cell_at ju r = cell_at ju r0).
  { apply Hsame; [|exact Hne]. now apply get_loc_lt in Hju0. }
  rewrite Hcell. split; [now rewrite Hna|exact Hval].
Qed.

(** C3, as the code has it.  In a completed run over a well-shaped
    table, the three mandatory selections are non-empty, and each row of
    the working table is a row of the full table with the computed column
    set, whose service type, inspector and region are in the selected sets;
    and when some row passing the three filters has its last-inspection
    date in the year of the session, the date of each row of the working
    table is in that year and in one of the months of the session.  When no
    such row has, the temporal filter is skipped: every row of the full
    table that passes the three filters, of whatever year and with or
    without a date, is in the working table. *)
Theorem C3_working_table
    (T : DataFrame) (sel : Selection) (hoje : date) (w w' : world) (rep : report) :
  well_shaped T ->
  run T sel hoje w = (Ok rep, w') ->
  tipos_selecionados sel <> [] /\ fiscais_selecionados sel <> [] /\
  rpas_selecionadas sel <> [] /\
  exists jt jf jr ju,
    get_loc T col_tipo = Ok jt /\ get_loc T col_fiscal = Ok jf /\
    get_loc T col_rpa = Ok jr /\ get_loc T col_ultima = Ok ju /\
    (forall r, In r (rows (working rep)) ->
      exists r0, In r0 (rows T) /\
        (forall j, (j < length (columns T))%nat -> j <> setitem_loc col_dias T ->
                   cell_at j r = cell_at j r0) /\
        In (cell_at jt r0) (tipos_selecionados sel) /\
        In (cell_at jf r0) (fiscais_selecionados sel) /\
        In (cell_at jr r0) (rpas_selecionadas sel) /\
        forall y, session_state w' !! key_year = Some (SInt y) ->
          (exists r1 t1, In r1 (rows T) /\
             In (cell_at jt r1) (tipos_selecionados sel) /\
             In (cell_at jf r1) (fiscais_selecionados sel) /\
             In (cell_at jr r1) (rpas_selecionadas sel) /\
             cell_at ju r1 = Ts t1 /\ ts_year t1 = y) ->
          exists t months name,
            cell_at ju r0 = Ts t /\ ts_year t = y /\
            session_state w' !! key_months = Some (SNames months) /\
            In name months /\ month_number name = Ok (ts_month t)) /\
    (forall y, session_state w' !! key_year = Some (SInt y) ->
       (forall r1 t1, In r1 (rows T) ->
          In (cell_at jt r1) (tipos_selecionados sel) ->
          In (cell_at jf r1) (fiscais_selecionados sel) ->
          In (cell_at jr r1) (rpas_selecionadas sel) ->
          cell_at ju r1 = Ts t1 -> ts_year t1 <> y) ->
       forall r0, In r0 (rows T) ->
         In (cell_at jt r0) (tipos_selecionados sel) ->
         In (cell_at jf r0) (fiscais_selecionados sel) ->
         In (cell_at jr r0) (rpas_selecionadas sel) ->
         exists r, In r (rows (working rep)) /\
           forall j, (j < length (columns T))%nat -> j <> setitem_loc col_dias T ->
                     cell_at j r = cell_at j r0).
Proof.
  intros Hws H.
  destruct (run_Ok _ _ _ _ _ _ H)
    as (df1 & df2 & d & l & _ & Hn & Hst & Hsf & Hsr & Ht & Ha & _).
  split; [exact Hst|]. split; [exact Hsf|]. split; [exact Hsr|].
  destruct (narrowed_Ok _ _ _ Hn) as (jt & jf & jr & Hjt & Hjf & Hjr & Hc1 & Hr1).
  pose proof (narrowed_narrowing _ _ _ Hn) as N1.
  pose proof (temporal_result_narrowing _ _ _ _ _ _ _ Ht) as N12.
  pose proof (narrowing_trans _ _ _ N1 N12) as N2.
  assert (Hws2 : well_shaped df2) by now apply (well_shaped_narrowing T).
  destruct (add_dias_spec _ _ _ Ha Hws2) as (ju & Hju2 & _ & _ & _ & Hlen & Hrows).
  assert (Hju : get_loc T col_ultima = Ok ju)
    by now rewrite <- (narrowing_get_loc _ _ _ N2).
  assert (Hloc : setitem_loc col_dias df2 = setitem_loc col_dias T).
  { unfold setitem_loc, names. now rewrite (proj1 N2). }
  exists jt, jf, jr, ju. repeat (split; [assumption|]).
  split; [|
    intros y Hy Hnone r0 HT0 Ht0 Hf0 Hp0;
    assert (Hin0 : In r0 (rows df1)) by (apply Hr1; auto);
    destruct (temporal_result_Ok _ _ _ _ _ _ _ Ht) as (j & Hj & Hcases);
    rewrite (narrowing_get_loc _ _ _ N1), Hju in Hj; injection Hj as <-;
    destruct Hcases as [[-> _]|(y0 & stored & nums & Hy0 & _ & _ & _ & Hex & _)];
    [|exfalso; rewrite Hy0 in Hy; injection Hy as <-;
      destruct Hex as (r1 & t1 & Hin1 & Hc1' & Hyr1);
      apply Hr1 in Hin1 as (HT1 & Ha1 & Hb1 & Hd1);
      exact (Hnone r1 t1 HT1 Ha1 Hb1 Hd1 Hc1' Hyr1)];
    apply list_elem_of_In, list_elem_of_lookup_1 in Hin0 as [k Hk0];
    destruct (lookup_lt_is_Some_2 (rows (working rep)) k) as [r Hk];
    [rewrite Hlen; now apply lookup_lt_Some in Hk0|];
    destruct (Hrows k r Hk) as (r0' & Hr0' & Hsame & _);
    assert (r0' = r0) by congruence; subst r0';
    exists r; split;
    [apply list_elem_of_In; now apply list_elem_of_lookup_2 in Hk|];
    intros j Hj Hne; apply Hsame;
    [now rewrite (proj1 N1)|now rewrite Hloc]].
  intros r Hr. apply list_elem_of_In, list_elem_of_lookup_1 in Hr as [k Hk].
  destruct (Hrows k r Hk) as (r0 & Hr0 & Hsame & _).
  apply list_elem_of_lookup_2, list_elem_of_In in Hr0.
  pose proof (proj2 N12 r0 Hr0) as Hr01. apply Hr1 in Hr01 as (HT & H1 & H2 & H3).
  exists r0. split; [exact HT|]. split.
  { intros j Hj Hne. apply Hsame; [now rewrite (proj1 N2)|now rewrite Hloc]. }
  repeat (split; [assumption|]).
  intros y Hy (r1 & t1 & HT1 & Ht1 & Hf1 & Hrp1 & Hc & Hyr).
  assert (Hin1 : In r1 (rows df1)) by (apply Hr1; auto).
  destruct (temporal_result_Ok _ _ _ _ _ _ _ Ht) as (j & Hj & Hcases).
  rewrite (narrowing_get_loc _ _ _ N1), Hju in Hj. injection Hj as <-.
  destruct Hcases as [[-> Hnone]|(y0 & stored & nums & Hy0 & Hm & Hnum & _ & _ & ->)].
  - exfalso. exact (Hnone y Hy r1 t1 Hin1 Hc Hyr).
  - rewrite Hy0 in Hy. injection Hy as <-.
    unfold keep in Hr0. cbn [rows] in Hr0. apply filter_In in Hr0 as [_ Hmatch].
    apply temporal_match_spec in Hmatch as (t & Hcell & Hty & Hmon).
    destruct (omap_In _ _ _ _ Hnum Hmon) as (name & Hname & Hmn).
    exists t, stored, name. auto.
Qed.

(** ** What a run offers on the page *)

Lemma clamp_in_range (mn mx y : Z) : mn <= mx -> mn <= clamp mn mx y <= mx.
Proof.
  intros H. unfold clamp. destruct (Z.ltb_spec y mn); [lia|].
  destruct (Z.ltb_spec mx y); lia.
Qed.

Lemma year_before_insert (T : DataFrame) (hoje : date) (ss : gmap string sval)
    (k : string) (v : sval) :
  k <> key_year -> year_before T hoje (<[k := v]> ss) = year_before T hoje ss.
Proof. intros Hk. unfold year_before. now rewrite lookup_insert_ne. Qed.

(** The year the session holds after the initial state is the year it held
    before or the initial year. *)
Lemma init_session_year (T : DataFrame) (hoje : date) (ss ss1 : gmap string sval)
    (y : Z) :
  init_session T hoje ss = (Ok tt, ss1) -> ss1 !! key_year = Some (SInt y) ->
  year_before T hoje ss = Some y.
Proof.
  intros Hi Hy. destruct (init_session_Ok _ _ _ _ Hi) as (_ & _ & Hk & _ & _ & Hn & _).
  unfold year_before. destruct (ss !! key_year) as [v|] eqn:E.
  - rewrite (Hk v eq_refl) in Hy. injection Hy as ->. reflexivity.
  - destruct (Hn eq_refl) as (y' & -> & Hy'). congruence.
Qed.

Lemma temporal_result_page (T : DataFrame) (hoje : date) (df : DataFrame)
    (ss : gmap string sval) :
  Forall (offered_temporal T hoje df ss (snd (fst (temporal_result T hoje df ss))))
         (snd (temporal_result T hoje df ss)).
Proof.
  unfold temporal_result.
  destruct (get_loc df col_ultima) as [j| |e] eqn:Ej; try constructor.
  destruct (init_session T hoje ss) as [[[]| |e] ss1] eqn:Ei; try constructor.
  destruct (is_nil _); [repeat constructor|].
  destruct (timestamps _) as [valid| |e] eqn:Ev; try constructor.
  unfold year_step.
  destruct (ss1 !! key_year) as [[y|ms|l0]|] eqn:Ey; cbn [fst snd]; try constructor.
  - pose proof (init_session_year _ _ _ _ _ Ei Ey) as Hb.
    unfold year_element, chosen.
    destruct (Z.eqb_spec (year_of (ts_min valid)) (year_of (ts_max valid))) as [E|E];
      simpl.
    + exists j, valid. rewrite lookup_insert_eq. auto.
    + exists j, valid, y. rewrite lookup_insert_eq. repeat split; auto.
  - unfold month_step.
    destruct (omap month_name _) as [available| |e] eqn:Ea; try constructor.
    destruct (_ !! key_months) as [[n|stored|l0]|]; try constructor.
    destruct (is_nil available); repeat constructor. simpl.
    exists j, valid, (chosen (year_of (ts_min valid)) (year_of (ts_max valid)) y).
    rewrite lookup_insert_eq. auto.
Qed.

(** The page a run leaves: the widgets of the mandatory filters, then,
    if these let the run go on, what the temporal filter shows for the
    narrowed table, then what is displayed. *)
Lemma run_page (T : DataFrame) (sel : Selection) (hoje : date) (w : world) :
  exists dm rest,
    page (snd (run T sel hoje w)) = (dm ++ rest)%list /\
    Forall (offered_filter sel T) dm /\
    (rest = [] \/
     exists df1 dt dd, narrowed sel T = Ok df1 /\ rest = (dt ++ dd)%list /\
       Forall (offered_temporal T hoje df1 (session_state w)
                 (session_state (snd (run T sel hoje w)))) dt /\
       Forall is_display dd).
Proof.
  assert (H : forall r, run T sel hoje w = r ->
            exists dm rest,
              page (snd r) = (dm ++ rest)%list /\
              Forall (offered_filter sel T) dm /\
              (rest = [] \/
               exists df1 dt dd, narrowed sel T = Ok df1 /\ rest = (dt ++ dd)%list /\
                 Forall (offered_temporal T hoje df1 (session_state w)
                           (session_state (snd r))) dt /\
                 Forall is_display dd));
    [|exact (H _ eq_refl)].
  rewrite run_unfold. set (l := fresh (dom (heap w))).
  unfold bind at 1.
  destruct (mandatory_filters sel T _) as [o w2] eqn:Em.
  pose proof (mandatory_filters_frame _ _ _ _ _ Em) as (Hh & Hs & dm & Hp & Hdm).
  cbn [heap session_state page app] in Hh, Hs, Hp.
  destruct o as [df1| |e];
    try (intros r <-; exists dm, []; cbn [snd]; rewrite app_nil_r;
         split; [exact Hp|]; split; [exact Hdm|now left]).
  pose proof (mandatory_filters_Ok _ _ _ _ _ Em) as (Hn & _).
  assert (Hl : heap w2 !! l = Some T) by (rewrite Hh; apply lookup_insert_eq).
  unfold bind at 1. rewrite (temporal_filter_eq l hoje T df1 w2 Hl).
  pose proof (temporal_result_page T hoje df1 (session_state w2)) as Hdt.
  assert (Hoff : forall ss' e,
            offered_temporal T hoje df1 (session_state w2) ss' e ->
            offered_temporal T hoje df1 (session_state w) ss' e).
  { intros ss' e. rewrite Hs. destruct e; simpl; auto.
    intros (j & valid & y0 & H). exists j, valid, y0.
    rewrite year_before_insert in H by discriminate. exact H. }
  assert (Hdt' : Forall (offered_temporal T hoje df1 (session_state w)
                    (snd (fst (temporal_result T hoje df1 (session_state w2)))))
                   (snd (temporal_result T hoje df1 (session_state w2)))).
  { rewrite List.Forall_forall in *. intros e He. apply Hoff. now apply Hdt. }
  clear Hdt Hoff.
  destruct (temporal_result T hoje df1 _) as [[[df2| |e] sst] dt];
    cbn [fst snd] in *;
    try (intros r <-; exists dm, dt; cbn [snd page session_state]; rewrite Hp;
         split; [reflexivity|]; split; [exact Hdm|];
         right; exists df1, dt, []; rewrite app_nil_r; repeat split; auto).
  destruct (display_and_export_eq T sel hoje df2) as (od & dd & Hde & Hdd).
  destruct (Hde l (mk_world (heap w2) sst (page w2 ++ dt)) Hl) as (h' & Heq & _).
  rewrite Heq. intros r <-. cbn [snd page session_state]. exists dm, (dt ++ dd)%list.
  rewrite Hp, <- app_assoc. split; [reflexivity|]. split; [exact Hdm|].
  right. exists df1, dt, dd. auto.
Qed.

(** ** The calendar *)

Lemma days_before_year_step (y : Z) :
  days_before_year (y + 1) =
    days_before_year y + 365 + (if is_leap y then 1 else 0).
Proof.
  unfold days_before_year, is_leap. cbv zeta.
  replace (y + 1 - 1) with y by lia.
  destruct (Z.eqb_spec (y mod 4) 0), (Z.eqb_spec (y mod 100) 0),
    (Z.eqb_spec (y mod 400) 0); simpl;
    Z.div_mod_to_equations; lia.
Qed.

Lemma days_before_year_mono (y1 y2 : Z) :
  y1 <= y2 -> days_before_year y1 <= days_before_year y2.
Proof.
  intros H. replace y2 with (y1 + Z.of_nat (Z.to_nat (y2 - y1))) by lia.
  induction (Z.to_nat (y2 - y1)) as [|n IH].
  - replace (y1 + Z.of_nat 0) with y1 by lia. lia.
  - replace (y1 + Z.of_nat (S n)) with (y1 + Z.of_nat n + 1) by lia.
    rewrite days_before_year_step. destruct (is_leap _); lia.
Qed.

Lemma day_of_year_bound (d : date) :
  valid_date d ->
  1 <= days_before_month (year d) (month d) + day d
    <= 365 + (if is_leap (year d) then 1 else 0).
Proof.
  unfold valid_date, days_before_month. intros (Hy & Hm & Hd).
  assert (Hcases : month d = 1 \/ month d = 2 \/ month d = 3 \/ month d = 4 \/
                   month d = 5 \/ month d = 6 \/ month d = 7 \/ month d = 8 \/
                   month d = 9 \/ month d = 10 \/ month d = 11 \/ month d = 12) by lia.
  destruct (is_leap (year d));
    repeat (destruct Hcases as [E|Hcases]; [rewrite E in *; simpl in *; lia|]);
    rewrite Hcases in *; simpl in *; lia.
Qed.

Lemma ts_key_bounds (t : Timestamp) :
  valid_ts t ->
  (days_before_year (ts_year t) + 1) * 86400 <= ts_key t
    < (days_before_year (ts_year t + 1) + 1) * 86400.
Proof.
  intros (Hd & Hh & Hm & Hs). pose proof (day_of_year_bound _ Hd) as Hb.
  unfold ts_key, toordinal. cbn [date_of year month day] in *.
  rewrite days_before_year_step. destruct (is_leap (ts_year t)); lia.
Qed.

(** A later timestamp is not of an earlier year. *)
Lemma ts_key_year (t1 t2 : Timestamp) :
  valid_ts t1 -> valid_ts t2 -> ts_key t1 <= ts_key t2 -> ts_year t1 <= ts_year t2.
Proof.
  intros H1 H2 Hk. destruct (Z.le_gt_cases (ts_year t1) (ts_year t2)) as [|Hgt];
    [assumption|exfalso].
  pose proof (ts_key_bounds _ H1) as [B1 _]. pose proof (ts_key_bounds _ H2) as [_ B2].
  assert (days_before_year (ts_year t2 + 1) <= days_before_year (ts_year t1))
    by (apply days_before_year_mono; lia).
  lia.
Qed.

Lemma ts_min_spec (l : list Timestamp) (m : Timestamp) :
  ts_min l = Some m -> In m l /\ forall t, In t l -> ts_key m <= ts_key t.
Proof.
  revert m. induction l as [|x r IH]; simpl; intros m H; [discriminate|].
  destruct (ts_min r) as [u|] eqn:E.
  - destruct (IH u eq_refl) as [Hin Hle].
    destruct (ts_key u <? ts_key x) eqn:Ec; injection H as <-;
      [apply Z.ltb_lt in Ec|apply Z.ltb_ge in Ec].
    + split; [now right|]. intros t [<-|Ht]; [lia|now apply Hle].
    + split; [now left|]. intros t [<-|Ht]; [lia|]. specialize (Hle t Ht). lia.
  - injection H as <-. split; [now left|].
    destruct r; [|simpl in E; destruct (ts_min r); [destruct (_ <? _)|]; discriminate].
    intros t [<-|[]]. lia.
Qed.

Lemma ts_max_spec (l : list Timestamp) (m : Timestamp) :
  ts_max l = Some m -> In m l /\ forall t, In t l -> ts_key t <= ts_key m.
Proof.
  revert m. induction l as [|x r IH]; simpl; intros m H; [discriminate|].
  destruct (ts_max r) as [u|] eqn:E.
  - destruct (IH u eq_refl) as [Hin Hle].
    destruct (ts_key x <? ts_key u) eqn:Ec; injection H as <-;
      [apply Z.ltb_lt in Ec|apply Z.ltb_ge in Ec].
    + split; [now right|]. intros t [<-|Ht]; [lia|now apply Hle].
    + split; [now left|]. intros t [<-|Ht]; [lia|]. specialize (Hle t Ht). lia.
  - injection H as <-. split; [now left|].
    destruct r; [|simpl in E; destruct (ts_max r); [destruct (_ <? _)|]; discriminate].
    intros t [<-|[]]. lia.
Qed.

(** Over well-formed timestamps the least year is not above the
    greatest. *)
Lemma year_range_ordered (l : list Timestamp) :
  (forall t, In t l -> valid_ts t) ->
  year_of (ts_min l) <= year_of (ts_max l).
Proof.
  intros Hv. destruct (ts_min l) as [a|] eqn:Ea, (ts_max l) as [b|] eqn:Eb; simpl.
  - apply ts_min_spec in Ea as [Ha Hmin]. apply ts_max_spec in Eb as [Hb Hmax].
    apply ts_key_year; auto.
  - destruct l; [discriminate|]. simpl in Eb.
    destruct (ts_max l); [destruct (_ <? _)|]; discriminate.
  - destruct l; [discriminate|]. simpl in Ea.
    destruct (ts_min l); [destruct (_ <? _)|]; discriminate.
  - lia.
Qed.

(** ** The temporal filter run again *)

Lemma init_session_present (T : DataFrame) (hoje : date) (ss : gmap string sval) :
  is_Some (ss !! key_year) -> is_Some (ss !! key_months) ->
  init_session T hoje ss = (Ok tt, ss).
Proof.
  intros [vy Hy] [vm Hm]. unfold init_session, init_months. now rewrite Hy, Hm.
Qed.

Lemma init_session_dep (T : DataFrame) (hoje : date) (ss ss2 : gmap string sval) :
  ss2 !! key_year = ss !! key_year -> ss2 !! key_months = ss !! key_months ->
  fst (init_session T hoje ss2) = fst (init_session T hoje ss) /\
  snd (init_session T hoje ss2) !! key_year = snd (init_session T hoje ss) !! key_year /\
  snd (init_session T hoje ss2) !! key_months
    = snd (init_session T hoje ss) !! key_months.
Proof.
  intros Hy Hm. unfold init_session, init_months. rewrite Hy.
  destruct (ss !! key_year) as [vy|] eqn:Ey.
  - rewrite Hm. destruct (ss !! key_months) as [vm|] eqn:Em; cbn [fst snd];
      rewrite ?lookup_insert_eq, ?lookup_insert_ne by discriminate;
      repeat split; congruence.
  - destruct (init_year T hoje) as [y| |e]; cbn [fst snd];
      try (repeat split; congruence).
    rewrite !lookup_insert_ne by discriminate. rewrite Hm.
    destruct (ss !! key_months) as [vm|] eqn:Em; cbn [fst snd];
      rewrite ?lookup_insert_eq, ?lookup_insert_ne by discriminate;
      rewrite ?lookup_insert_eq; repeat split; try congruence.
    rewrite lookup_insert_ne by discriminate. now rewrite lookup_insert_eq.
Qed.

Lemma year_step_dep (mn mx : Z) (ss ss2 : gmap string sval) :
  ss2 !! key_year = ss !! key_year -> ss2 !! key_months = ss !! key_months ->
  fst (fst (year_step mn mx ss2)) = fst (fst (year_step mn mx ss)) /\
  snd (year_step mn mx ss2) = snd (year_step mn mx ss) /\
  snd (fst (year_step mn mx ss2)) !! key_year
    = snd (fst (year_step mn mx ss)) !! key_year /\
  snd (fst (year_step mn mx ss2)) !! key_months
    = snd (fst (year_step mn mx ss)) !! key_months.
Proof.
  intros Hy Hm. unfold year_step. rewrite Hy.
  destruct (ss !! key_year) as [[y|ms|l0]|] eqn:Ey; cbn [fst snd];
    rewrite ?lookup_insert_eq; rewrite ?lookup_insert_ne by discriminate;
    repeat split; congruence.
Qed.

Lemma month_step_dep (j : nat) (valid : list Timestamp) (y : Z) (df : DataFrame)
    (ss ss2 : gmap string sval) :
  ss2 !! key_months = ss !! key_months ->
  month_step j valid y df ss2 = month_step j valid y df ss.
Proof. intros Hm. unfold month_step. now rewrite Hm. Qed.

(** The temporal filter looks at the year and the months of the session
    only. *)
Lemma temporal_result_dep (T : DataFrame) (hoje : date) (df : DataFrame)
    (ss ss2 : gmap string sval) :
  ss2 !! key_year = ss !! key_year -> ss2 !! key_months = ss !! key_months ->
  fst (fst (temporal_result T hoje df ss2)) = fst (fst (temporal_result T hoje df ss)) /\
  snd (temporal_result T hoje df ss2) = snd (temporal_result T hoje df ss) /\
  snd (fst (temporal_result T hoje df ss2)) !! key_year
    = snd (fst (temporal_result T hoje df ss)) !! key_year /\
  snd (fst (temporal_result T hoje df ss2)) !! key_months
    = snd (fst (temporal_result T hoje df ss)) !! key_months.
Proof.
  intros Hy Hm. unfold temporal_result.
  destruct (get_loc df col_ultima) as [j| |e]; cbn [fst snd]; auto.
  destruct (init_session_dep T hoje ss ss2 Hy Hm) as (Ho & Hy1 & Hm1).
  destruct (init_session T hoje ss) as [o1 ss1], (init_session T hoje ss2) as [o2 ss1'].
  cbn [fst snd] in Ho, Hy1, Hm1. subst o2.
  destruct o1 as [[]| |e]; cbn [fst snd]; auto.
  destruct (is_nil _); cbn [fst snd]; auto.
  destruct (timestamps _) as [valid| |e]; cbn [fst snd]; auto.
  destruct (year_step_dep (year_of (ts_min valid)) (year_of (ts_max valid))
              ss1 ss1' Hy1 Hm1) as (Ho & Hd & Hy2 & Hm2).
  destruct (year_step _ _ ss1) as [[o3 ss2a] d1],
           (year_step _ _ ss1') as [[o4 ss2b] d2].
  cbn [fst snd] in Ho, Hd, Hy2, Hm2. subst o4 d2.
  destruct o3 as [y| |e]; cbn [fst snd]; auto.
  rewrite (month_step_dep j valid y df ss2a ss2b Hm2). auto.
Qed.

Lemma clamp_idem (mn mx y : Z) : mn <= mx -> clamp mn mx (clamp mn mx y) = clamp mn mx y.
Proof.
  intros H. unfold clamp.
  destruct (Z.ltb_spec y mn); [|destruct (Z.ltb_spec mx y)];
    repeat match goal with
           | |- context [?a <? ?b] => destruct (Z.ltb_spec a b)
           end; lia.
Qed.

Lemma year_step_idem (mn mx : Z) (ss : gmap string sval) :
  mn <= mx ->
  year_step mn mx (snd (fst (year_step mn mx ss))) = year_step mn mx ss.
Proof.
  intros H. unfold year_step at 2 3.
  destruct (ss !! key_year) as [[y|ms|l0]|] eqn:Ey; cbn [fst snd];
    try (unfold year_step; now rewrite Ey).
  unfold year_step. rewrite lookup_insert_eq, insert_insert_eq.
  assert (Hc : chosen mn mx (chosen mn mx y) = chosen mn mx y).
  { unfold chosen. destruct (mn =? mx); [reflexivity|now apply clamp_idem]. }
  assert (He : year_element mn mx (chosen mn mx y) = year_element mn mx y).
  { unfold year_element, chosen. destruct (mn =? mx); [reflexivity|].
    now rewrite clamp_idem. }
  now rewrite Hc, He.
Qed.

(** Run again from the session it leaves, the temporal filter gives the
    same table, the same page and the same session. *)
Lemma temporal_result_idem (T : DataFrame) (hoje : date) (df : DataFrame)
    (ss : gmap string sval) :
  (forall j valid, get_loc df col_ultima = Ok j ->
     timestamps (dropna (values df j)) = Ok valid ->
     year_of (ts_min valid) <= year_of (ts_max valid)) ->
  temporal_result T hoje df (snd (fst (temporal_result T hoje df ss)))
    = temporal_result T hoje df ss.
Proof.
  intros Hord. unfold temporal_result at 2 3.
  destruct (get_loc df col_ultima) as [j| |e] eqn:Ej; cbn [fst snd];
    try (unfold temporal_result; now rewrite Ej).
  destruct (init_session T hoje ss) as [[[]| |e] ss1] eqn:Ei; cbn [fst snd].
  2,3: assert (ss1 = ss) as ->
         by (unfold init_session in Ei; destruct (ss !! key_year);
             [discriminate|]; destruct (init_year T hoje); inversion Ei; reflexivity);
       unfold temporal_result; rewrite Ej, Ei; reflexivity.
  destruct (init_session_Ok _ _ _ _ Ei) as (Sy & Sm & _).
  assert (Hi1 : init_session T hoje ss1 = (Ok tt, ss1))
    by now apply init_session_present.
  destruct (is_nil (dropna (values df j))) eqn:En; cbn [fst snd].
  { unfold temporal_result. now rewrite Ej, Hi1, En. }
  destruct (timestamps (dropna (values df j))) as [valid| |e] eqn:Ev; cbn [fst snd];
    try (unfold temporal_result; now rewrite Ej, Hi1, En, Ev).
  pose proof (year_step_idem (year_of (ts_min valid)) (year_of (ts_max valid)) ss1
                (Hord j valid eq_refl Ev)) as Hidem.
  destruct (year_step _ _ ss1) as [[o ss2] d1] eqn:Ey. cbn [fst snd] in Hidem.
  assert (Hss2 : ss2 = ss1 \/ exists y, ss2 = <[key_year := SInt y]> ss1).
  { unfold year_step in Ey. destruct (ss1 !! key_year) as [[y|ms|l0]|];
      injection Ey as <- <- <-; eauto. }
  assert (Hi2 : init_session T hoje ss2 = (Ok tt, ss2)).
  { destruct Hss2 as [->|[y ->]]; [exact Hi1|].
    apply init_session_present.
    - rewrite lookup_insert_eq. eauto.
    - now rewrite lookup_insert_ne by discriminate. }
  destruct o as [y| |e]; cbn [fst snd];
    unfold temporal_result; rewrite Ej, Hi2, En, Ev, Hidem; reflexivity.
Qed.

(** ** A run, stage by stage *)

Lemma run_eq (T : DataFrame) (sel : Selection) (hoje : date) (w : world) :
  run T sel hoje w =
    let l := fresh (dom (heap w)) in
    let h0 := <[l := T]> (heap w) in
    let ss0 := <[key_df := SFrame l]> (session_state w) in
    let dm := page (snd (mandatory_filters sel T blank)) in
    match fst (mandatory_filters sel T blank) with
    | Ok df1 =>
        let r := temporal_result T hoje df1 ss0 in
        match fst (fst r) with
        | Ok df2 =>
            display_and_export l sel hoje df2
              (mk_world h0 (snd (fst r)) (dm ++ snd r))
        | Stop => (Stop, mk_world h0 (snd (fst r)) (dm ++ snd r))
        | Raise e => (Raise e, mk_world h0 (snd (fst r)) (dm ++ snd r))
        end
    | Stop => (Stop, mk_world h0 ss0 dm)
    | Raise e => (Raise e, mk_world h0 ss0 dm)
    end.
Proof.
  rewrite run_unfold. cbv zeta. set (l := fresh (dom (heap w))).
  rewrite (bind_uniform _ _ _ (uniform_mandatory_filters sel T)).
  cbn [heap session_state page app].
  destruct (fst (mandatory_filters sel T blank)) as [df1| |e]; try reflexivity.
  unfold bind at 1.
  rewrite (temporal_filter_eq l hoje T df1 _ (lookup_insert_eq _ _ _)).
  cbn [heap session_state page].
  now destruct (fst (fst (temporal_result T hoje df1 _))).
Qed.

Lemma narrowed_dates_ordered (T df : DataFrame) :
  dates_valid T -> narrowing_of T df ->
  forall j valid, get_loc df col_ultima = Ok j ->
    timestamps (dropna (values df j)) = Ok valid ->
    year_of (ts_min valid) <= year_of (ts_max valid).
Proof.
  intros Hv Hn j valid Hj Hvalid. apply year_range_ordered. intros t Ht.
  apply (timestamps_In _ _ t Hvalid), dropna_In in Ht as [Ht _].
  unfold values in Ht. apply in_map_iff in Ht as (r & Hc & Hr).
  apply (Hv j r t); [|now apply Hn|exact Hc].
  now rewrite <- (narrowing_get_loc _ _ _ Hn).
Qed.

(** C2, as the code has it.  On the page of every run, the service types
    offered are those of the full table; the inspectors offered are those
    of the full table narrowed by the selected service types; the regions
    offered are those of the table narrowed by the selected service types
    and inspectors; and the years and the months come from the valid
    last-inspection dates of the table narrowed by all three selections: the
    slider ranges over the least and the greatest year of that table, its
    value is the year of the session (the year held before the run or, on a
    first visit, the initial year) brought into that range, which is the
    year the session holds after the run and lies within the range when the
    dates are well formed; a single year shown is the only year of that
    table and the year the session holds after the run; and the months
    offered are the months of the dates of that table in the year the
    session holds after the run. *)
Theorem C2_offered_domains
    (T : DataFrame) (sel : Selection) (hoje : date) (w : world) :
  let pg := page (snd (run T sel hoje w)) in
  let after := session_state (snd (run T sel hoje w)) in
  (forall o d, In (Multiselect F_tipos o d) pg -> disponiveis col_tipo T = Ok o) /\
  (forall o d, In (Multiselect F_fiscais o d) pg ->
     exists df1, narrowed_by_tipo sel T = Ok df1 /\
       disponiveis col_fiscal df1 = Ok o) /\
  (forall o d, In (Multiselect F_rpas o d) pg ->
     exists df2, narrowed_by_fiscal sel T = Ok df2 /\
       disponiveis col_rpa df2 = Ok o) /\
  (forall mn mx v, In (Slider mn mx v) pg ->
     exists df j valid y0, narrowed sel T = Ok df /\
       get_loc df col_ultima = Ok j /\
       timestamps (dropna (values df j)) = Ok valid /\
       mn = year_of (ts_min valid) /\ mx = year_of (ts_max valid) /\
       year_before T hoje (session_state w) = Some y0 /\
       v = clamp mn mx y0 /\
       after !! key_year = Some (SInt v) /\
       (dates_valid T -> mn <= v <= mx)) /\
  (forall y, In (AnoSelecionado y) pg ->
     exists df j valid, narrowed sel T = Ok df /\
       get_loc df col_ultima = Ok j /\
       timestamps (dropna (values df j)) = Ok valid /\
       y = year_of (ts_min valid) /\ y = year_of (ts_max valid) /\
       after !! key_year = Some (SInt y)) /\
  (forall o d, In (MultiselectMeses o d) pg ->
     exists df j valid y, narrowed sel T = Ok df /\
       get_loc df col_ultima = Ok j /\
       timestamps (dropna (values df j)) = Ok valid /\
       after !! key_year = Some (SInt y) /\
       omap month_name (months_in_year valid y) = Ok o).
Proof.
  intros pg after. subst pg after.
  destruct (run_page T sel hoje w) as (dm & rest & Hpage & Hdm & Hrest).
  rewrite Hpage.
  rewrite List.Forall_forall in Hdm.
  assert (Hsplit : forall e, In e (dm ++ rest)%list ->
            (In e dm /\ offered_filter sel T e) \/
            (exists df1, narrowed sel T = Ok df1 /\
               (offered_temporal T hoje df1 (session_state w)
                  (session_state (snd (run T sel hoje w))) e \/ is_display e))).
  { intros e He. apply in_app_or in He as [He|He]; [left; auto|]. right.
    destruct Hrest as [->|(df1 & dt & dd & Hn & -> & Hdt & Hdd)]; [contradiction|].
    exists df1. split; [exact Hn|].
    rewrite List.Forall_forall in Hdt, Hdd.
    apply in_app_or in He as [He|He]; auto. }
  repeat split.
  - intros o d He. destruct (Hsplit _ He) as [[_ H]|(df1 & _ & [H|H])];
      simpl in H; tauto.
  - intros o d He. destruct (Hsplit _ He) as [[_ H]|(df1 & _ & [H|H])];
      simpl in H; try tauto. destruct H as [H _].
    destruct (narrowed_by_tipo sel T) as [df1| |e]; simpl in H; try discriminate.
    eauto.
  - intros o d He. destruct (Hsplit _ He) as [[_ H]|(df1 & _ & [H|H])];
      simpl in H; try tauto. destruct H as [H _].
    destruct (narrowed_by_fiscal sel T) as [df2| |e]; simpl in H; try discriminate.
    eauto.
  - intros mn mx v He. destruct (Hsplit _ He) as [[_ H]|(df1 & Hn & [H|H])];
      simpl in H; try tauto.
    destruct H as (j & valid & y0 & Hj & Hv & Hmn & Hmx & Hne & Hb & Hc & Ha).
    exists df1, j, valid, y0. repeat (split; [assumption|]).
    intros Hdv. rewrite Hc. apply clamp_in_range. rewrite Hmn, Hmx.
    exact (narrowed_dates_ordered T df1 Hdv (narrowed_narrowing _ _ _ Hn)
             j valid Hj Hv).
  - intros y He. destruct (Hsplit _ He) as [[_ H]|(df1 & Hn & [H|H])];
      simpl in H; try tauto.
    destruct H as (j & valid & H). exists df1, j, valid. tauto.
  - intros o d He. destruct (Hsplit _ He) as [[_ H]|(df1 & Hn & [H|H])];
      simpl in H; try tauto.
    destruct H as (j & valid & y & H). exists df1, j, valid, y. tauto.
Qed.

Lemma mandatory_blank_Ok (sel : Selection) (T df1 : DataFrame) :
  fst (mandatory_filters sel T blank) = Ok df1 -> narrowed sel T = Ok df1.
Proof.
  intros H. destruct (mandatory_filters sel T blank) as [o wb] eqn:E.
  simpl in H. subst o. now apply mandatory_filters_Ok in E.
Qed.

(** C8.  Over a table whose last-inspection dates are well formed, a run
    started from the session that a first run left, on the same full table
    with the same selections on the same day, ends as the first did: with
    the same outcome, and so the same working table, alert table and
    downloads, the same page, and the same year and months in the
    session. *)
Theorem C8_run_again
    (T : DataFrame) (sel : Selection) (hoje : date) (w : world) :
  dates_valid T ->
  let first := run T sel hoje w in
  let second := run T sel hoje (snd first) in
  fst second = fst first /\
  page (snd second) = page (snd first) /\
  filter_state (snd second) = filter_state (snd first).
Proof.
  intros Hv first second. subst first second.
  rewrite (run_eq T sel hoje (snd (run T sel hoje w))).
  rewrite (run_eq T sel hoje w). cbv zeta.
  set (l := fresh (dom (heap w))).
  set (ss0 := <[key_df := SFrame l]> (session_state w)).
  set (dm := page (snd (mandatory_filters sel T blank))).
  destruct (fst (mandatory_filters sel T blank)) as [df1| |e] eqn:Eom.
  2,3: cbn [fst snd heap session_state page]; unfold filter_state;
       cbn [session_state]; rewrite !lookup_insert_ne by discriminate; auto.
  pose proof (mandatory_blank_Ok _ _ _ Eom) as Hn.
  pose proof (narrowed_dates_ordered T df1 Hv (narrowed_narrowing _ _ _ Hn)) as Hord.
  pose proof (temporal_result_idem T hoje df1 ss0 Hord) as Hidem.
  set (r := temporal_result T hoje df1 ss0) in *.
  assert (Hagain : forall l2 ss1,
            ss1 !! key_year = snd (fst r) !! key_year ->
            ss1 !! key_months = snd (fst r) !! key_months ->
            let r2 := temporal_result T hoje df1 (<[key_df := SFrame l2]> ss1) in
            fst (fst r2) = fst (fst r) /\ snd r2 = snd r /\
            snd (fst r2) !! key_year = snd (fst r) !! key_year /\
            snd (fst r2) !! key_months = snd (fst r) !! key_months).
  { intros l2 ss1 Hy Hm r2. subst r2.
    pose proof (temporal_result_dep T hoje df1 (snd (fst r))
                  (<[key_df := SFrame l2]> ss1)) as D.
    rewrite Hidem in D.
    apply D; now rewrite lookup_insert_ne by discriminate. }
  destruct (fst (fst r)) as [df2| |e] eqn:Eot.
  2,3: cbn [fst snd heap session_state page];
       edestruct (Hagain (fresh (dom (<[l:=T]> (heap w)))) (snd (fst r)) eq_refl eq_refl)
         as (Ho & Hd & Hy & Hm);
       rewrite Ho, ?Eot, Hd; cbn [fst snd page session_state]; unfold filter_state;
       cbn [session_state]; rewrite Hy, Hm; auto.
  destruct (display_and_export_eq T sel hoje df2) as (od & dd & Hde & _).
  destruct (Hde l (mk_world (<[l:=T]> (heap w)) (snd (fst r)) (dm ++ snd r))
              (lookup_insert_eq _ _ _)) as (h1 & Heq1 & _).
  rewrite Heq1. cbn [fst snd heap session_state page].
  edestruct (Hagain (fresh (dom h1)) (snd (fst r)) eq_refl eq_refl)
    as (Ho & Hd & Hy & Hm).
  rewrite Ho, ?Eot, Hd.
  match goal with
  | |- context [display_and_export ?l2 sel hoje df2 ?w2] =>
      destruct (Hde l2 w2 (lookup_insert_eq _ _ _)) as (h2 & Heq2 & _)
  end.
  rewrite Heq2. cbn [fst snd page session_state]. unfold filter_state.
  cbn [session_state]. rewrite Hy, Hm. auto.
Qed.

(** ** The claims on the example tables *)

(** C1: the exporter rewrites the full table in place.  After a run on
    [T1] the object the session names as the loaded table is not [T1] any
    more: its last-inspection column has the dtype [object] and holds text
    and [NaN] where the loaded table has timestamps and [NaT]. *)
Theorem C1_export_rewrites_full_table :
  exists rep w' T',
    run T1 sel1 hoje1 w_jan = (Ok rep, w') /\
    session_state w' !! key_df = Some (SFrame O) /\
    heap w' !! O = Some T' /\
    T' <> T1 /\
    dtype_at T1 8 = datetime64_ns /\
    values T1 8 = [Ts (mk_ts 2024 1 15 10 30 0); Ts (mk_ts 2023 6 1 0 0 0); NaT;
                   Ts (mk_ts 2024 1 15 0 0 0)] /\
    dtype_at T' 8 = object_ /\
    values T' 8 = [Str "2024-01-15"; Str "2023-06-01"; NaN; Str "2024-01-15"].
Proof.
  exists (report_of (run T1 sel1 hoje1 w_jan)), (snd (run T1 sel1 hoje1 w_jan)),
    (exported T1).
  split; [vm_compute; reflexivity|].
  split; [vm_compute; reflexivity|].
  split; [vm_compute; reflexivity|].
  split; [intros H; vm_compute in H; discriminate|].
  repeat split; vm_compute; reflexivity.
Qed.

(** C2, as the claim states it, fails: with only "Poda" selected, the
    inspectors offered are those of the "Poda" rows, not those of the full
    table. *)
Lemma C2_counterexample :
  ~ (forall f o d,
       In (Multiselect f o d) (page (snd (run T1 sel_poda hoje1 w_new))) ->
       disponiveis (col_of f) T1 = Ok o).
Proof.
  intros H.
  specialize (H F_fiscais [Str "Fiscal SIGA RPA 2"] [Str "Fiscal SIGA RPA 2"]).
  assert (Hl : page (snd (run T1 sel_poda hoje1 w_new)) !! 1%nat =
               Some (Multiselect F_fiscais [Str "Fiscal SIGA RPA 2"]
                       [Str "Fiscal SIGA RPA 2"]))
    by (vm_compute; reflexivity).
  apply list_elem_of_lookup_2, list_elem_of_In in Hl.
  pose proof (H Hl) as Hin.
  vm_compute in Hin. discriminate.
Qed.

(** C3, as the claim states it, fails: with the year of the session moved
    to 2022, in which no service was inspected, the run completes with both
    services of 2021 and 2023 in the working table. *)
Lemma C3_counterexample :
  exists rep w',
    run T_gap sel_rpa1 hoje1 w_2022 = (Ok rep, w') /\
    session_state w' !! key_year = Some (SInt 2022) /\
    exists r t, In r (rows (working rep)) /\ cell_at 8 r = Ts t /\
      ts_year t <> 2022.
Proof.
  exists (report_of (run T_gap sel_rpa1 hoje1 w_2022)),
    (snd (run T_gap sel_rpa1 hoje1 w_2022)).
  split; [vm_compute; reflexivity|].
  split; [vm_compute; reflexivity|].
  exists (record 1 "RPA 1" "Buraco SIGA" "Fiscal SIGA RPA 1"
            (Ts (mk_ts 2021 3 10 0 0 0)) ++ [Int 1087])%list,
    (mk_ts 2021 3 10 0 0 0).
  split; [vm_compute; auto|]. split; [reflexivity|]. simpl. lia.
Qed.

(** C4, as the claim states it, fails: in the run on [T1] in January the
    two services of the working table were inspected on the same day; both
    are over the limit of 30 days, with 46 days each, and neither is
    strictly above the other. *)
Lemma C4_counterexample :
  exists idx a,
    get_loc W1 col_dias = Ok 9%nat /\
    alert_selector 30 W1 = Ok (idx, a) /\
    alerta (report_of (run T1 sel1 hoje1 w_jan)) = (idx, a) /\
    map (dias_of 9) (rows a) = [46; 46] /\
    ~ Sorted (dias_gt 9) (rows a).
Proof.
  eexists _, _. split; [vm_compute; reflexivity|].
  split; [vm_compute; reflexivity|].
  split; [vm_compute; reflexivity|].
  split; [vm_compute; reflexivity|].
  intros H. apply Sorted_inv in H as [_ H]. inversion H as [|? ? Hgt]; subst.
  unfold dias_gt in Hgt. vm_compute in Hgt. discriminate.
Qed.

(** C6, as the claim states it, fails: when no service has a date, the
    temporal filter lets the services without a date through. *)
Lemma C6_counterexample :
  exists df' w',
    temporal_filter O hoje1 T_missing w_missing = (Ok df', w') /\
    exists r, In r (rows df') /\ cell_at 8 r = NaT.
Proof.
  eexists _, _. split; [vm_compute; reflexivity|].
  eexists. split; [now left|]. reflexivity.
Qed.

(** ** The theorems at work on the example tables *)

Ltac shape :=
  split;
  [ apply NoDup_ListNoDup, (bool_decide_unpack _); vm_compute; exact I
  | repeat constructor ].

Ltac kinds j k :=
  exists j, k; split; [vm_compute; reflexivity|];
  intros c Hc _; vm_compute in Hc;
  repeat (destruct Hc as [<-|Hc]; [reflexivity|]); contradiction.

Lemma C10_witness :
  disponiveis col_tipo T1 = Ok [Str "Buraco SIGA"; Str "Poda"] /\
  tipo_padrao [Str "Buraco SIGA"; Str "Poda"] = [Str "Buraco SIGA"].
Proof.
  assert (H : disponiveis col_tipo T1 = Ok [Str "Buraco SIGA"; Str "Poda"])
    by (vm_compute; reflexivity).
  split; [exact H|].
  apply (C10_tipo_padrao T1 _ H). simpl. auto.
Defined.

Lemma C2_witness :
  In (Slider 2023 2024 2023) (page (snd (run T1 sel_all hoje1 w_2022))) /\
  year_before T1 hoje1 (session_state w_2022) = Some 2022 /\
  session_state (snd (run T1 sel_all hoje1 w_2022)) !! key_year = Some (SInt 2023).
Proof.
  assert (Hl : page (snd (run T1 sel_all hoje1 w_2022)) !! 3%nat =
               Some (Slider 2023 2024 2023)) by (vm_compute; reflexivity).
  apply list_elem_of_lookup_2, list_elem_of_In in Hl.
  split; [exact Hl|].
  pose proof (C2_offered_domains T1 sel_all hoje1 w_2022) as H. cbv zeta in H.
  destruct H as (_ & _ & _ & Hs & _).
  destruct (Hs _ _ _ Hl) as (df & j & valid & y0 & _ & _ & _ & _ & _ & Hb & _ & Ha & _).
  split; [|exact Ha]. reflexivity.
Defined.

Lemma C4_witness :
  get_loc W1 col_dias = Ok 9%nat /\
  (forall r, In r (rows W1) -> dias_cell (cell_at 9 r)) /\
  exists idx a, alert_selector 30 W1 = Ok (idx, a) /\
    columns a = columns W1 /\
    idx = [1; 2] /\ StronglySorted (dias_ge 9) (rows a).
Proof.
  assert (H1 : get_loc W1 col_dias = Ok 9%nat) by (vm_compute; reflexivity).
  assert (Hrows : rows W1 =
            [ (record 1 "RPA 1" "Buraco SIGA" "Fiscal SIGA RPA 1"
                 (Ts (mk_ts 2024 1 15 10 30 0)) ++ [Int 46])%list;
              (record 4 "RPA 3" "Buraco SIGA" "Fiscal SIGA RPA 3"
                 (Ts (mk_ts 2024 1 15 0 0 0)) ++ [Int 46])%list ])
    by (vm_compute; reflexivity).
  assert (H2 : forall r, In r (rows W1) -> dias_cell (cell_at 9 r)).
  { intros r Hr. rewrite Hrows in Hr. destruct Hr as [<-|[<-|[]]]; exact I. }
  split; [exact H1|]. split; [exact H2|].
  destruct (C4_alert_selector W1 9 30 H1 H2)
    as (idx & a & Ha & Hc & _ & Hp & _ & Hs & Hi & _).
  exists idx, a. split; [exact Ha|].
  split; [apply Hc; rewrite Hrows; discriminate|]. split; [|exact Hs].
  rewrite Hi. apply Permutation_length in Hp. rewrite Hp, Hrows. reflexivity.
Defined.

Lemma C9_witness :
  well_shaped T1 /\ heap (mk_world (<[O := T1]> ∅) ∅ []) !! O = Some T1 /\
  exists ws w',
    download_excel_with_formatting O "f.xlsx" "Dados" (mk_world (<[O := T1]> ∅) ∅ [])
      = (Ok ws, w') /\
    header ws = names T1 /\
    exists width, col_info (column_calls ws) !! 0%nat = Some (Some width, None).
Proof.
  assert (H1 : well_shaped T1) by shape.
  assert (H2 : heap (mk_world (<[O := T1]> ∅) ∅ []) !! O = Some T1)
    by (vm_compute; reflexivity).
  split; [exact H1|]. split; [exact H2|].
  destruct (C9_exporter O "f.xlsx" "Dados" T1 (mk_world (<[O := T1]> ∅) ∅ []) H1 H2)
    as (ws & w' & Hrun & Hh & _ & _ & _ & _ & _ & _ & _ & Hinfo).
  exists ws, w'. split; [exact Hrun|]. split; [exact Hh|].
  eexists. exact (Hinfo 0%nat "Id" eq_refl).
Defined.

Lemma C7_witness :
  one_kind T1 col_tipo /\ one_kind T1 col_fiscal /\ one_kind T1 col_rpa /\
  fiscais_selecionados sel_none = [] /\
  fst (run T1 sel_none hoje1 w_jan) = Stop.
Proof.
  assert (K1 : one_kind T1 col_tipo) by kinds 5%nat KStr.
  assert (K2 : one_kind T1 col_fiscal) by kinds 6%nat KStr.
  assert (K3 : one_kind T1 col_rpa) by kinds 1%nat KStr.
  split; [exact K1|]. split; [exact K2|]. split; [exact K3|].
  split; [reflexivity|].
  destruct (C7_selection_required T1 sel_none hoje1 w_jan K1 K2 K3)
    as (d & f & l & w' & Hrun & _).
  { right. left. reflexivity. }
  now rewrite Hrun.
Defined.

Lemma C6_witness :
  heap w_T1_jan !! O = Some T1 /\
  temporal_filter O hoje1 T1 w_T1_jan
    = (Ok (table_of (temporal_filter O hoje1 T1 w_T1_jan)),
       snd (temporal_filter O hoje1 T1 w_T1_jan)) /\
  length (rows (table_of (temporal_filter O hoje1 T1 w_T1_jan))) = 2%nat /\
  forall r, In r (rows (table_of (temporal_filter O hoje1 T1 w_T1_jan))) ->
            notna (cell_at 8 r) = true.
Proof.
  assert (H1 : heap w_T1_jan !! O = Some T1) by (vm_compute; reflexivity).
  assert (H2 : temporal_filter O hoje1 T1 w_T1_jan
    = (Ok (table_of (temporal_filter O hoje1 T1 w_T1_jan)),
       snd (temporal_filter O hoje1 T1 w_T1_jan)))
    by (vm_compute; reflexivity).
  split; [exact H1|]. split; [exact H2|]. split; [vm_compute; reflexivity|].
  destruct (C6_temporal_filter_missing O hoje1 T1 T1 _ _ _ H1 H2)
    as (_ & j & Hj & _ & Hin & _).
  vm_compute in Hj. injection Hj as <-.
  apply (Hin 2024); [vm_compute; reflexivity|].
  exists (record 1 "RPA 1" "Buraco SIGA" "Fiscal SIGA RPA 1" (Ts (mk_ts 2024 1 15 10 30 0))),
    (mk_ts 2024 1 15 10 30 0).
  split; [now left|]. split; reflexivity.
Defined.

Lemma C5_witness :
  well_shaped T1 /\
  run T1 sel1 hoje1 w_jan
    = (Ok (report_of (run T1 sel1 hoje1 w_jan)), snd (run T1 sel1 hoje1 w_jan)) /\
  exists ju jd,
    get_loc (working (report_of (run T1 sel1 hoje1 w_jan))) col_ultima = Ok ju /\
    get_loc (working (report_of (run T1 sel1 hoje1 w_jan))) col_dias = Ok jd.
Proof.
  assert (H1 : well_shaped T1) by shape.
  assert (H2 : run T1 sel1 hoje1 w_jan
               = (Ok (report_of (run T1 sel1 hoje1 w_jan)),
                  snd (run T1 sel1 hoje1 w_jan))) by (vm_compute; reflexivity).
  split; [exact H1|]. split; [exact H2|].
  destruct (C5_days_since_last_inspection T1 sel1 hoje1 w_jan _ _ H1 H2)
    as (ju & jd & Hu & Hd & _).
  exists ju, jd. auto.
Defined.

Lemma C3_witness :
  well_shaped T1 /\
  run T1 sel1 hoje1 w_jan
    = (Ok (report_of (run T1 sel1 hoje1 w_jan)), snd (run T1 sel1 hoje1 w_jan)) /\
  tipos_selecionados sel1 <> [].
Proof.
  assert (H1 : well_shaped T1) by shape.
  assert (H2 : run T1 sel1 hoje1 w_jan
               = (Ok (report_of (run T1 sel1 hoje1 w_jan)),
                  snd (run T1 sel1 hoje1 w_jan))) by (vm_compute; reflexivity).
  split; [exact H1|]. split; [exact H2|].
  exact (proj1 (C3_working_table T1 sel1 hoje1 w_jan _ _ H1 H2)).
Defined.

Lemma C8_witness :
  dates_valid T1 /\
  length (rows (working (report_of (run T1 sel1 hoje1 w_jan)))) = 2%nat /\
  fst (run T1 sel1 hoje1 (snd (run T1 sel1 hoje1 w_jan)))
    = fst (run T1 sel1 hoje1 w_jan).
Proof.
  assert (H : dates_valid T1).
  { intros j r t Hj Hr Hc. vm_compute in Hj. injection Hj as <-.
    simpl in Hr. destruct Hr as [<-|[<-|[<-|[<-|[]]]]]; vm_compute in Hc;
      try discriminate; injection Hc as <-;
      unfold valid_ts, valid_date; simpl; lia. }
  split; [exact H|]. split; [vm_compute; reflexivity|].
  exact (proj1 (C8_run_again T1 sel1 hoje1 w_jan H)).
Defined.

(** ** Further properties of the script *)

(** *** The names of the months *)

Lemma month_name_range (m : Z) : (exists n, month_name m = Ok n) <-> 1 <= m <= 12.
Proof.
  split.
  - intros [n' H]. revert H. unfold month_name, month_names. cbn [List.find fst snd].
    repeat (destruct (_ =? m) eqn:E; [apply Z.eqb_eq in E; lia|clear E]).
    discriminate.
  - intros H.
    assert (Hc : m = 1 \/ m = 2 \/ m = 3 \/ m = 4 \/ m = 5 \/ m = 6 \/ m = 7 \/
                 m = 8 \/ m = 9 \/ m = 10 \/ m = 11 \/ m = 12) by lia.
    repeat (destruct Hc as [->|Hc]; [eexists; reflexivity|]).
    subst m. eexists. reflexivity.
Qed.

(** X1.  The two look-ups in [month_names] are inverse to each other: the
    name of month [m] is [n] exactly when the number of the name [n] is
    [m]; and a month has a name exactly when it is one of 1 to 12. *)
Theorem month_name_number (m : Z) (n : string) :
  (month_name m = Ok n <-> month_number n = Ok m) /\
  ((exists n', month_name m = Ok n') <-> 1 <= m <= 12).
Proof.
  split; [split|apply month_name_range].
  - unfold month_name, month_names. cbn [List.find fst snd].
    repeat (destruct (_ =? m) eqn:E;
            [apply Z.eqb_eq in E; subst m; intros [= <-]; reflexivity|clear E]).
    discriminate.
  - unfold month_number, month_names. cbn [List.find fst snd].
    repeat (destruct (bool_decide (_ = n)) eqn:E;
            [apply bool_decide_eq_true in E; subst n; intros [= <-]; reflexivity|
             clear E]).
    discriminate.
Qed.

(** *** Values that cannot be sorted *)

Lemma comparable_kinds (l : list cell) (x y : cell) :
  comparable l = true -> In x l -> In y l -> kind_of x = kind_of y.
Proof.
  destruct l as [|a [|b t]]; simpl.
  - contradiction.
  - intros _ [<-|[]] [<-|[]]. reflexivity.
  - destruct (kind_of a) as [k|] eqn:Ea; [|discriminate].
    intros H. apply andb_true_iff in H as [Hb Ht].
    apply bool_decide_eq_true in Hb. rewrite forallb_forall in Ht.
    assert (Hall : forall c, In c (a :: b :: t) -> kind_of c = Some k).
    { intros c [<-|[<-|Hc]]; auto. apply Ht in Hc.
      now apply bool_decide_eq_true in Hc. }
    intros Hx Hy. now rewrite (Hall x Hx), (Hall y Hy).
Qed.

(** X3.  When a column holds two values of different kinds, say a text
    and a number, its values cannot be offered: sorting them raises
    [TypeError]. *)
Theorem disponiveis_mixed (col : string) (df : DataFrame) (j : nat) (a b : cell) :
  get_loc df col = Ok j ->
  In a (values df j) -> In b (values df j) ->
  notna a = true -> notna b = true -> kind_of a <> kind_of b ->
  disponiveis col df = Raise TypeError.
Proof.
  intros Hj Ha Hb Hna Hnb Hk. unfold disponiveis. rewrite Hj. simpl.
  unfold sorted. destruct (comparable _) eqn:Ec; [|reflexivity].
  exfalso. apply Hk. apply (comparable_kinds _ a b Ec);
    apply unique_In, dropna_In; auto.
Qed.

(** *** The alert table on the page *)

Lemma omap_get_loc_fst (df : DataFrame) (cols : list string) (js : list nat) :
  omap (get_loc df) cols = Ok js ->
  map (fun j => fst (default (EmptyString, object_) (columns df !! j))) js = cols.
Proof.
  revert js. induction cols as [|c t IH]; simpl; intros js H.
  - now inversion H.
  - apply obind_Ok in H as (j & Hj & H). apply obind_Ok in H as (js' & Hjs & H).
    inversion H; subst js. simpl. rewrite (IH js' Hjs). f_equal.
    apply get_loc_Ok, index_of_lookup in Hj. unfold names in Hj.
    change (@map) with (@fmap list _) in Hj. rewrite list_lookup_fmap in Hj.
    destruct (columns df !! j) as [p|]; simpl in *; congruence.
Qed.

Lemma omap_get_loc_all (df : DataFrame) (cols : list string) :
  (forall c, In c cols -> In c (names df)) ->
  exists js, omap (get_loc df) cols = Ok js.
Proof.
  induction cols as [|c t IH]; simpl; intros H; [eauto|].
  destruct IH as [js Hjs]; [auto|].
  unfold get_loc at 1. destruct (index_of c (names df)) as [j|] eqn:E.
  - simpl. rewrite Hjs. simpl. eauto.
  - apply index_of_None in E. exfalso. apply E. auto.
Qed.

Lemma omap_get_loc_missing (df : DataFrame) (cols : list string) (c : string) :
  In c cols -> ~ In c (names df) ->
  exists c', omap (get_loc df) cols = Raise (KeyError c') /\
             In c' cols /\ ~ In c' (names df).
Proof.
  induction cols as [|x t IH]; simpl; intros Hin Hmiss; [contradiction|].
  unfold get_loc at 1. destruct (index_of x (names df)) as [j|] eqn:E.
  - destruct Hin as [->|Hin].
    + apply index_of_In in E. contradiction.
    + destruct (IH Hin Hmiss) as (c' & Hc' & Hin' & Hm'). exists c'.
      simpl. rewrite Hc'. simpl. auto.
  - exists x. simpl. apply index_of_None in E. auto.
Qed.

(** X4.  What the alert section shows.  With no service over the limit it
    shows the success message, whatever the columns of the table.  With
    some, it shows the table under the eight columns of the alert, in that
    order, one row per service over the limit, each cell the one of that
    service in the column of that name, with the ranks as the index; and if
    one of the eight columns is not in the table, which has the computed
    column, it raises [KeyError] for a column that is missing and shows
    nothing. *)
Theorem alert_table_shown (limite : Z) (a : list Z * DataFrame) (w : world) :
  (rows (snd a) = [] ->
   show_alerta limite a w =
     (Ok tt, mk_world (heap w) (session_state w) (page w ++ [Success limite]))) /\
  (rows (snd a) <> [] ->
   (forall c, In c colunas_alerta -> In c (names (snd a))) ->
   exists shown,
     show_alerta limite a w =
       (Ok tt, mk_world (heap w) (session_state w)
                 (page w ++ [Dataframe (fst a) shown])) /\
     names shown = colunas_alerta /\
     length (rows shown) = length (rows (snd a)) /\
     forall i c j k r,
       colunas_alerta !! i = Some c -> get_loc (snd a) c = Ok j ->
       rows (snd a) !! k = Some r ->
       exists r', rows shown !! k = Some r' /\ cell_at i r' = cell_at j r) /\
  (rows (snd a) <> [] -> In col_dias (names (snd a)) ->
   forall c, In c colunas_alerta -> ~ In c (names (snd a)) ->
   exists c', show_alerta limite a w = (Raise (KeyError c'), w) /\
              In c' colunas_alerta /\ ~ In c' (names (snd a))).
Proof.
  unfold show_alerta. split; [|split].
  - intros ->. reflexivity.
  - intros Hne Hall. destruct (rows (snd a)) as [|r0 rs] eqn:Er; [congruence|].
    cbn [is_nil]. destruct (omap_get_loc_all (snd a) colunas_alerta Hall) as [js Hjs].
    unfold select. rewrite Hjs. cbn [obind]. eexists. split; [reflexivity|].
    split; [|split].
    + unfold names. cbn [columns]. rewrite map_map. now apply omap_get_loc_fst.
    + cbn [rows]. rewrite Er. now rewrite length_map.
    + intros i c j k r Hi Hj Hk. cbn [rows]. rewrite Er.
      change (@map) with (@fmap list _). rewrite list_lookup_fmap, Hk. simpl.
      eexists. split; [reflexivity|].
      destruct (omap_lookup _ _ _ _ _ Hjs Hi) as (j' & Hj' & Hloc).
      assert (j' = j) by congruence. subst j'.
      unfold cell_at at 1. now rewrite list_lookup_fmap, Hj'.
  - intros Hne _ c Hc Hmiss. destruct (rows (snd a)) as [|r0 rs] eqn:Er; [congruence|].
    cbn [is_nil].
    destruct (omap_get_loc_missing (snd a) colunas_alerta c Hc Hmiss)
      as (c' & Hc' & Hin & Hm).
    exists c'. unfold select. rewrite Hc'. cbn [obind]. auto.
Qed.

(** *** The metrics *)

(** X5.  The first two metrics.  When the metrics complete, what they add
    to the page is the number of rows of the working table and the earliest
    last inspection in it: none when no row has a date, and otherwise the
    date of some row that no other row's date precedes. *)
Theorem metrics_shown (df : DataFrame) (w w' : world) :
  metrics df w = (Ok tt, w') ->
  exists j o,
    get_loc df col_ultima = Ok j /\
    w' = mk_world (heap w) (session_state w)
           (page w ++ [MetricTotal (Z.of_nat (length (rows df))); MetricMaisAntiga o]) /\
    (o = None <-> forall r, In r (rows df) -> notna (cell_at j r) = false) /\
    (forall m, o = Some m ->
       (exists r, In r (rows df) /\ cell_at j r = Ts m) /\
       forall r t, In r (rows df) -> cell_at j r = Ts t -> ts_key m <= ts_key t).
Proof.
  unfold metrics, bind, show, lift, ret. cbn [heap session_state page].
  destruct (get_loc df col_ultima) as [j| |e] eqn:Ej; try discriminate.
  destruct (timestamps (dropna (values df j))) as [v| |e] eqn:Ev; try discriminate.
  intros [= <-]. exists j, (ts_min v). split; [reflexivity|].
  split; [now rewrite <- app_assoc|].
  assert (Hin : forall t, In t v <-> exists r, In r (rows df) /\ cell_at j r = Ts t).
  { intros t. rewrite (timestamps_In _ _ t Ev), dropna_In. unfold values.
    rewrite in_map_iff. split.
    - intros [(r & Hc & Hr) _]. eauto.
    - intros (r & Hr & Hc). split; [eauto|reflexivity]. }
  split; [split|].
  - intros Hmin r Hr. destruct (notna (cell_at j r)) eqn:Hn; [|reflexivity].
    assert (Hd : In (cell_at j r) (dropna (values df j))).
    { apply dropna_In. split; [|exact Hn]. unfold values. now apply in_map. }
    rewrite (timestamps_all _ _ Ev) in Hd. apply in_map_iff in Hd as (t & _ & Ht).
    destruct v; [contradiction|]. simpl in Hmin.
    destruct (ts_min v); [destruct (_ <? _)|]; discriminate.
  - intros Hall. destruct v as [|t v']; [reflexivity|].
    assert (Ht : In t (t :: v')) by now left.
    apply Hin in Ht as (r & Hr & Hc). specialize (Hall r Hr).
    rewrite Hc in Hall. discriminate.
  - intros m Hm. apply ts_min_spec in Hm as [Hm Hle]. split.
    + now apply Hin.
    + intros r t Hr Hc. apply Hle, Hin. eauto.
Qed.

(** *** The session on a first visit *)

(** X6.  The initial state never overwrites the session: when the year
    and the months are both in the session, lines 167-174 change nothing. *)
Theorem init_state_keeps (l : loc) (hoje : date) (w : world) (y ms : sval) :
  session_state w !! key_year = Some y ->
  session_state w !! key_months = Some ms ->
  init_state l hoje w = (Ok tt, w).
Proof.
  intros Hy Hm. unfold init_state, bind, in_state, skip, ret.
  rewrite Hy. rewrite bool_decide_eq_true_2 by eauto. cbv beta iota.
  rewrite Hm. rewrite bool_decide_eq_true_2 by eauto. reflexivity.
Qed.

(** X7.  On a first visit the year of the session becomes the year of the
    latest last inspection of the full table, not of the table the filters
    have narrowed, and today's year when the full table has no date; the
    months become the empty list. *)
Theorem init_state_first_visit (l : loc) (hoje : date) (T : DataFrame) (w : world)
    (j : nat) (all_dates : list Timestamp) :
  heap w !! l = Some T ->
  session_state w !! key_year = None ->
  session_state w !! key_months = None ->
  get_loc T col_ultima = Ok j ->
  timestamps (dropna (values T j)) = Ok all_dates ->
  exists y,
    init_state l hoje w =
      (Ok tt, mk_world (heap w)
                (<[key_months := SNames []]> (<[key_year := SInt y]> (session_state w)))
                (page w)) /\
    (all_dates = [] -> y = year hoje) /\
    (all_dates <> [] ->
     exists t r, In r (rows T) /\ cell_at j r = Ts t /\ y = ts_year t /\
       forall r' t', In r' (rows T) -> cell_at j r' = Ts t' -> ts_key t' <= ts_key t).
Proof.
  intros Hl Hy Hm Hj Hd. rewrite (init_state_eq l hoje T w Hl).
  unfold init_session, init_year. rewrite Hy, Hj. cbn [obind]. rewrite Hd.
  cbn [obind fst snd]. unfold init_months.
  rewrite lookup_insert_ne by discriminate. rewrite Hm.
  eexists. split; [reflexivity|].
  assert (Hin : forall t, In t all_dates <->
                          exists r, In r (rows T) /\ cell_at j r = Ts t).
  { intros t. rewrite (timestamps_In _ _ t Hd), dropna_In. unfold values.
    rewrite in_map_iff. split.
    - intros [(r & Hc & Hr) _]. eauto.
    - intros (r & Hr & Hc). split; [eauto|reflexivity]. }
  split.
  - intros ->. reflexivity.
  - intros Hne. destruct all_dates as [|t0 rest] eqn:Ea; [congruence|].
    cbn [is_nil]. rewrite <- Ea in *.
    destruct (ts_max all_dates) as [m|] eqn:Emax.
    + apply ts_max_spec in Emax as [Hm1 Hm2].
      apply Hin in Hm1 as (r & Hr & Hc).
      exists m, r. repeat split; auto.
      intros r' t' Hr' Hc'. apply Hm2, Hin. eauto.
    + subst all_dates. simpl in Emax.
      destruct (ts_max rest); [destruct (_ <? _)|]; discriminate.
Qed.

(** *** The exporter called again *)

Lemma export_row_length (cols : list (string * dtype)) (r : list cell) :
  length r = length cols -> length (export_row cols r) = length cols.
Proof. intros H. unfold export_row. rewrite length_zip_with. lia. Qed.

Lemma exported_well_shaped (df : DataFrame) :
  well_shaped df -> well_shaped (exported df).
Proof.
  intros [Hnd Hlen]. split.
  - now rewrite exported_names.
  - unfold exported. cbn [rows columns]. rewrite length_map.
    rewrite List.Forall_forall in *. intros r Hr.
    apply in_map_iff in Hr as (r0 & <- & Hr0).
    apply export_row_length. now apply Hlen.
Qed.

Lemma exported_idem (df : DataFrame) : exported (exported df) = exported df.
Proof.
  unfold exported. cbn [rows columns]. f_equal.
  - rewrite map_map. apply map_ext. intros c. unfold is_datetime.
    destruct (bool_decide (snd c = datetime64_ns)) eqn:E; cbn [fst snd].
    + reflexivity.
    + now rewrite E.
  - rewrite map_map. apply map_ext. intros r. unfold export_row at 1.
    rewrite (zip_with_ext_in _ (fun _ x => x)).
    + apply zip_with_snd_id. unfold export_row.
      rewrite length_zip_with, length_map. lia.
    + intros c Hc x. apply in_map_iff in Hc as (c0 & <- & _). unfold is_datetime.
      destruct (bool_decide (snd c0 = datetime64_ns)) eqn:E; cbn [snd];
        [reflexivity|now rewrite E].
Qed.

(** X8.  Exporting the same object a second time gives the same sheet
    and changes nothing: the first call has already turned the date-time
    columns of the object into text, and the second finds none to turn. *)
Theorem export_twice (l : loc) (f1 f2 sheet : string) (df : DataFrame) (w : world) :
  well_shaped df -> heap w !! l = Some df ->
  exists ws w1,
    download_excel_with_formatting l f1 sheet w = (Ok ws, w1) /\
    download_excel_with_formatting l f2 sheet w1 = (Ok ws, w1).
Proof.
  intros Hws Hl. eexists _, _. split; [apply (exporter_spec l f1 sheet df w Hws Hl)|].
  rewrite (exporter_spec l f2 sheet (exported df));
    [|now apply exported_well_shaped|cbn [heap]; apply lookup_insert_eq].
  cbn [heap session_state page]. rewrite exported_idem, exported_names.
  now rewrite insert_insert_eq.
Qed.

(** X9.  The export of a table without rows: the sheet holds the header
    only, and the width asked for each column is the length of its name
    plus 2, the maximum over no cell being nothing. *)
Theorem export_empty_table (l : loc) (filename sheet : string) (df : DataFrame)
    (w : world) :
  well_shaped df -> heap w !! l = Some df -> rows df = [] ->
  exists w',
    download_excel_with_formatting l filename sheet w =
      (Ok (mk_ws sheet (names df) []
             (concat (map (fun p =>
                        [set_column (fst p) (fst p) None (Some center_format);
                         set_column (fst p) (fst p) (Some (Text.len (snd p) + 2)) None])
                      (enumerate (names df))))), w') /\
    session_state w' = session_state w /\ page w' = page w.
Proof.
  intros Hws Hl Hr.
  exists (mk_world (<[l := exported df]> (heap w)) (session_state w) (page w)).
  rewrite (exporter_spec l filename sheet df w Hws Hl).
  split; [|split; reflexivity]. f_equal. f_equal. f_equal.
  - unfold exported. cbn [rows]. now rewrite Hr.
  - f_equal. apply map_ext. intros [i name]. unfold calls_of, width_of, values, exported.
    cbn [rows fst snd]. rewrite Hr. cbn [map foldr]. unfold Text.len.
    replace (Z.max (Z.of_nat (String.length name)) 0) with
      (Z.of_nat (String.length name)) by lia.
    reflexivity.
Qed.

(** *** The columns a run needs *)

(** X10.  An upload without the service-type column makes the run raise
    [KeyError] for it before anything is shown; and a run completes only on
    a table that has the service-type, inspector, region and
    last-inspection columns. *)
Theorem run_needs_columns (T : DataFrame) (sel : Selection) (hoje : date) (w : world) :
  (~ In col_tipo (names T) ->
   run T sel hoje w =
     (Raise (KeyError col_tipo),
      mk_world (<[fresh (dom (heap w)) := T]> (heap w))
               (<[key_df := SFrame (fresh (dom (heap w)))]> (session_state w)) [])) /\
  (forall rep w', run T sel hoje w = (Ok rep, w') ->
     In col_tipo (names T) /\ In col_fiscal (names T) /\ In col_rpa (names T) /\
     In col_ultima (names T)).
Proof.
  split.
  - intros Hm. rewrite run_unfold. unfold mandatory_filters.
    unfold bind at 1. unfold bind at 1. unfold lift at 1.
    unfold disponiveis, get_loc. apply index_of_None in Hm. rewrite Hm. reflexivity.
  - intros rep w' H.
    destruct (run_Ok _ _ _ _ _ _ H)
      as (df1 & df2 & d & l & _ & Hn & _ & _ & _ & Ht & _).
    destruct (narrowed_Ok _ _ _ Hn) as (jt & jf & jr & Hjt & Hjf & Hjr & Hc & _).
    destruct (temporal_result_Ok _ _ _ _ _ _ _ Ht) as (j & Hj & _).
    assert (Hnames : names df1 = names T) by (unfold names; now rewrite Hc).
    unfold get_loc in Hj. rewrite Hnames in Hj.
    repeat split.
    + apply get_loc_Ok in Hjt. now apply index_of_In in Hjt.
    + apply get_loc_Ok in Hjf. now apply index_of_In in Hjf.
    + apply get_loc_Ok in Hjr. now apply index_of_In in Hjr.
    + destruct (index_of col_ultima (names T)) as [i|] eqn:E; [|discriminate].
      now apply index_of_In in E.
Qed.

(** *** The working table and the two downloads *)

Lemma setitem_well_shaped (name : string) (col : dtype * list cell) (df : DataFrame) :
  well_shaped df -> well_shaped (setitem name col df).
Proof.
  intros [Hnd Hlen]. split.
  - rewrite setitem_names. destruct (index_of name (names df)) eqn:E; [exact Hnd|].
    apply index_of_None in E.
    apply (Permutation_NoDup (Permutation_cons_append (names df) name)).
    now constructor.
  - rewrite List.Forall_forall in *. unfold setitem.
    destruct (index_of name (names df)); cbn [rows columns]; intros r Hr;
      apply list_elem_of_In, list_elem_of_lookup_1 in Hr as [k Hk];
      apply lookup_zip_with_Some in Hk as (r0 & v & -> & Hr0 & _);
      apply list_elem_of_lookup_2, list_elem_of_In in Hr0.
    + rewrite !length_insert. now apply Hlen.
    + rewrite !length_app. simpl. rewrite (Hlen r0 Hr0). reflexivity.
Qed.

Lemma run_working_shape
    (T : DataFrame) (sel : Selection) (hoje : date) (w w' : world) (rep : report) :
  well_shaped T ->
  run T sel hoje w = (Ok rep, w') ->
  well_shaped (working rep) /\
  names (working rep) =
    match index_of col_dias (names T) with
    | Some _ => names T
    | None => (names T ++ [col_dias])%list
    end.
Proof.
  intros Hws H.
  destruct (run_Ok _ _ _ _ _ _ H)
    as (df1 & df2 & d & l & _ & Hn & _ & _ & _ & Ht & Ha & _).
  assert (N2 : narrowing_of T df2).
  { apply (narrowing_trans T df1 df2).
    - exact (narrowed_narrowing _ _ _ Hn).
    - exact (temporal_result_narrowing _ _ _ _ _ _ _ Ht). }
  assert (Hws2 : well_shaped df2) by now apply (well_shaped_narrowing T).
  assert (Hnames : names df2 = names T) by (unfold names; now rewrite (proj1 N2)).
  unfold add_dias in Ha. apply obind_Ok in Ha as (j & Hj & Ha).
  apply obind_Ok in Ha as (res & Hres & Ha). injection Ha as <-.
  split; [now apply setitem_well_shaped|].
  now rewrite setitem_names, Hnames.
Qed.

(** X11.  The working table of a completed run keeps the shape of a
    table: one cell per column in every row and no column name twice.  Its
    columns are those of the full table followed by the computed column; if
    the upload already has a column of that name, the computed column takes
    its place. *)
Theorem working_table_shape
    (T : DataFrame) (sel : Selection) (hoje : date) (w w' : world) (rep : report) :
  well_shaped T ->
  run T sel hoje w = (Ok rep, w') ->
  well_shaped (working rep) /\
  (~ In col_dias (names T) -> names (working rep) = (names T ++ [col_dias])%list) /\
  (In col_dias (names T) -> names (working rep) = names T).
Proof.
  intros Hws H. destruct (run_working_shape T sel hoje w w' rep Hws H) as [Hw Hn].
  split; [exact Hw|]. rewrite Hn. split.
  - intros Hm. apply index_of_None in Hm. now rewrite Hm.
  - intros Hin. destruct (index_of col_dias (names T)) eqn:E; [reflexivity|].
    apply index_of_None in E. contradiction.
Qed.

Lemma written_Ok (df : DataFrame) (sheet : string) (ws : worksheet) :
  written df sheet = Ok ws ->
  sheet_name ws = sheet /\ header ws = names df /\ body ws = rows df.
Proof.
  unfold written. intros H. apply obind_Ok in H as (calls & _ & H).
  injection H as <-. auto.
Qed.

(** X12.  The two downloads of a completed run.  The first sheet holds
    every row of the full table, whatever the filters, under the full
    table's columns; the second holds the rows of the working table under
    the working table's columns, the computed column included; in both the
    date-time cells are written as plain dates. *)
Theorem run_downloads
    (T : DataFrame) (sel : Selection) (hoje : date) (w w' : world) (rep : report) :
  well_shaped T ->
  run T sel hoje w = (Ok rep, w') ->
  sheet_name (buffer_completo rep) = "Dados Completos Tratados" /\
  header (buffer_completo rep) = names T /\
  body (buffer_completo rep) = map (export_row (columns T)) (rows T) /\
  sheet_name (buffer_filtrado rep) = "Dados Filtrados" /\
  header (buffer_filtrado rep) = names (working rep) /\
  body (buffer_filtrado rep) =
    map (export_row (columns (working rep))) (rows (working rep)).
Proof.
  intros Hws H.
  destruct (run_working_shape T sel hoje w w' rep Hws H) as [Hww _].
  destruct (run_Ok _ _ _ _ _ _ H)
    as (df1 & df2 & d & l & _ & _ & _ & _ & _ & _ & _ & _ & Hc & Hf & _).
  unfold rewritten in Hc, Hf.
  rewrite strftime_all_exported in Hc by exact Hws.
  rewrite strftime_all_exported in Hf by exact Hww.
  apply written_Ok in Hc as (Hc1 & Hc2 & Hc3).
  apply written_Ok in Hf as (Hf1 & Hf2 & Hf3).
  rewrite exported_names in Hc2, Hf2.
  repeat split; assumption.
Qed.

(** ** The loader and the callback *)

Import Columns Sheets Loader Reset.

(** ** The loader *)


Lemma pick_filter {A} (f : A -> bool) (l : list A) :
  pick (map f l) l = List.filter f l.
Proof.
  induction l as [|x t IH]; simpl; [reflexivity|].
  destruct (f x); now rewrite IH.
Qed.

Lemma pick_length {A B} (mask : list bool) (l1 : list A) (l2 : list B) :
  length l1 = length l2 -> length (pick mask l1) = length (pick mask l2).
Proof.
  revert l1 l2. induction mask as [|b m IH]; intros [|x t] [|y u] H;
    simpl in *; try reflexivity; try discriminate.
  destruct b; simpl; [f_equal|]; apply IH; lia.
Qed.

(** The column found under a name that is kept is found, after [pick],
    with what was at its position. *)
Lemma pick_index (name : string) (l : list string) (mask : list bool) (j : nat) :
  index_of name l = Some j -> mask !! j = Some true ->
  exists j', index_of name (pick mask l) = Some j' /\
    forall A (x : list A), pick mask x !! j' = x !! j.
Proof.
  revert mask j. induction l as [|a t IH]; simpl; intros mask j H Hm; [discriminate|].
  destruct mask as [|b m]; [discriminate|].
  destruct (decide (a = name)) as [->|Hne].
  - injection H as <-. simpl in Hm. injection Hm as ->. exists O. simpl.
    rewrite decide_True by reflexivity. split; [reflexivity|].
    intros A [|x0 x]; reflexivity.
  - destruct (index_of name t) as [i|] eqn:E; [|discriminate].
    simpl in H. injection H as <-. simpl in Hm.
    destruct (IH m i eq_refl Hm) as (j' & Hj' & Hx).
    destruct b.
    + exists (S j'). simpl. rewrite decide_False by exact Hne. rewrite Hj'.
      split; [reflexivity|]. intros A [|x0 x]; simpl; [reflexivity|apply Hx].
    + exists j'. split; [exact Hj'|].
      intros A [|x0 x]; simpl; [reflexivity|apply Hx].
Qed.

Lemma pick_index_None (name : string) (l : list string) (mask : list bool) :
  index_of name l = None -> index_of name (pick mask l) = None.
Proof.
  revert mask. induction l as [|a t IH]; intros [|b m]; simpl; try reflexivity.
  destruct (decide (a = name)) as [->|Hne]; [discriminate|].
  destruct (index_of name t) eqn:E; [discriminate|]. intros _.
  destruct b; simpl; [rewrite decide_False by exact Hne|]; now rewrite IH.
Qed.

Lemma drop_Ok (cols : list string) (df df' : DataFrame) :
  drop cols df = Ok df' ->
  df' = mk_df (pick (map (fun c => negb (bool_decide (fst c ∈ cols))) (columns df))
                    (columns df))
              (map (pick (map (fun c => negb (bool_decide (fst c ∈ cols))) (columns df)))
                   (rows df)).
Proof. unfold drop. destruct (List.find _ _); [discriminate|]. now intros [= <-]. Qed.

Lemma drop_present (cols : list string) (df : DataFrame) :
  (forall c, In c cols -> In c (names df)) -> exists df', drop cols df = Ok df'.
Proof.
  intros H. unfold drop. destruct (List.find _ cols) as [c|] eqn:E; [|eauto].
  apply find_some in E as [Hc E]. apply negb_true_iff, bool_decide_eq_false in E.
  exfalso. apply E, list_elem_of_In. auto.
Qed.

Lemma drop_names (cols : list string) (df df' : DataFrame) :
  drop cols df = Ok df' ->
  names df' = List.filter (fun n => negb (bool_decide (n ∈ cols))) (names df).
Proof.
  intros ->%drop_Ok. unfold names. cbn [columns]. rewrite pick_filter.
  induction (columns df) as [|c t IH]; simpl; [reflexivity|].
  destruct (negb _); simpl; now rewrite IH.
Qed.

Lemma drop_well_shaped (cols : list string) (df df' : DataFrame) :
  drop cols df = Ok df' -> well_shaped df -> well_shaped df'.
Proof.
  intros H [Hnd Hlen]. split.
  - rewrite (drop_names _ _ _ H). now apply List.NoDup_filter.
  - apply drop_Ok in H. subst df'. cbn [rows columns].
    rewrite List.Forall_forall in *. intros r Hr.
    apply in_map_iff in Hr as (r0 & <- & Hr0). apply pick_length. now apply Hlen.
Qed.

Lemma col_data_Some (df : DataFrame) (name : string) (d : dtype * list cell) :
  col_data df name = Some d ->
  exists j, get_loc df name = Ok j /\ dtype_at df j = fst d /\ values df j = snd d.
Proof.
  unfold col_data, get_loc. destruct (index_of name (names df)) as [j|]; [|discriminate].
  intros [= <-]. eauto.
Qed.

Lemma col_data_get_loc (df : DataFrame) (name : string) (j : nat) :
  get_loc df name = Ok j -> col_data df name = Some (dtype_at df j, values df j).
Proof. rewrite get_loc_Ok. unfold col_data. now intros ->. Qed.

(** A column that is kept is after [drop] what it was before. *)
Lemma col_data_drop (cols : list string) (df df' : DataFrame) (name : string) :
  drop cols df = Ok df' -> ~ In name cols ->
  col_data df' name = col_data df name.
Proof.
  intros H Hn. apply drop_Ok in H. subst df'. unfold col_data.
  set (mask := map (fun c => negb (bool_decide (fst c ∈ cols))) (columns df)).
  unfold names at 1. cbn [columns].
  destruct (index_of name (names df)) as [j|] eqn:E.
  - assert (Hm : mask !! j = Some true).
    { pose proof (index_of_lookup _ _ _ E) as Hl. unfold names in Hl.
      change (@map) with (@fmap list _) in Hl. rewrite list_lookup_fmap in Hl.
      unfold mask. change (@map) with (@fmap list _). rewrite list_lookup_fmap.
      destruct (columns df !! j) as [c|]; [|discriminate]. simpl in *.
      injection Hl as Hl. rewrite Hl. f_equal.
      apply negb_true_iff, bool_decide_eq_false. now rewrite list_elem_of_In. }
    assert (Hp : map fst (pick mask (columns df)) = pick mask (names df)).
    { unfold mask, names. rewrite pick_filter.
      clear. induction (columns df) as [|c t IH]; simpl; [reflexivity|].
      destruct (negb _); simpl; now rewrite IH. }
    rewrite Hp. destruct (pick_index name (names df) mask j E Hm) as (j' & Hj' & Hx).
    rewrite Hj'. f_equal. f_equal.
    + unfold dtype_at. cbn [columns]. now rewrite Hx.
    + unfold values. cbn [rows]. rewrite map_map. apply map_ext. intros r.
      unfold cell_at. now rewrite Hx.
  - assert (Hp : map fst (pick mask (columns df)) = pick mask (names df)).
    { unfold mask, names. rewrite pick_filter.
      clear. induction (columns df) as [|c t IH]; simpl; [reflexivity|].
      destruct (negb _); simpl; now rewrite IH. }
    rewrite Hp. now rewrite pick_index_None.
Qed.

Lemma values_setitem_eq (name : string) (dt : dtype) (vals : list cell) (df : DataFrame) :
  well_shaped df -> length vals = length (rows df) ->
  values (setitem name (dt, vals) df) (setitem_loc name df) = vals.
Proof.
  intros Hws Hlen. apply list_eq. intros k. unfold values.
  change (@map) with (@fmap list _). rewrite list_lookup_fmap.
  destruct (rows (setitem name (dt, vals) df) !! k) as [r|] eqn:Er; simpl.
  - destruct (setitem_row name dt vals df k r Hws Hlen Er) as (r0 & v & _ & Hv & Hc & _).
    now rewrite Hc, Hv.
  - apply lookup_ge_None in Er. rewrite setitem_rows_length in Er by exact Hlen.
    symmetry. apply lookup_ge_None. lia.
Qed.

Lemma values_setitem_ne (name : string) (dt : dtype) (vals : list cell) (df : DataFrame)
    (j : nat) :
  well_shaped df -> length vals = length (rows df) ->
  (j < length (columns df))%nat -> j <> setitem_loc name df ->
  values (setitem name (dt, vals) df) j = values df j.
Proof.
  intros Hws Hlen Hj Hne. apply list_eq. intros k. unfold values.
  change (@map) with (@fmap list _). rewrite !list_lookup_fmap.
  destruct (rows (setitem name (dt, vals) df) !! k) as [r|] eqn:Er; simpl.
  - destruct (setitem_row name dt vals df k r Hws Hlen Er) as (r0 & v & Hr0 & _ & _ & Hc).
    rewrite Hr0. simpl. f_equal. now apply Hc.
  - apply lookup_ge_None in Er. rewrite setitem_rows_length in Er by exact Hlen.
    apply lookup_ge_None in Er. now rewrite Er.
Qed.

Lemma dtype_setitem_eq (name : string) (col : dtype * list cell) (df : DataFrame) :
  dtype_at (setitem name col df) (setitem_loc name df) = fst col.
Proof.
  unfold setitem, setitem_loc, dtype_at.
  destruct (index_of name (names df)) as [j|] eqn:E; cbn [columns default from_option].
  - rewrite list_lookup_insert_eq; [reflexivity|].
    apply index_of_lt in E. now rewrite names_length in E.
  - rewrite lookup_app_r by lia. now rewrite Nat.sub_diag.
Qed.

Lemma dtype_setitem_ne (name : string) (col : dtype * list cell) (df : DataFrame)
    (j : nat) :
  (j < length (columns df))%nat -> j <> setitem_loc name df ->
  dtype_at (setitem name col df) j = dtype_at df j.
Proof.
  intros Hj Hne. unfold setitem, setitem_loc, dtype_at in *.
  destruct (index_of name (names df)) as [i|] eqn:E; rewrite ?E in Hne;
    cbn [columns default from_option] in *.
  - unfold id in Hne. now rewrite list_lookup_insert_ne by congruence.
  - now rewrite lookup_app_l by exact Hj.
Qed.

Lemma col_data_setitem_eq (name : string) (dt : dtype) (vals : list cell)
    (df : DataFrame) :
  well_shaped df -> length vals = length (rows df) ->
  col_data (setitem name (dt, vals) df) name = Some (dt, vals).
Proof.
  intros Hws Hlen.
  rewrite (col_data_get_loc _ _ _ (setitem_get_loc name (dt, vals) df)).
  now rewrite dtype_setitem_eq, values_setitem_eq.
Qed.

Lemma col_data_setitem_ne (name other : string) (dt : dtype) (vals : list cell)
    (df : DataFrame) :
  well_shaped df -> length vals = length (rows df) -> other <> name ->
  col_data (setitem name (dt, vals) df) other = col_data df other.
Proof.
  intros Hws Hlen Hne. unfold col_data.
  pose proof (setitem_get_loc_other name other (dt, vals) df Hne) as Hg.
  unfold get_loc in Hg.
  destruct (index_of other (names df)) as [j|] eqn:E.
  - destruct (index_of other (names (setitem name (dt, vals) df))) as [j'|];
      [|discriminate]. injection Hg as ->.
    assert (Hj : (j < length (columns df))%nat).
    { apply index_of_lt in E. now rewrite names_length in E. }
    assert (Hjne : j <> setitem_loc name df).
    { unfold setitem_loc. destruct (index_of name (names df)) as [i|] eqn:Ei; simpl.
      - intros ->. apply index_of_lookup in E, Ei. congruence.
      - lia. }
    now rewrite dtype_setitem_ne, values_setitem_ne.
  - destruct (index_of other (names (setitem name (dt, vals) df))); [discriminate|].
    reflexivity.
Qed.

Lemma coerce_column_Ok (td : list cell -> list cell) (name : string)
    (df df' : DataFrame) :
  coerce_column td name df = Ok df' ->
  exists j, get_loc df name = Ok j /\
    df' = setitem name (datetime64_ns, td (values df j)) df /\
    names df' = names df.
Proof.
  unfold coerce_column. intros H. apply obind_Ok in H as (j & Hj & H).
  injection H as <-. exists j. split; [exact Hj|]. split; [reflexivity|].
  rewrite setitem_names. apply get_loc_Ok in Hj. now rewrite Hj.
Qed.

Lemma replace_column_Ok (name : string) (d : list (string * string))
    (df df' : DataFrame) :
  replace_column name d df = Ok df' ->
  exists j, get_loc df name = Ok j /\
    df' = setitem name (dtype_at df j, map (replace d) (values df j)) df /\
    names df' = names df.
Proof.
  unfold replace_column. intros H. apply obind_Ok in H as (j & Hj & H).
  injection H as <-. exists j. split; [exact Hj|]. split; [reflexivity|].
  rewrite setitem_names. apply get_loc_Ok in Hj. now rewrite Hj.
Qed.

Lemma get_loc_In (df : DataFrame) (name : string) :
  In name (names df) <-> exists j, get_loc df name = Ok j.
Proof.
  unfold get_loc. destruct (index_of name (names df)) as [j|] eqn:E.
  - split; [eauto|]. intros _. now apply (index_of_In _ _ j).
  - apply index_of_None in E. split; [contradiction|]. now intros [j [=]].
Qed.

Lemma get_loc_missing (df : DataFrame) (name : string) :
  ~ In name (names df) -> get_loc df name = Raise (KeyError name).
Proof. intros H. unfold get_loc. apply index_of_None in H. now rewrite H. Qed.

Lemma excluir_present (df : DataFrame) (c : string) :
  In c (List.filter (fun col => bool_decide (col ∈ names df)) colunas_excluir) ->
  In c (names df).
Proof.
  intros [_ H]%filter_In. apply bool_decide_eq_true in H. now apply list_elem_of_In.
Qed.

(** The loader, stage by stage. *)
Lemma loader_stages (td : list cell -> list cell) (sheet T : DataFrame) :
  load_and_preprocess_data td sheet = Ok T ->
  exists df1 df2 df3,
    coerce_column td col_abertura sheet = Ok df1 /\
    coerce_column td col_ultima df1 = Ok df2 /\
    drop (List.filter (fun col => bool_decide (col ∈ names df2)) colunas_excluir) df2
      = Ok df3 /\
    replace_column col_fiscal fiscais df3 = Ok T.
Proof.
  unfold load_and_preprocess_data. intros H.
  apply obind_Ok in H as (df1 & H1 & H). apply obind_Ok in H as (df2 & H2 & H).
  apply obind_Ok in H as (df3 & H3 & H). eauto 8.
Qed.

Lemma loader_names (td : list cell -> list cell) (sheet T : DataFrame) :
  load_and_preprocess_data td sheet = Ok T ->
  names T = List.filter (fun n => negb (bool_decide (n ∈ colunas_excluir))) (names sheet).
Proof.
  intros (df1 & df2 & df3 & H1 & H2 & H3 & H4)%loader_stages.
  apply coerce_column_Ok in H1 as (_ & _ & _ & N1).
  apply coerce_column_Ok in H2 as (_ & _ & _ & N2).
  apply replace_column_Ok in H4 as (_ & _ & _ & N4).
  rewrite N4, (drop_names _ _ _ H3), N2, N1.
  apply filter_ext_in. intros n Hn. f_equal. apply bool_decide_ext.
  rewrite !list_elem_of_In, filter_In, bool_decide_eq_true, list_elem_of_In.
  tauto.
Qed.

(** X13.  The loader returns a table exactly when the sheet has the two
    date columns and the inspector column; otherwise it raises [KeyError]
    for the first of "Data de Abertura", "Última Fiscalização", "Fiscal"
    that the sheet lacks.  The six columns to exclude need not be there. *)
Theorem loader_needs_columns (to_datetime : list cell -> list cell) (sheet : DataFrame) :
  ((exists T, load_and_preprocess_data to_datetime sheet = Ok T) <->
   In col_abertura (names sheet) /\ In col_ultima (names sheet) /\
   In col_fiscal (names sheet)) /\
  (~ In col_abertura (names sheet) ->
   load_and_preprocess_data to_datetime sheet = Raise (KeyError col_abertura)) /\
  (In col_abertura (names sheet) -> ~ In col_ultima (names sheet) ->
   load_and_preprocess_data to_datetime sheet = Raise (KeyError col_ultima)) /\
  (In col_abertura (names sheet) -> In col_ultima (names sheet) ->
   ~ In col_fiscal (names sheet) ->
   load_and_preprocess_data to_datetime sheet = Raise (KeyError col_fiscal)).
Proof.
  assert (Hfis : forall df2 df3,
            drop (List.filter (fun col => bool_decide (col ∈ names df2)) colunas_excluir)
                 df2 = Ok df3 ->
            (In col_fiscal (names df3) <-> In col_fiscal (names df2))).
  { intros df2 df3 H3. rewrite (drop_names _ _ _ H3), filter_In.
    split; [tauto|]. intros H. split; [exact H|].
    apply negb_true_iff, bool_decide_eq_false. rewrite list_elem_of_In.
    intros [Hc _]%filter_In. revert Hc. clear. vm_compute.
    intuition discriminate. }
  assert (Hstep : forall name df, In name (names df) ->
            exists df', coerce_column to_datetime name df = Ok df' /\
                        names df' = names df).
  { intros name df [j Hj]%get_loc_In. unfold coerce_column. rewrite Hj. simpl.
    eexists. split; [reflexivity|]. rewrite setitem_names.
    apply get_loc_Ok in Hj. now rewrite Hj. }
  split; [split|split; [|split]].
  - intros [T (df1 & df2 & df3 & H1 & H2 & H3 & H4)%loader_stages].
    pose proof (Hfis _ _ H3) as Hf.
    apply coerce_column_Ok in H1 as (j1 & Hj1 & _ & N1).
    apply coerce_column_Ok in H2 as (j2 & Hj2 & _ & N2).
    apply replace_column_Ok in H4 as (j4 & Hj4 & _ & _).
    split; [apply get_loc_In; eauto|].
    split; [rewrite <- N1; apply get_loc_In; eauto|].
    rewrite <- N1, <- N2. apply Hf, get_loc_In. eauto.
  - intros (Ha & Hu & Hf). unfold load_and_preprocess_data.
    destruct (Hstep _ _ Ha) as (df1 & H1 & N1). rewrite H1. cbn [obind].
    rewrite <- N1 in Hu. destruct (Hstep _ _ Hu) as (df2 & H2 & N2).
    rewrite H2. cbn [obind].
    destruct (drop_present _ df2 (excluir_present df2)) as [df3 H3].
    rewrite H3. cbn [obind].
    assert (Hf3 : In col_fiscal (names df3)).
    { apply (Hfis _ _ H3). now rewrite N2, N1. }
    apply get_loc_In in Hf3 as [j Hj]. unfold replace_column. rewrite Hj. simpl. eauto.
  - intros Ha. unfold load_and_preprocess_data, coerce_column.
    now rewrite (get_loc_missing _ _ Ha).
  - intros Ha Hu. unfold load_and_preprocess_data.
    destruct (Hstep _ _ Ha) as (df1 & H1 & N1). rewrite H1. cbn [obind].
    unfold coerce_column. rewrite get_loc_missing; [reflexivity|]. now rewrite N1.
  - intros Ha Hu Hf. unfold load_and_preprocess_data.
    destruct (Hstep _ _ Ha) as (df1 & H1 & N1). rewrite H1. cbn [obind].
    rewrite <- N1 in Hu. destruct (Hstep _ _ Hu) as (df2 & H2 & N2).
    rewrite H2. cbn [obind].
    destruct (drop_present _ df2 (excluir_present df2)) as [df3 H3].
    rewrite H3. cbn [obind].
    unfold replace_column. rewrite get_loc_missing; [reflexivity|].
    rewrite (Hfis _ _ H3), N2, N1. exact Hf.
Qed.

(** X14.  The columns of the loaded table are the columns of the sheet
    without the six columns to exclude, in the sheet's order: none of the
    six is left, and no other column is lost or moved. *)
Theorem loader_columns (to_datetime : list cell -> list cell) (sheet T : DataFrame) :
  load_and_preprocess_data to_datetime sheet = Ok T ->
  names T = List.filter (fun n => negb (bool_decide (n ∈ colunas_excluir))) (names sheet) /\
  (forall c, In c (names T) <-> In c (names sheet) /\ ~ In c colunas_excluir).
Proof.
  intros H. pose proof (loader_names _ _ _ H) as Hn. split; [exact Hn|].
  intros c. rewrite Hn, filter_In, negb_true_iff, bool_decide_eq_false, list_elem_of_In.
  reflexivity.
Qed.

Lemma values_length (df : DataFrame) (j : nat) : length (values df j) = length (rows df).
Proof. unfold values. apply length_map. Qed.

Lemma coerce_column_spec (td : list cell -> list cell) (name : string)
    (df df' : DataFrame) :
  (forall l, length (td l) = length l) -> well_shaped df ->
  coerce_column td name df = Ok df' ->
  well_shaped df' /\ length (rows df') = length (rows df) /\
  (exists j, get_loc df name = Ok j /\
             col_data df' name = Some (datetime64_ns, td (values df j))) /\
  (forall other, other <> name -> col_data df' other = col_data df other).
Proof.
  intros Htd Hws (j & Hj & -> & _)%coerce_column_Ok.
  assert (Hlen : length (td (values df j)) = length (rows df))
    by now rewrite Htd, values_length.
  split; [now apply setitem_well_shaped|].
  split; [now apply setitem_rows_length|].
  split.
  - exists j. split; [exact Hj|]. now apply col_data_setitem_eq.
  - intros other Hne. now apply col_data_setitem_ne.
Qed.

Lemma replace_column_spec (name : string) (d : list (string * string))
    (df df' : DataFrame) :
  well_shaped df -> replace_column name d df = Ok df' ->
  well_shaped df' /\ length (rows df') = length (rows df) /\
  (exists j, get_loc df name = Ok j /\
             col_data df' name = Some (dtype_at df j, map (replace d) (values df j))) /\
  (forall other, other <> name -> col_data df' other = col_data df other).
Proof.
  intros Hws (j & Hj & -> & _)%replace_column_Ok.
  assert (Hlen : length (map (replace d) (values df j)) = length (rows df))
    by now rewrite length_map, values_length.
  split; [now apply setitem_well_shaped|].
  split; [now apply setitem_rows_length|].
  split.
  - exists j. split; [exact Hj|]. now apply col_data_setitem_eq.
  - intros other Hne. now apply col_data_setitem_ne.
Qed.

Lemma drop_rows_length (cols : list string) (df df' : DataFrame) :
  drop cols df = Ok df' -> length (rows df') = length (rows df).
Proof. intros ->%drop_Ok. cbn [rows]. apply length_map. Qed.

(** The loader, column by column. *)
Lemma loader_spec (td : list cell -> list cell) (sheet T : DataFrame) :
  (forall l, length (td l) = length l) -> well_shaped sheet ->
  load_and_preprocess_data td sheet = Ok T ->
  well_shaped T /\ length (rows T) = length (rows sheet) /\
  (exists ja ju jf,
     get_loc sheet col_abertura = Ok ja /\ get_loc sheet col_ultima = Ok ju /\
     get_loc sheet col_fiscal = Ok jf /\
     col_data T col_abertura = Some (datetime64_ns, td (values sheet ja)) /\
     col_data T col_ultima = Some (datetime64_ns, td (values sheet ju)) /\
     col_data T col_fiscal =
       Some (dtype_at sheet jf, map (replace fiscais) (values sheet jf))) /\
  (forall name, name <> col_abertura -> name <> col_ultima -> name <> col_fiscal ->
                ~ In name colunas_excluir ->
                col_data T name = col_data sheet name).
Proof.
  intros Htd Hws (df1 & df2 & df3 & H1 & H2 & H3 & H4)%loader_stages.
  destruct (coerce_column_spec _ _ _ _ Htd Hws H1) as (W1 & L1 & (ja & Hja & C1) & O1).
  destruct (coerce_column_spec _ _ _ _ Htd W1 H2) as (W2 & L2 & (ju & Hju & C2) & O2).
  pose proof (drop_well_shaped _ _ _ H3 W2) as W3.
  pose proof (drop_rows_length _ _ _ H3) as L3.
  assert (O3 : forall name, ~ In name colunas_excluir ->
                            col_data df3 name = col_data df2 name).
  { intros name Hn. apply (col_data_drop _ _ _ _ H3).
    intros [Hc _]%filter_In. contradiction. }
  destruct (replace_column_spec _ _ _ _ W3 H4) as (W4 & L4 & (jf & Hjf & C4) & O4).
  assert (Ea : ~ In col_abertura colunas_excluir) by (vm_compute; intuition discriminate).
  assert (Eu : ~ In col_ultima colunas_excluir) by (vm_compute; intuition discriminate).
  assert (Ef : ~ In col_fiscal colunas_excluir) by (vm_compute; intuition discriminate).
  assert (Nau : col_ultima <> col_abertura) by discriminate.
  assert (Nfa : col_fiscal <> col_abertura) by discriminate.
  assert (Nfu : col_fiscal <> col_ultima) by discriminate.
  split; [exact W4|]. split; [congruence|].
  (* the inspector column before the replacement is the sheet's *)
  assert (F3 : col_data df3 col_fiscal = col_data sheet col_fiscal).
  { rewrite (O3 _ Ef), (O2 _ Nfu), (O1 _ Nfa). reflexivity. }
  rewrite (col_data_get_loc _ _ _ Hjf) in F3. symmetry in F3.
  apply col_data_Some in F3 as (jf0 & Hjf0 & Hd & Hv). cbn [fst snd] in Hd, Hv.
  (* the last-inspection column before its coercion is the sheet's *)
  assert (U1 : col_data df1 col_ultima = col_data sheet col_ultima) by now apply O1.
  rewrite (col_data_get_loc _ _ _ Hju) in U1. symmetry in U1.
  apply col_data_Some in U1 as (ju0 & Hju0 & _ & Hvu). cbn [snd] in Hvu.
  split.
  - exists ja, ju0, jf0. repeat split; try assumption.
    + rewrite O4 by congruence. rewrite (O3 _ Ea). rewrite O2 by congruence. exact C1.
    + rewrite O4 by congruence. rewrite (O3 _ Eu). now rewrite C2, Hvu.
    + now rewrite C4, Hd, Hv.
  - intros name Na Nu Nf Ne. now rewrite O4, (O3 _ Ne), O2, O1.
Qed.

(** X15.  Over a well-shaped sheet, with a [to_datetime] that gives one
    value per cell, the loaded table is well shaped and has the rows of the
    sheet, one for one; its two date columns have the dtype
    [datetime64[ns]] and hold what [to_datetime] makes of the sheet's. *)
Theorem loader_dates (to_datetime : list cell -> list cell) (sheet T : DataFrame) :
  (forall l, length (to_datetime l) = length l) -> well_shaped sheet ->
  load_and_preprocess_data to_datetime sheet = Ok T ->
  well_shaped T /\ length (rows T) = length (rows sheet) /\
  forall name, name = col_abertura \/ name = col_ultima ->
    exists j0 j, get_loc sheet name = Ok j0 /\ get_loc T name = Ok j /\
      dtype_at T j = datetime64_ns /\ values T j = to_datetime (values sheet j0).
Proof.
  intros Htd Hws H.
  destruct (loader_spec _ _ _ Htd Hws H)
    as (W & L & (ja & ju & jf & Hja & Hju & _ & Ca & Cu & _) & _).
  split; [exact W|]. split; [exact L|].
  intros name [->| ->].
  - apply col_data_Some in Ca as (j & Hj & Hd & Hv). exists ja, j. auto.
  - apply col_data_Some in Cu as (j & Hj & Hd & Hv). exists ju, j. auto.
Qed.

(** X16.  In the inspector column of the loaded table every cell is the
    sheet's cell of the same row with the e-mail addresses of the dict
    replaced by the inspectors' names; the dtype of the column is kept. *)
Theorem loader_fiscal (to_datetime : list cell -> list cell) (sheet T : DataFrame) :
  (forall l, length (to_datetime l) = length l) -> well_shaped sheet ->
  load_and_preprocess_data to_datetime sheet = Ok T ->
  exists j0 j, get_loc sheet col_fiscal = Ok j0 /\ get_loc T col_fiscal = Ok j /\
    dtype_at T j = dtype_at sheet j0 /\
    values T j = map (replace fiscais) (values sheet j0).
Proof.
  intros Htd Hws H.
  destruct (loader_spec _ _ _ Htd Hws H)
    as (_ & _ & (ja & ju & jf & _ & _ & Hjf & _ & _ & Cf) & _).
  apply col_data_Some in Cf as (j & Hj & Hd & Hv). exists jf, j. auto.
Qed.

(** X17.  Every column of the sheet other than the two date columns, the
    inspector column and the six columns to exclude is in the loaded table
    with its dtype and its values, row by row. *)
Theorem loader_keeps_columns (to_datetime : list cell -> list cell)
    (sheet T : DataFrame) (name : string) (j0 : nat) :
  (forall l, length (to_datetime l) = length l) -> well_shaped sheet ->
  load_and_preprocess_data to_datetime sheet = Ok T ->
  get_loc sheet name = Ok j0 ->
  name <> col_abertura -> name <> col_ultima -> name <> col_fiscal ->
  ~ In name colunas_excluir ->
  exists j, get_loc T name = Ok j /\
    dtype_at T j = dtype_at sheet j0 /\ values T j = values sheet j0.
Proof.
  intros Htd Hws H Hj0 Na Nu Nf Ne.
  destruct (loader_spec _ _ _ Htd Hws H) as (_ & _ & _ & Ho).
  specialize (Ho name Na Nu Nf Ne). rewrite (col_data_get_loc _ _ _ Hj0) in Ho.
  apply col_data_Some in Ho as (j & Hj & Hd & Hv). eauto.
Qed.

(** X18.  The replacement of the inspectors' addresses: each of the ten
    addresses becomes the name under it; what the replacement gives is
    never one of the addresses, so replacing again changes nothing; and a
    cell that is none of the addresses stays as it is. *)
Theorem replace_fiscais :
  (forall e label, In (e, label) fiscais -> replace fiscais (Str e) = Str label) /\
  (forall c e label, In (e, label) fiscais -> replace fiscais c <> Str e) /\
  (forall c, replace fiscais (replace fiscais c) = replace fiscais c) /\
  (forall c, (forall e label, In (e, label) fiscais -> c <> Str e) ->
             replace fiscais c = c).
Proof.
  assert (Hlab : forall p q, In p fiscais -> In q fiscais -> snd p <> fst q).
  { assert (Hb : forallb (fun p => forallb (fun q =>
               negb (bool_decide (snd p = fst q))) fiscais) fiscais = true)
      by (vm_compute; reflexivity).
    rewrite forallb_forall in Hb. intros p q Hp Hq.
    specialize (Hb p Hp). rewrite forallb_forall in Hb. specialize (Hb q Hq).
    now apply negb_true_iff, bool_decide_eq_false in Hb. }
  assert (Hb : forall c e label, In (e, label) fiscais -> replace fiscais c <> Str e).
  { intros c e label Hin. destruct c as [| | |s| | |]; try discriminate.
    unfold replace. destruct (List.find _ fiscais) as [p|] eqn:E.
    - apply find_some in E as [Hp _]. intros [= Heq].
      exact (Hlab p (e, label) Hp Hin Heq).
    - intros [= ->]. pose proof (find_none _ _ E _ Hin) as Hn.
      cbn [fst] in Hn. apply bool_decide_eq_false in Hn. congruence. }
  assert (Hd : forall c, (forall e label, In (e, label) fiscais -> c <> Str e) ->
                         replace fiscais c = c).
  { intros c Hc. destruct c as [| | |s| | |]; try reflexivity.
    unfold replace. destruct (List.find _ fiscais) as [p|] eqn:E; [|reflexivity].
    apply find_some in E as [Hp Hs]. apply bool_decide_eq_true in Hs.
    exfalso. apply (Hc (fst p) (snd p)); [now destruct p|congruence]. }
  split; [|split; [exact Hb|split; [|exact Hd]]].
  - intros e label Hin. unfold fiscais in Hin. cbn [In] in Hin.
    repeat (destruct Hin as [[= <- <-]|Hin]; [vm_compute; reflexivity|]).
    contradiction.
  - intros c. apply Hd. intros e label Hin. now apply (Hb c e label).
Qed.

(** ** The callback that clears the temporal filters *)


Lemma stored_table_eq (w : world) :
  stored_table w =
    match session_state w !! key_df with
    | None => (Ok None, w)
    | Some (SFrame l) =>
        (Ok (if empty (default (mk_df [] []) (heap w !! l)) then None
             else Some (default (mk_df [] []) (heap w !! l))), w)
    | Some _ => (Raise AttributeError, w)
    end.
Proof.
  unfold stored_table, bind, in_state, get_state, load, lift, ret.
  destruct (session_state w !! key_df) as [[z|n|l]|] eqn:E.
  - rewrite bool_decide_eq_true_2 by eauto. cbv beta iota. now rewrite E.
  - rewrite bool_decide_eq_true_2 by eauto. cbv beta iota. now rewrite E.
  - rewrite bool_decide_eq_true_2 by eauto. cbv beta iota. now rewrite E.
  - rewrite bool_decide_eq_false_2; [reflexivity|]. now intros [x Hx].
Qed.

Lemma reset_to_today_eq (hoje : date) (w : world) :
  reset_to_today hoje w =
    (Ok tt, mk_world (heap w)
              (<[key_months := SNames []]> (<[key_year := SInt (year hoje)]>
                 (session_state w))) (page w)).
Proof. reflexivity. Qed.

(** The callback on a table that is there and is not empty. *)
Lemma clear_eq (td : list cell -> list cell) (hoje : date) (w : world) (l : loc)
    (T : DataFrame) (j : nat) (valid : list Timestamp) :
  session_state w !! key_df = Some (SFrame l) -> heap w !! l = Some T ->
  empty T = false -> well_shaped T -> get_loc T col_ultima = Ok j ->
  length (td (values T j)) = length (rows T) ->
  timestamps (dropna (td (values T j))) = Ok valid ->
  _clear_temporal_filters td hoje w =
    if is_nil valid then reset_to_today hoje w
    else
      match omap month_name (months_in_year valid (year_of (ts_max valid))) with
      | Ok ms =>
          (Ok tt, mk_world (heap w)
                    (<[key_months := SNames ms]>
                       (<[key_year := SInt (year_of (ts_max valid))]> (session_state w)))
                    (page w))
      | Stop => (Stop, w)
      | Raise e => (Raise e, w)
      end.
Proof.
  intros Hk Hl He Hws Hj Hlen Hv. unfold _clear_temporal_filters.
  unfold bind at 1. rewrite stored_table_eq, Hk, Hl. cbn [default from_option].
  unfold id. rewrite He. unfold coerce_column. rewrite Hj. cbn [obind].
  rewrite bind_lift. rewrite bind_lift.
  assert (Hloc : setitem_loc col_ultima T = j).
  { unfold setitem_loc. apply get_loc_Ok in Hj. now rewrite Hj. }
  rewrite setitem_get_loc, Hloc.
  assert (Hvals : values (setitem col_ultima (datetime64_ns, td (values T j)) T) j
                  = td (values T j)).
  { rewrite <- Hloc at 2. now apply values_setitem_eq. }
  rewrite Hvals. rewrite bind_lift, Hv.
  destruct (is_nil valid); [reflexivity|].
  rewrite bind_lift. change (reset_months valid) with (months_in_year valid).
  destruct (omap month_name _) as [ms| |e]; reflexivity.
Qed.

(** X19.  The callback touches the year and the months of the session
    and nothing else: the loaded table, which it reads through a copy, the
    other objects, the other entries of the session and the page are what
    they were, however the callback ends. *)
Theorem clear_frame (to_datetime : list cell -> list cell) (hoje : date) (w : world) :
  heap (snd (_clear_temporal_filters to_datetime hoje w)) = heap w /\
  page (snd (_clear_temporal_filters to_datetime hoje w)) = page w /\
  forall k, k <> key_year -> k <> key_months ->
    session_state (snd (_clear_temporal_filters to_datetime hoje w)) !! k
      = session_state w !! k.
Proof.
  assert (Htoday : forall k, k <> key_year -> k <> key_months ->
            session_state (snd (reset_to_today hoje w)) !! k = session_state w !! k).
  { intros k Hy Hm. rewrite reset_to_today_eq. cbn [snd session_state].
    now rewrite !lookup_insert_ne by congruence. }
  assert (Hsame : forall (o : outcome unit),
            heap (snd (o, w)) = heap w /\ page (snd (o, w)) = page w /\
            forall k, k <> key_year -> k <> key_months ->
              session_state (snd (o, w)) !! k = session_state w !! k).
  { intros o. repeat split. }
  assert (Hreset : heap (snd (reset_to_today hoje w)) = heap w /\
            page (snd (reset_to_today hoje w)) = page w /\
            forall k, k <> key_year -> k <> key_months ->
              session_state (snd (reset_to_today hoje w)) !! k = session_state w !! k).
  { repeat split. exact Htoday. }
  assert (H : forall r, _clear_temporal_filters to_datetime hoje w = r ->
            heap (snd r) = heap w /\ page (snd r) = page w /\
            forall k, k <> key_year -> k <> key_months ->
              session_state (snd r) !! k = session_state w !! k);
    [|exact (H _ eq_refl)].
  unfold _clear_temporal_filters. unfold bind at 1. rewrite stored_table_eq.
  destruct (session_state w !! key_df) as [[z|n|l]|]; cbv beta iota;
    try (intros r <-; apply Hsame); try (intros r <-; exact Hreset).
  destruct (empty _); [intros r <-; exact Hreset|].
  rewrite bind_lift. destruct (coerce_column _ _ _) as [df_temp| |e];
    try (intros r <-; apply Hsame).
  rewrite bind_lift. destruct (get_loc df_temp col_ultima) as [j| |e];
    try (intros r <-; apply Hsame).
  rewrite bind_lift. destruct (timestamps _) as [valid| |e];
    try (intros r <-; apply Hsame).
  destruct (is_nil valid); [intros r <-; exact Hreset|].
  rewrite bind_lift. destruct (omap month_name _) as [ms| |e];
    try (intros r <-; apply Hsame).
  intros r <-. repeat split. intros k Hy Hm. cbn.
  now rewrite !lookup_insert_ne by congruence.
Qed.

(** X20.  Without a loaded table in the session, or with one that has no
    row or no column, the callback sets the year of the session to today's
    year and the months to the empty list. *)
Theorem clear_without_table (to_datetime : list cell -> list cell) (hoje : date)
    (w : world) :
  (session_state w !! key_df = None \/
   exists l T, session_state w !! key_df = Some (SFrame l) /\ heap w !! l = Some T /\
               (rows T = [] \/ columns T = [])) ->
  _clear_temporal_filters to_datetime hoje w =
    (Ok tt, mk_world (heap w)
              (<[key_months := SNames []]> (<[key_year := SInt (year hoje)]>
                 (session_state w))) (page w)).
Proof.
  intros H. unfold _clear_temporal_filters. unfold bind at 1. rewrite stored_table_eq.
  destruct H as [->|(l & T & -> & -> & He)]; [reflexivity|].
  cbn [default from_option]. unfold id, empty.
  destruct He as [->| ->]; [|reflexivity]. now rewrite orb_true_r.
Qed.

(** *** The year and the months the callback sets *)

Lemma months_in_year_In (valid : list Timestamp) (y m : Z) :
  In m (months_in_year valid y) <->
  exists t, In t valid /\ ts_year t = y /\ ts_month t = m.
Proof.
  unfold months_in_year. rewrite <- list_elem_of_In.
  rewrite (merge_sort_Permutation Z.le _), elem_of_remove_dups, list_elem_of_In.
  rewrite in_map_iff. split.
  - intros (t & Hm & [Ht Hy%Z.eqb_eq]%filter_In). eauto.
  - intros (t & Ht & Hy & Hm). exists t. split; [exact Hm|].
    apply filter_In. split; [exact Ht|]. now apply Z.eqb_eq.
Qed.

Lemma omap_total {A B} (f : A -> outcome B) (l : list A) :
  (forall x, In x l -> exists y, f x = Ok y) -> exists r, omap f l = Ok r.
Proof.
  induction l as [|a t IH]; simpl; intros H; [eauto|].
  destruct (H a) as [y Hy]; [auto|]. destruct IH as [r Hr]; [auto|].
  rewrite Hy, Hr. simpl. eauto.
Qed.

Lemma omap_In_of {A B} (f : A -> outcome B) (l : list A) (r : list B) (x : A) (y : B) :
  omap f l = Ok r -> In x l -> f x = Ok y -> In y r.
Proof.
  intros H Hx Hy. apply list_elem_of_In, list_elem_of_lookup_1 in Hx as [k Hk].
  destruct (omap_lookup _ _ _ _ _ H Hk) as (y' & Hy' & Hf).
  assert (y' = y) by congruence. subst y'.
  apply list_elem_of_In. now apply list_elem_of_lookup_2 in Hy'.
Qed.

Lemma timestamps_total (l : list cell) :
  (forall c, In c l -> date_cell c) -> exists v, timestamps (dropna l) = Ok v.
Proof.
  intros H. unfold timestamps. apply omap_total. intros c [Hc Hn]%dropna_In.
  destruct (H c Hc) as [->|[t ->]]; [discriminate|eauto].
Qed.

Lemma max_year_ge (l : list Timestamp) (t : Timestamp) :
  In t l -> ts_year t <= max_year l.
Proof.
  induction l as [|a r IH]; simpl; [contradiction|].
  intros [<-|H]; [lia|]. specialize (IH H). lia.
Qed.

Lemma max_year_In (l : list Timestamp) :
  l <> [] -> (forall t, In t l -> 1 <= ts_year t) ->
  exists t, In t l /\ ts_year t = max_year l.
Proof.
  induction l as [|a r IH]; [congruence|]. intros _ Hy. simpl.
  destruct r as [|b r'].
  - exists a. split; [now left|]. simpl. specialize (Hy a (or_introl eq_refl)). lia.
  - destruct IH as (t & Ht & Hm); [discriminate|intros t Ht; apply Hy; now right|].
    fold (max_year (b :: r')).
    destruct (Z.le_gt_cases (max_year (b :: r')) (ts_year a)).
    + exists a. split; [now left|]. lia.
    + exists t. split; [now right|]. lia.
Qed.

(** The year of the latest of well-formed timestamps is their greatest
    year. *)
Lemma year_of_ts_max (l : list Timestamp) :
  (forall t, In t l -> valid_ts t) -> l <> [] -> year_of (ts_max l) = max_year l.
Proof.
  intros Hv Hne.
  assert (Hy : forall t, In t l -> 1 <= ts_year t).
  { intros t Ht. destruct (Hv t Ht) as [(Hyr & _) _]. cbn in Hyr. lia. }
  destruct (max_year_In l Hne Hy) as (t & Ht & Hm).
  destruct (ts_max l) as [m|] eqn:E.
  - apply ts_max_spec in E as [Hin Hle]. change (year_of (Some m)) with (ts_year m).
    pose proof (max_year_ge l m Hin).
    pose proof (ts_key_year t m (Hv t Ht) (Hv m Hin) (Hle t Ht)). lia.
  - destruct l; [congruence|]. simpl in E.
    destruct (ts_max l); [destruct (_ <? _)|]; discriminate.
Qed.

(** X21.  With a loaded table whose last-inspection column, as
    [to_datetime] reads it, holds well-formed dates and at least one, the
    callback sets the year of the session to the greatest year of those
    dates, and the months to the names of the months of the dates of that
    year, of which there is at least one. *)
Theorem clear_resets_to_latest (to_datetime : list cell -> list cell) (hoje : date)
    (w : world) (l : loc) (T : DataFrame) (j : nat) :
  session_state w !! key_df = Some (SFrame l) -> heap w !! l = Some T ->
  empty T = false -> well_shaped T -> get_loc T col_ultima = Ok j ->
  length (to_datetime (values T j)) = length (rows T) ->
  (forall c, In c (to_datetime (values T j)) ->
             c = NaT \/ exists t, c = Ts t /\ valid_ts t) ->
  (exists t, In (Ts t) (to_datetime (values T j))) ->
  exists y ms,
    _clear_temporal_filters to_datetime hoje w =
      (Ok tt, mk_world (heap w)
                (<[key_months := SNames ms]> (<[key_year := SInt y]> (session_state w)))
                (page w)) /\
    (exists t, In (Ts t) (to_datetime (values T j)) /\ ts_year t = y) /\
    (forall t, In (Ts t) (to_datetime (values T j)) -> ts_year t <= y) /\
    (forall name, In name ms <->
       exists t, In (Ts t) (to_datetime (values T j)) /\ ts_year t = y /\
                 month_name (ts_month t) = Ok name) /\
    ms <> [].
Proof.
  intros Hk Hl He Hws Hj Hlen Hcells [t0 Ht0].
  destruct (timestamps_total (to_datetime (values T j))) as [valid Hv].
  { intros c Hc. destruct (Hcells c Hc) as [->|(t & -> & _)];
      [now left|right; eauto]. }
  assert (Hin : forall t, In t valid <-> In (Ts t) (to_datetime (values T j))).
  { intros t. rewrite (timestamps_In _ _ t Hv), dropna_In. tauto. }
  assert (Hvalid : forall t, In t valid -> valid_ts t).
  { intros t Ht%Hin. destruct (Hcells _ Ht) as [|(t' & [= <-] & Hvt)];
      [discriminate|exact Hvt]. }
  assert (Hne : valid <> []).
  { intros ->. now apply (Hin t0) in Ht0. }
  rewrite (clear_eq _ hoje w l T j valid Hk Hl He Hws Hj Hlen Hv).
  destruct valid as [|v0 vs] eqn:Ev; [congruence|]. cbn [is_nil]. rewrite <- Ev in *.
  set (y := year_of (ts_max valid)).
  assert (Hy : y = max_year valid) by now apply year_of_ts_max.
  destruct (max_year_In valid Hne) as (tm & Htm & Hmax).
  { intros t Ht. destruct (Hvalid t Ht) as [(Hyr & _) _]. cbn in Hyr. lia. }
  destruct (omap_total month_name (months_in_year valid y)) as [ms Hms].
  { intros m (t & Ht & _ & <-)%months_in_year_In.
    apply (proj2 (month_name_range (ts_month t))).
    destruct (Hvalid t Ht) as [(_ & Hm & _) _]. exact Hm. }
  rewrite Hms. exists y, ms. split; [reflexivity|].
  split; [exists tm; split; [now apply Hin|congruence]|].
  split; [intros t Ht%Hin; rewrite Hy; now apply max_year_ge|].
  split.
  - intros name. split.
    + intros Hn. destruct (omap_In _ _ _ _ Hms Hn) as (m & Hm & Hname).
      apply months_in_year_In in Hm as (t & Ht & Hyt & <-).
      exists t. split; [now apply Hin|]. auto.
    + intros (t & Ht%Hin & Hyt & Hname).
      apply (omap_In_of _ _ _ (ts_month t) _ Hms); [|exact Hname].
      apply months_in_year_In. eauto.
  - intros ->. apply omap_nil in Hms.
    apply (months_in_year_nil _ _ tm Hms Htm). congruence.
Qed.

(** *** The callback after the exporter has rewritten the loaded table *)

Lemma exported_empty (df : DataFrame) : empty (exported df) = empty df.
Proof.
  unfold empty, exported. cbn [columns rows].
  now destruct (columns df), (rows df).
Qed.

Lemma exported_values (df : DataFrame) (j : nat) :
  well_shaped df -> (j < length (columns df))%nat -> dtype_at df j = datetime64_ns ->
  values (exported df) j = map strftime_cell (values df j).
Proof.
  intros [_ Hlen] Hj Hd. unfold values, exported. cbn [rows].
  rewrite !map_map. apply map_ext_in. intros r Hr.
  rewrite List.Forall_forall in Hlen. specialize (Hlen r Hr).
  unfold cell_at, export_row. rewrite lookup_zip_with.
  destruct (lookup_lt_is_Some_2 (columns df) j Hj) as [c Hc].
  destruct (lookup_lt_is_Some_2 r j ltac:(lia)) as [x Hx].
  rewrite Hc, Hx. cbn. unfold dtype_at in Hd. rewrite Hc in Hd. cbn in Hd.
  unfold is_datetime. now rewrite bool_decide_eq_true_2 by exact Hd.
Qed.

Lemma timestamps_midnight (l : list cell) (v : list Timestamp) :
  (forall c, In c l -> date_cell c) -> timestamps (dropna l) = Ok v ->
  timestamps (dropna (map midnight_cell l)) = Ok (map midnight v).
Proof.
  unfold timestamps. revert v. induction l as [|c t IH]; intros v Hc H.
  - simpl in *. now injection H as <-.
  - destruct (Hc c (or_introl eq_refl)) as [->|[ts ->]].
    + simpl in *. apply IH; [|exact H]. intros c' Hc'. apply Hc. now right.
    + simpl in *. apply obind_Ok in H as (v' & Hv' & H). injection H as <-.
      rewrite (IH v'); [reflexivity| |exact Hv'].
      intros c' Hc'. apply Hc. now right.
Qed.

Lemma midnight_valid (t : Timestamp) : valid_ts t -> valid_ts (midnight t).
Proof. intros (Hd & _). split; [exact Hd|]. cbn. lia. Qed.

Lemma max_year_midnight (l : list Timestamp) : max_year (map midnight l) = max_year l.
Proof. induction l as [|t r IH]; simpl; [reflexivity|]. now rewrite IH. Qed.

Lemma months_in_year_midnight (l : list Timestamp) (y : Z) :
  months_in_year (map midnight l) y = months_in_year l y.
Proof.
  unfold months_in_year. do 2 f_equal.
  induction l as [|t r IH]; simpl; [reflexivity|].
  destruct (ts_year t =? y); simpl; now rewrite IH.
Qed.

Lemma clear_empty (td : list cell -> list cell) (hoje : date) (w : world) :
  (session_state w !! key_df = None \/
   exists l T, session_state w !! key_df = Some (SFrame l) /\ heap w !! l = Some T /\
               empty T = true) ->
  _clear_temporal_filters td hoje w = reset_to_today hoje w.
Proof.
  intros H. unfold _clear_temporal_filters. unfold bind at 1. rewrite stored_table_eq.
  destruct H as [->|(l & T & -> & -> & He)]; [reflexivity|].
  cbn [default from_option]. unfold id. now rewrite He.
Qed.

(** X22.  In a completed run the exporter leaves the loaded table with
    its date-time columns as text.  The callback, which reads the
    last-inspection column through [to_datetime] again (the correction of
    line 89), sets the same year and the same months as it would on the
    table as loaded, provided [to_datetime] keeps timestamps and reads a
    plain date YYYY-MM-DD as that day. *)
Theorem clear_after_run (to_datetime : list cell -> list cell)
    (T : DataFrame) (sel : Selection) (hoje hoje' : date) (w w' : world)
    (rep : report) (j : nat) :
  well_shaped T -> dates_valid T ->
  get_loc T col_ultima = Ok j -> dtype_at T j = datetime64_ns ->
  (forall c, In c (values T j) -> date_cell c) ->
  to_datetime (values T j) = values T j ->
  to_datetime (map strftime_cell (values T j)) = map midnight_cell (values T j) ->
  run T sel hoje w = (Ok rep, w') ->
  let l := fresh (dom (heap w)) in
  let as_loaded := mk_world (<[l := T]> (heap w')) (session_state w') (page w') in
  session_state w' !! key_df = Some (SFrame l) /\
  heap w' !! l = Some (exported T) /\
  fst (_clear_temporal_filters to_datetime hoje' w')
    = fst (_clear_temporal_filters to_datetime hoje' as_loaded) /\
  session_state (snd (_clear_temporal_filters to_datetime hoje' w'))
    = session_state (snd (_clear_temporal_filters to_datetime hoje' as_loaded)).
Proof.
  intros Hws Hdv Hj Hd Hcells Htd1 Htd2 H l as_loaded.
  destruct (run_Ok _ _ _ _ _ _ H)
    as (df1 & df2 & d & l0 & Hl0 & _ & _ & _ & _ & Ht & _ & _ & _ & _ & Hheap).
  fold l in Hl0. subst l0.
  unfold rewritten in Hheap. rewrite strftime_all_exported in Hheap by exact Hws.
  assert (Hk : session_state w' !! key_df = Some (SFrame l)).
  { pose proof (temporal_result_frame T hoje df1
                  (<[key_df := SFrame l]> (session_state w)) key_df) as Hf.
    rewrite Ht in Hf. cbn [fst snd] in Hf. rewrite Hf by discriminate.
    apply lookup_insert_eq. }
  split; [exact Hk|]. split; [exact Hheap|].
  assert (Hk0 : session_state as_loaded !! key_df = Some (SFrame l)) by exact Hk.
  assert (Hh0 : heap as_loaded !! l = Some T) by apply lookup_insert_eq.
  destruct (empty T) eqn:He.
  - rewrite (clear_empty _ hoje' w').
    + rewrite (clear_empty _ hoje' as_loaded); [split; reflexivity|].
      right. exists l, T. auto.
    + right. exists l, (exported T). rewrite exported_empty. auto.
  - destruct (timestamps_total (values T j) Hcells) as [v Hv].
    assert (Hjlt : (j < length (columns T))%nat) by now apply get_loc_lt in Hj.
    assert (Hev : values (exported T) j = map strftime_cell (values T j))
      by now apply exported_values.
    assert (Hvalid : forall t, In t v -> valid_ts t).
    { intros t Ht'. apply (timestamps_In _ _ t Hv), dropna_In in Ht' as [Ht' _].
      unfold values in Ht'. apply in_map_iff in Ht' as (r & Hc & Hr).
      exact (Hdv j r t Hj Hr Hc). }
    rewrite (clear_eq _ hoje' w' l (exported T) j (map midnight v)); try assumption.
    + rewrite (clear_eq _ hoje' as_loaded l T j v); try assumption.
      * destruct v as [|t0 v0] eqn:Ev; [split; reflexivity|].
        cbn [map is_nil]. rewrite <- Ev in *.
        assert (Hne : v <> []) by (rewrite Ev; discriminate).
        change (midnight t0 :: map midnight v0) with (map midnight (t0 :: v0)).
        rewrite <- Ev.
        rewrite (year_of_ts_max (map midnight v)).
        -- rewrite max_year_midnight, months_in_year_midnight.
           rewrite <- (year_of_ts_max v Hvalid Hne).
           destruct (omap month_name _); split; reflexivity.
        -- intros t (t' & <- & Ht')%in_map_iff. apply midnight_valid. auto.
        -- rewrite Ev. discriminate.
      * now rewrite Htd1, values_length.
      * now rewrite Htd1.
    + now rewrite exported_empty.
    + now apply exported_well_shaped.
    + unfold get_loc. rewrite exported_names. exact Hj.
    + rewrite Hev, Htd2, length_map, values_length.
      unfold exported. cbn [rows]. now rewrite length_map.
    + rewrite Hev, Htd2. now apply timestamps_midnight.
Qed.

(** *** The sign of the number of days *)

Lemma month_span (y m1 m2 d1 d2 : Z) :
  1 <= m1 -> m1 < m2 -> m2 <= 12 ->
  d1 <= default 0 (days_in_month !! Z.to_nat (m1 - 1))
        + (if (m1 =? 2) && is_leap y then 1 else 0) ->
  1 <= d2 ->
  days_before_month y m1 + d1 < days_before_month y m2 + d2.
Proof.
  intros H1 H12 H2 Hd1 Hd2.
  assert (C1 : m1 = 1 \/ m1 = 2 \/ m1 = 3 \/ m1 = 4 \/ m1 = 5 \/ m1 = 6 \/ m1 = 7 \/
               m1 = 8 \/ m1 = 9 \/ m1 = 10 \/ m1 = 11 \/ m1 = 12) by lia.
  assert (C2 : m2 = 1 \/ m2 = 2 \/ m2 = 3 \/ m2 = 4 \/ m2 = 5 \/ m2 = 6 \/ m2 = 7 \/
               m2 = 8 \/ m2 = 9 \/ m2 = 10 \/ m2 = 11 \/ m2 = 12) by lia.
  unfold days_before_month in *.
  destruct (is_leap y);
    destruct C1 as [ -> | [ -> | [ -> | [ -> | [ -> | [ -> | [ -> | [ -> | [ -> | [ -> | [ -> | -> ] ] ] ] ] ] ] ] ] ] ]; try lia;
    destruct C2 as [ -> | [ -> | [ -> | [ -> | [ -> | [ -> | [ -> | [ -> | [ -> | [ -> | [ -> | -> ] ] ] ] ] ] ] ] ] ] ]; try lia;
    simpl in *; lia.
Qed.

Lemma toordinal_lt (a b : date) :
  valid_date a -> valid_date b ->
  year a < year b \/
  (year a = year b /\ (month a < month b \/ (month a = month b /\ day a < day b))) ->
  toordinal a < toordinal b.
Proof.
  intros Ha Hb H. pose proof (day_of_year_bound a Ha) as Ba.
  pose proof (day_of_year_bound b Hb) as Bb. unfold toordinal.
  destruct H as [Hy|[Hy [Hm|[Hm Hd]]]].
  - assert (days_before_year (year a + 1) <= days_before_year (year b))
      by (apply days_before_year_mono; lia).
    rewrite days_before_year_step in *. destruct (is_leap (year a)); lia.
  - destruct Ha as (_ & Hma & Hda), Hb as (_ & Hmb & Hdb). rewrite <- Hy.
    pose proof (month_span (year a) (month a) (month b) (day a) (day b)) as S.
    rewrite <- Hy in *. lia.
  - rewrite Hy, Hm. lia.
Qed.

(** X23.  The sign of the computed column.  For a well-formed current
    date and a well-formed last inspection, the number of days is not
    negative exactly when the inspection is not after the current date, and
    is 0 exactly when the inspection is of the current date, at whatever
    time of the day. *)
Theorem dias_desde_sign (hoje : date) (t : Timestamp) :
  valid_date hoje -> valid_ts t ->
  exists n, dias_desde hoje (Ts t) = Ok (Some n) /\
    (0 <= n <-> date_le (date_of t) hoje) /\
    (n = 0 <-> date_of t = hoje).
Proof.
  intros Hh (Hd & _). exists (days_between hoje (date_of t)).
  split; [reflexivity|]. unfold days_between, date_le.
  remember (date_of t) as a eqn:Ea. clear Ea.
  assert (Htri : a = hoje \/
            (year a < year hoje \/
             (year a = year hoje /\ (month a < month hoje \/
                (month a = month hoje /\ day a < day hoje)))) \/
            (year hoje < year a \/
             (year hoje = year a /\ (month hoje < month a \/
                (month hoje = month a /\ day hoje < day a))))).
  { destruct a as [ya ma da], hoje as [yh mh dh]. cbn.
    destruct (Z.lt_trichotomy ya yh) as [|[->|]]; [lia| |lia].
    destruct (Z.lt_trichotomy ma mh) as [|[->|]]; [lia| |lia].
    destruct (Z.lt_trichotomy da dh) as [|[->|]]; [lia| |lia].
    now left. }
  destruct Htri as [Heq|[Hlt|Hgt]].
  - subst a. split; split; intros; try lia; reflexivity.
  - pose proof (toordinal_lt a hoje Hd Hh Hlt).
    split; split; intros H'; try lia. subst a. lia.
  - pose proof (toordinal_lt hoje a Hh Hd Hgt).
    split; split; intros H'; try lia. subst a. lia.
Qed.

(** ** The further properties at work *)

Ltac valid_dates :=
  unfold valid_ts, valid_date; simpl; lia.

Lemma disponiveis_mixed_witness :
  get_loc T_mixed col_rpa = Ok 1%nat /\
  disponiveis col_rpa T_mixed = Raise TypeError.
Proof.
  assert (H : get_loc T_mixed col_rpa = Ok 1%nat) by reflexivity.
  split; [exact H|].
  apply (disponiveis_mixed col_rpa T_mixed 1 (Str "RPA 1") (Int 2) H);
    [now left|right; now left|reflexivity|reflexivity|discriminate].
Defined.

Lemma metrics_shown_witness :
  metrics T1 w_new = (Ok tt, snd (metrics T1 w_new)) /\
  exists j o, get_loc T1 col_ultima = Ok j /\
    page (snd (metrics T1 w_new)) = [MetricTotal 4; MetricMaisAntiga o].
Proof.
  assert (H : metrics T1 w_new = (Ok tt, snd (metrics T1 w_new)))
    by (vm_compute; reflexivity).
  split; [exact H|].
  destruct (metrics_shown T1 w_new _ H) as (j & o & Hj & Hw & _).
  exists j, o. split; [exact Hj|]. now rewrite Hw.
Defined.

Lemma init_state_keeps_witness :
  session_state w_2022 !! key_year = Some (SInt 2022) /\
  session_state w_2022 !! key_months = Some (SNames ["Janeiro"]) /\
  init_state O hoje1 w_2022 = (Ok tt, w_2022).
Proof.
  assert (H1 : session_state w_2022 !! key_year = Some (SInt 2022))
    by (vm_compute; reflexivity).
  assert (H2 : session_state w_2022 !! key_months = Some (SNames ["Janeiro"]))
    by (vm_compute; reflexivity).
  split; [exact H1|]. split; [exact H2|].
  exact (init_state_keeps O hoje1 w_2022 _ _ H1 H2).
Defined.

Lemma init_state_first_visit_witness :
  heap w_T1 !! O = Some T1 /\
  session_state w_T1 !! key_year = None /\
  session_state w_T1 !! key_months = None /\
  get_loc T1 col_ultima = Ok 8%nat /\
  exists y, fst (init_state O hoje1 w_T1) = Ok tt /\
    session_state (snd (init_state O hoje1 w_T1)) !! key_year = Some (SInt y).
Proof.
  assert (H1 : heap w_T1 !! O = Some T1) by (vm_compute; reflexivity).
  assert (H2 : session_state w_T1 !! key_year = None) by (vm_compute; reflexivity).
  assert (H3 : session_state w_T1 !! key_months = None) by (vm_compute; reflexivity).
  assert (H4 : get_loc T1 col_ultima = Ok 8%nat) by reflexivity.
  repeat (split; [assumption|]).
  destruct (init_state_first_visit O hoje1 T1 w_T1 8
              [mk_ts 2024 1 15 10 30 0; mk_ts 2023 6 1 0 0 0; mk_ts 2024 1 15 0 0 0]
              H1 H2 H3 H4 eq_refl) as (y & Hy & _).
  exists y. rewrite Hy. split; [reflexivity|]. cbn [snd session_state].
  rewrite lookup_insert_ne by discriminate. apply lookup_insert_eq.
Defined.

Lemma export_twice_witness :
  well_shaped T1 /\ heap w_T1 !! O = Some T1 /\
  exists ws w1,
    download_excel_with_formatting O "a.xlsx" "Dados" w_T1 = (Ok ws, w1) /\
    download_excel_with_formatting O "b.xlsx" "Dados" w1 = (Ok ws, w1).
Proof.
  assert (H1 : well_shaped T1) by shape.
  assert (H2 : heap w_T1 !! O = Some T1) by (vm_compute; reflexivity).
  split; [exact H1|]. split; [exact H2|].
  exact (export_twice O "a.xlsx" "b.xlsx" "Dados" T1 w_T1 H1 H2).
Defined.

Lemma export_empty_table_witness :
  well_shaped (mk_df schema []) /\
  exists w',
    fst (download_excel_with_formatting O "a.xlsx" "Dados"
           (mk_world (<[O := mk_df schema []]> ∅) ∅ []))
      = Ok (mk_ws "Dados" (map fst schema) []
              (concat (map (fun p =>
                 [set_column (fst p) (fst p) None (Some center_format);
                  set_column (fst p) (fst p) (Some (Text.len (snd p) + 2)) None])
                 (enumerate (map fst schema))))) /\
    page w' = [].
Proof.
  assert (H1 : well_shaped (mk_df schema [])) by shape.
  split; [exact H1|].
  destruct (export_empty_table O "a.xlsx" "Dados" (mk_df schema [])
              (mk_world (<[O := mk_df schema []]> ∅) ∅ []) H1)
    as (w' & Hrun & _ & Hp); [vm_compute; reflexivity|reflexivity|].
  exists w'. rewrite Hrun. split; [reflexivity|exact Hp].
Defined.

Lemma working_table_shape_witness :
  well_shaped T1 /\
  run T1 sel1 hoje1 w_jan
    = (Ok (report_of (run T1 sel1 hoje1 w_jan)), snd (run T1 sel1 hoje1 w_jan)) /\
  names (working (report_of (run T1 sel1 hoje1 w_jan))) = (names T1 ++ [col_dias])%list.
Proof.
  assert (H1 : well_shaped T1) by shape.
  assert (H2 : run T1 sel1 hoje1 w_jan
               = (Ok (report_of (run T1 sel1 hoje1 w_jan)),
                  snd (run T1 sel1 hoje1 w_jan))) by (vm_compute; reflexivity).
  split; [exact H1|]. split; [exact H2|].
  destruct (working_table_shape T1 sel1 hoje1 w_jan _ _ H1 H2) as (_ & Hn & _).
  apply Hn. apply (proj1 (index_of_None col_dias (names T1))). reflexivity.
Defined.

Lemma run_downloads_witness :
  well_shaped T1 /\
  run T1 sel1 hoje1 w_jan
    = (Ok (report_of (run T1 sel1 hoje1 w_jan)), snd (run T1 sel1 hoje1 w_jan)) /\
  header (buffer_completo (report_of (run T1 sel1 hoje1 w_jan))) = names T1 /\
  length (body (buffer_completo (report_of (run T1 sel1 hoje1 w_jan)))) = 4%nat.
Proof.
  assert (H1 : well_shaped T1) by shape.
  assert (H2 : run T1 sel1 hoje1 w_jan
               = (Ok (report_of (run T1 sel1 hoje1 w_jan)),
                  snd (run T1 sel1 hoje1 w_jan))) by (vm_compute; reflexivity).
  split; [exact H1|]. split; [exact H2|].
  destruct (run_downloads T1 sel1 hoje1 w_jan _ _ H1 H2) as (_ & Hh & Hb & _).
  split; [exact Hh|]. rewrite Hb. reflexivity.
Defined.

Lemma loader_columns_witness :
  load_and_preprocess_data to_datetime_ymd sheet1
    = Ok (table_of (load_and_preprocess_data to_datetime_ymd sheet1, blank)) /\
  names (table_of (load_and_preprocess_data to_datetime_ymd sheet1, blank))
    = ["Id"; "RPA"; col_tipo; col_fiscal; col_abertura; col_ultima].
Proof.
  assert (H : load_and_preprocess_data to_datetime_ymd sheet1
              = Ok (table_of (load_and_preprocess_data to_datetime_ymd sheet1, blank)))
    by (vm_compute; reflexivity).
  split; [exact H|].
  rewrite (proj1 (loader_columns to_datetime_ymd sheet1 _ H)). reflexivity.
Defined.

Lemma to_datetime_ymd_length (l : list cell) : length (to_datetime_ymd l) = length l.
Proof. unfold to_datetime_ymd. apply length_map. Defined.

Lemma loader_dates_witness :
  well_shaped sheet1 /\
  load_and_preprocess_data to_datetime_ymd sheet1
    = Ok (table_of (load_and_preprocess_data to_datetime_ymd sheet1, blank)) /\
  length (rows (table_of (load_and_preprocess_data to_datetime_ymd sheet1, blank)))
    = 2%nat.
Proof.
  assert (H1 : well_shaped sheet1) by shape.
  assert (H : load_and_preprocess_data to_datetime_ymd sheet1
              = Ok (table_of (load_and_preprocess_data to_datetime_ymd sheet1, blank)))
    by (vm_compute; reflexivity).
  split; [exact H1|]. split; [exact H|].
  destruct (loader_dates to_datetime_ymd sheet1 _ to_datetime_ymd_length H1 H)
    as (_ & Hl & _).
  rewrite Hl. reflexivity.
Defined.

Lemma loader_fiscal_witness :
  well_shaped sheet1 /\
  load_and_preprocess_data to_datetime_ymd sheet1
    = Ok (table_of (load_and_preprocess_data to_datetime_ymd sheet1, blank)) /\
  exists j,
    get_loc (table_of (load_and_preprocess_data to_datetime_ymd sheet1, blank)) col_fiscal
      = Ok j /\
    values (table_of (load_and_preprocess_data to_datetime_ymd sheet1, blank)) j
      = [Str "Fiscal SIGA RPA 1"; Str "Fiscal SIGA RPA 2"].
Proof.
  assert (H1 : well_shaped sheet1) by shape.
  assert (H : load_and_preprocess_data to_datetime_ymd sheet1
              = Ok (table_of (load_and_preprocess_data to_datetime_ymd sheet1, blank)))
    by (vm_compute; reflexivity).
  split; [exact H1|]. split; [exact H|].
  destruct (loader_fiscal to_datetime_ymd sheet1 _ to_datetime_ymd_length H1 H)
    as (j0 & j & Hj0 & Hj & _ & Hv).
  exists j. split; [exact Hj|]. rewrite Hv.
  vm_compute in Hj0. injection Hj0 as <-. reflexivity.
Defined.

Lemma loader_keeps_columns_witness :
  well_shaped sheet1 /\
  get_loc sheet1 col_rpa = Ok 2%nat /\
  exists j,
    get_loc (table_of (load_and_preprocess_data to_datetime_ymd sheet1, blank)) col_rpa
      = Ok j /\
    values (table_of (load_and_preprocess_data to_datetime_ymd sheet1, blank)) j
      = [Str "RPA 1"; Str "RPA 2"].
Proof.
  assert (H1 : well_shaped sheet1) by shape.
  assert (H : load_and_preprocess_data to_datetime_ymd sheet1
              = Ok (table_of (load_and_preprocess_data to_datetime_ymd sheet1, blank)))
    by (vm_compute; reflexivity).
  assert (H2 : get_loc sheet1 col_rpa = Ok 2%nat) by reflexivity.
  split; [exact H1|]. split; [exact H2|].
  destruct (loader_keeps_columns to_datetime_ymd sheet1 _ col_rpa 2
              to_datetime_ymd_length H1 H H2)
    as (j & Hj & _ & Hv);
    [discriminate|discriminate|discriminate|vm_compute; intuition discriminate|].
  exists j. split; [exact Hj|]. rewrite Hv. reflexivity.
Defined.

Lemma clear_without_table_witness :
  session_state w_new !! key_df = None /\
  session_state (snd (_clear_temporal_filters to_datetime_ymd hoje1 w_new)) !! key_year
    = Some (SInt 2024).
Proof.
  assert (H : session_state w_new !! key_df = None) by (vm_compute; reflexivity).
  split; [exact H|].
  rewrite (clear_without_table to_datetime_ymd hoje1 w_new (or_introl H)).
  cbn [snd session_state]. rewrite lookup_insert_ne by discriminate.
  apply lookup_insert_eq.
Defined.

Lemma clear_resets_to_latest_witness :
  session_state w_T1 !! key_df = Some (SFrame O) /\ heap w_T1 !! O = Some T1 /\
  well_shaped T1 /\ get_loc T1 col_ultima = Ok 8%nat /\
  exists y ms,
    _clear_temporal_filters to_datetime_ymd hoje1 w_T1 =
      (Ok tt, mk_world (heap w_T1)
                (<[key_months := SNames ms]> (<[key_year := SInt y]> (session_state w_T1)))
                (page w_T1)) /\
    ms <> [].
Proof.
  assert (H1 : session_state w_T1 !! key_df = Some (SFrame O))
    by (vm_compute; reflexivity).
  assert (H2 : heap w_T1 !! O = Some T1) by (vm_compute; reflexivity).
  assert (H3 : well_shaped T1) by shape.
  assert (H4 : get_loc T1 col_ultima = Ok 8%nat) by reflexivity.
  repeat (split; [assumption|]).
  destruct (clear_resets_to_latest to_datetime_ymd hoje1 w_T1 O T1 8 H1 H2 eq_refl H3 H4)
    as (y & ms & Hrun & _ & _ & _ & Hne).
  - reflexivity.
  - intros c Hc. vm_compute in Hc.
    destruct Hc as [<-|[<-|[<-|[<-|[]]]]];
      try (left; reflexivity); right; eexists; (split; [reflexivity|valid_dates]).
  - eexists. left. reflexivity.
  - exists y, ms. split; [exact Hrun|exact Hne].
Defined.

Lemma clear_after_run_witness :
  well_shaped T1 /\ dates_valid T1 /\ get_loc T1 col_ultima = Ok 8%nat /\
  to_datetime_ymd (values T1 8) = values T1 8 /\
  to_datetime_ymd (map strftime_cell (values T1 8)) = map midnight_cell (values T1 8) /\
  run T1 sel1 hoje1 w_jan
    = (Ok (report_of (run T1 sel1 hoje1 w_jan)), snd (run T1 sel1 hoje1 w_jan)) /\
  heap (snd (run T1 sel1 hoje1 w_jan)) !! O = Some (exported T1).
Proof.
  assert (H1 : well_shaped T1) by shape.
  assert (H2 : dates_valid T1).
  { intros j r t Hj Hr Hc. vm_compute in Hj. injection Hj as <-.
    simpl in Hr. destruct Hr as [<-|[<-|[<-|[<-|[]]]]]; vm_compute in Hc;
      try discriminate; injection Hc as <-; valid_dates. }
  assert (H3 : get_loc T1 col_ultima = Ok 8%nat) by reflexivity.
  assert (H4 : to_datetime_ymd (values T1 8) = values T1 8) by reflexivity.
  assert (H5 : to_datetime_ymd (map strftime_cell (values T1 8))
               = map midnight_cell (values T1 8)) by (vm_compute; reflexivity).
  assert (H6 : run T1 sel1 hoje1 w_jan
               = (Ok (report_of (run T1 sel1 hoje1 w_jan)),
                  snd (run T1 sel1 hoje1 w_jan))) by (vm_compute; reflexivity).
  repeat (split; [assumption|]).
  assert (H7 : forall c, In c (values T1 8) -> date_cell c).
  { intros c Hc. vm_compute in Hc.
    destruct Hc as [<-|[<-|[<-|[<-|[]]]]]; try (left; reflexivity); right; eauto. }
  exact (proj1 (proj2 (clear_after_run to_datetime_ymd T1 sel1 hoje1 hoje1 w_jan
                         (snd (run T1 sel1 hoje1 w_jan))
                         (report_of (run T1 sel1 hoje1 w_jan)) 8
                         H1 H2 H3 eq_refl H7 H4 H5 H6))).
Defined.

Lemma dias_desde_sign_witness :
  valid_date hoje1 /\ valid_ts (mk_ts 2024 1 15 10 30 0) /\
  exists n, dias_desde hoje1 (Ts (mk_ts 2024 1 15 10 30 0)) = Ok (Some n) /\ 0 <= n.
Proof.
  assert (H1 : valid_date hoje1) by (unfold valid_date; simpl; lia).
  assert (H2 : valid_ts (mk_ts 2024 1 15 10 30 0)) by valid_dates.
  split; [exact H1|]. split; [exact H2|].
  destruct (dias_desde_sign hoje1 _ H1 H2) as (n & Hn & Hs & _).
  exists n. split; [exact Hn|]. apply Hs. unfold date_le. simpl. lia.
Defined.

Lemma alert_table_shown_witness :
  rows W_ties <> [] /\ In col_dias (names W_ties) /\ ~ In "RPA" (names W_ties) /\
  exists c', show_alerta 30 ([1; 2], W_ties) w_new = (Raise (KeyError c'), w_new).
Proof.
  assert (H1 : rows W_ties <> []) by discriminate.
  assert (H2 : In col_dias (names W_ties)) by (right; right; left; reflexivity).
  assert (H3 : ~ In "RPA" (names W_ties))
    by (apply (proj1 (index_of_None "RPA" (names W_ties))); reflexivity).
  repeat (split; [assumption|]).
  destruct (proj2 (proj2 (alert_table_shown 30 ([1; 2], W_ties) w_new)) H1 H2 "RPA")
    as (c' & Hrun & _); [right; left; reflexivity|exact H3|].
  exists c'. exact Hrun.
Defined.

Lemma run_needs_columns_witness :
  ~ In col_tipo (names T_mixed) /\
  fst (run T_mixed sel1 hoje1 w_new) = Raise (KeyError col_tipo).
Proof.
  assert (H : ~ In col_tipo (names T_mixed))
    by (apply (proj1 (index_of_None col_tipo (names T_mixed))); reflexivity).
  split; [exact H|].
  now rewrite (proj1 (run_needs_columns T_mixed sel1 hoje1 w_new) H).
Defined.

Lemma loader_needs_columns_witness :
  In col_abertura (names sheet_sem_fiscal) /\ In col_ultima (names sheet_sem_fiscal) /\
  ~ In col_fiscal (names sheet_sem_fiscal) /\
  load_and_preprocess_data to_datetime_ymd sheet_sem_fiscal = Raise (KeyError col_fiscal).
Proof.
  assert (H1 : In col_abertura (names sheet_sem_fiscal)) by (right; left; reflexivity).
  assert (H2 : In col_ultima (names sheet_sem_fiscal))
    by (right; right; left; reflexivity).
  assert (H3 : ~ In col_fiscal (names sheet_sem_fiscal))
    by (apply (proj1 (index_of_None col_fiscal (names sheet_sem_fiscal))); reflexivity).
  repeat (split; [assumption|]).
  exact (proj2 (proj2 (proj2 (loader_needs_columns to_datetime_ymd sheet_sem_fiscal)))
           H1 H2 H3).
Defined.
